(** * Online compiler backend: batch executor and terminal sessions

    A shallow embedding of the execution services of the backend
    ([docker-service.js] in its two revisions, [mock-docker-service.js]
    in its two revisions, [mock-terminal-service.js],
    [terminal-service.js]) and of the route of [index.js] that runs them,
    with the properties of the specification that concern them and
    further properties of the code.

    Conventions of the embedding.
    - A JavaScript string is a [string]: a sequence of code units, here
      the code units below 256.  [toLowerCase], [\s] and [\w] are the
      JavaScript ones restricted to that range.
    - [undefined] is [None].
    - An [async] function is a [Task]: it runs against the machine (file
      system, image store, record of backend calls) and either resolves,
      throws (the promise rejects) or stays pending for ever.
    - What the outside world answers to each call (does [mkdir] fail, what
      does [container.wait()] yield, ...) is a [World], an argument of the
      model; [console.log] and [console.error] are not modelled. *)

From Stdlib Require Import String Ascii List Bool Arith ZArith Lia.
Import ListNotations.
Local Open Scope string_scope.

(** ** JavaScript strings *)

Module Js.

Definition code_unit (c : ascii) : nat := nat_of_ascii c.

Definition between (lo hi n : nat) : bool := Nat.leb lo n && Nat.leb n hi.

(** [String.prototype.toLowerCase] on one code unit below 256: the ASCII
    capitals and the Latin-1 capitals (U+00C0..U+00DE but U+00D7). *)
Definition lower_unit (c : ascii) : ascii :=
  let n := code_unit c in
  if between 65 90 n || (between 192 222 n && negb (Nat.eqb n 215))
  then ascii_of_nat (n + 32) else c.

Fixpoint toLowerCase (s : string) : string :=
  match s with
  | EmptyString => EmptyString
  | String c t => String (lower_unit c) (toLowerCase t)
  end.

(** The class [\s]: TAB, LF, VT, FF, CR, SPACE, NBSP. *)
Definition isSpace (c : ascii) : bool :=
  let n := code_unit c in
  between 9 13 n || Nat.eqb n 32 || Nat.eqb n 160.

(** The class [\w]: [A-Za-z0-9_]. *)
Definition isWord (c : ascii) : bool :=
  let n := code_unit c in
  between 48 57 n || between 65 90 n || Nat.eqb n 95 || between 97 122 n.

(** Truthiness of a string: every string but the empty one. *)
Definition truthy (s : string) : bool :=
  match s with EmptyString => false | String _ _ => true end.

(** [s.startsWith(p)], returning what follows [p]. *)
Fixpoint strip_prefix (p s : string) : option string :=
  match p, s with
  | EmptyString, _ => Some s
  | String a p', String b s' => if Ascii.eqb a b then strip_prefix p' s' else None
  | String _ _, EmptyString => None
  end.

Definition startsWith (s p : string) : bool :=
  match strip_prefix p s with Some _ => true | None => false end.

(** The line feed, the [\n] of a string literal. *)
Definition LF : string := String (ascii_of_nat 10) EmptyString.

Fixpoint trimStart (s : string) : string :=
  match s with
  | String c t => if isSpace c then trimStart t else s
  | EmptyString => s
  end.

(** [s] with the white space at its end left out. *)
Fixpoint trimEnd (s : string) : string :=
  match s with
  | EmptyString => EmptyString
  | String c t =>
      match trimEnd t with
      | EmptyString => if isSpace c then EmptyString else String c EmptyString
      | t' => String c t'
      end
  end.

(** [s.trim()]: white space and line terminators are the code units
    of [\s]. *)
Definition trim (s : string) : string := trimEnd (trimStart s).

Fixpoint drop (n : nat) (s : string) : string :=
  match n, s with
  | S k, String _ t => drop k t
  | _, _ => s
  end.

Fixpoint take (n : nat) (s : string) : string :=
  match n, s with
  | S k, String c t => String c (take k t)
  | _, _ => EmptyString
  end.

(** [s.substring(a, b)]: each index is clamped to [0 .. s.length] and
    the two are swapped when [a > b]. *)
Definition substring (s : string) (a b : Z) : string :=
  let len := Z.of_nat (String.length s) in
  let clamp i := Z.max 0 (Z.min i len) in
  let lo := Z.min (clamp a) (clamp b) in
  let hi := Z.max (clamp a) (clamp b) in
  take (Z.to_nat (hi - lo)) (drop (Z.to_nat lo) s).

(** [s.substring(1, s.length - 1)] *)
Definition inner (s : string) : string :=
  substring s 1 (Z.of_nat (String.length s) - 1).

Fixpoint endsWith_unit (s : string) (c : ascii) : bool :=
  match s with
  | EmptyString => false
  | String a EmptyString => Ascii.eqb a c
  | String _ t => endsWith_unit t c
  end.

Definition startsWith_unit (s : string) (c : ascii) : bool :=
  match s with
  | String a _ => Ascii.eqb a c
  | EmptyString => false
  end.

Definition double_quote : ascii := ascii_of_nat 34.
Definition single_quote : ascii := ascii_of_nat 39.

(** [s.startsWith(q) && s.endsWith(q)] for either quote. *)
Definition quoted (s : string) : bool :=
  (startsWith_unit s double_quote && endsWith_unit s double_quote)
  || (startsWith_unit s single_quote && endsWith_unit s single_quote).

(** [s.split(' ')[0]] *)
Fixpoint first_field (s : string) : string :=
  match s with
  | EmptyString => EmptyString
  | String c t => if Nat.eqb (code_unit c) 32 then EmptyString
                  else String c (first_field t)
  end.

(** A template placeholder [${v}]: [undefined] prints as "undefined". *)
Definition show (v : option string) : string :=
  match v with Some s => s | None => "undefined" end.

(** The property names every object literal inherits from
    [Object.prototype].  Reading one of them from an object that has no
    own property of that name yields the inherited member (a function, or
    the prototype itself for [__proto__]): a truthy value that is neither
    a string nor a profile. *)
Definition Object_prototype : list string :=
  [ "constructor"; "__defineGetter__"; "__defineSetter__"; "hasOwnProperty";
    "__lookupGetter__"; "__lookupSetter__"; "isPrototypeOf";
    "propertyIsEnumerable"; "toString"; "valueOf"; "__proto__";
    "toLocaleString" ].

Definition inherited (key : string) : bool :=
  existsb (String.eqb key) Object_prototype.

(** Own properties of an object literal, in the order written. *)
Fixpoint own {A : Type} (o : list (string * A)) (key : string) : option A :=
  match o with
  | [] => None
  | (k, v) :: o' => if String.eqb k key then Some v else own o' key
  end.

(** What [o[key]] evaluates to. *)
Inductive Member (A : Type) : Type :=
| Own (v : A)
| Inherited (name : string)
| Undefined.
Arguments Own {A} v.
Arguments Inherited {A} name.
Arguments Undefined {A}.

Definition get {A : Type} (o : list (string * A)) (key : string) : Member A :=
  match own o key with
  | Some v => Own v
  | None => if inherited key then Inherited key else Undefined
  end.

End Js.

(** ** The machine and asynchronous tasks *)

(** What reaches the isolation backend: the [HostConfig] of a container. *)
Record HostOptions : Type := {
  Binds : list string;
  NetworkMode : string;
  Memory : Z;
  MemorySwap : Z;
  CpuPeriod : Z;
  CpuQuota : Z;
  PidsLimit : Z;
  ReadonlyRootfs : bool;
  AutoRemove : bool
}.

Record ContainerConfig : Type := {
  Image : option string;
  Cmd : option (list string);
  WorkingDir : option string;
  HostConfig : HostOptions;
  Tty : bool;
  OpenStdin : bool;
  StdinOnce : bool
}.

(** The calls a service makes on the file system and on the Docker client,
    in the order made.  [ContainerStop], [ContainerKill] and
    [ContainerRemove] are the client's ways to end a container by force. *)
Inductive Action : Type :=
| Mkdir (dir : string)
| WriteFile (dir name content : string)
| Rm (dir : string)
| ImageInspect (image : option string)
| ImagePull (image : option string)
| ContainerCreate (config : ContainerConfig)
| ContainerStart
| ContainerAttach (stdin : string)
| ContainerWait
| ContainerLogs
| ContainerStop
| ContainerKill
| ContainerRemove.

Definition forced_termination (a : Action) : bool :=
  match a with
  | ContainerStop | ContainerKill | ContainerRemove => true
  | _ => false
  end.

Record Machine : Type := {
  dirs : list string;                       (* directories on disk *)
  files : list (string * string * string);  (* directory, name, content *)
  images : list string;                     (* images cached locally *)
  trace : list Action                       (* calls made so far, oldest first *)
}.

Definition note (a : Action) (h : Machine) : Machine :=
  {| dirs := dirs h; files := files h; images := images h;
     trace := trace h ++ [a] |}.

Definition dir_exists (d : string) (h : Machine) : bool :=
  existsb (String.eqb d) (dirs h).

Definition image_cached (i : option string) (h : Machine) : bool :=
  match i with
  | Some name => existsb (String.eqb name) (images h)
  | None => false
  end.

(** How an awaited call ends. *)
Inductive Reply (A : Type) : Type :=
| Resolved (a : A)
| Thrown (message : string)
| Pending.
Arguments Resolved {A} a.
Arguments Thrown {A} message.
Arguments Pending {A}.

Definition Task (A : Type) : Type := Machine -> Reply A * Machine.

Definition ret {A : Type} (a : A) : Task A := fun h => (Resolved a, h).

Definition throw {A : Type} (message : string) : Task A :=
  fun h => (Thrown message, h).

Definition bind {A B : Type} (m : Task A) (k : A -> Task B) : Task B :=
  fun h =>
    match m h with
    | (Resolved a, h') => k a h'
    | (Thrown e, h') => (Thrown e, h')
    | (Pending, h') => (Pending, h')
    end.

(** [try { m } catch (error) { handler error.message }] *)
Definition try_catch {A : Type} (m : Task A) (handler : string -> Task A) : Task A :=
  fun h =>
    match m h with
    | (Thrown e, h') => handler e h'
    | r => r
    end.

Declare Scope task_scope.
Delimit Scope task_scope with task.
Notation "x <- m ;; k" := (bind m (fun x => k))
  (at level 61, m at next level, right associativity) : task_scope.
Notation "m ;; k" := (bind m (fun _ => k))
  (at level 61, right associativity) : task_scope.

(** The answers of the outside world to the calls of one execution.
    [None] in a [_fails] field: the call succeeds; [Some message]: it
    throws an error with that message. *)
Inductive WaitOutcome : Type :=
| Exited (StatusCode : Z)
| WaitFails (message : string)
| NeverExits.

Record World : Type := {
  uuidv4 : string;                  (* the id drawn for this execution *)
  tempRoot : string;                (* [__dirname/../temp] *)
  mkdir_fails : option string;
  writeSource_fails : option string;
  writeInput_fails : option string;
  pull_fails : option string;
  create_fails : option string;
  start_fails : option string;
  attach_fails : option string;
  wait_outcome : WaitOutcome;
  logs_outcome : string + string;   (* the log text, or an error message *)
  rm_fails : option string;         (* the removal on the normal path *)
  rm_again_fails : option string    (* the removal in the catch block *)
}.

Definition attempt (a : Action) (fails : option string) (effect : Machine -> Machine)
  : Task unit :=
  fun h =>
    match fails with
    | Some e => (Thrown e, note a h)
    | None => (Resolved tt, effect (note a h))
    end.

Module fs.

Definition join (dir name : string) : string := dir ++ "/" ++ name.

(** [fs.mkdir(dir, { recursive: true })] *)
Definition mkdir (fails : option string) (dir : string) : Task unit :=
  attempt (Mkdir dir) fails
    (fun h => {| dirs := dir :: dirs h; files := files h;
                 images := images h; trace := trace h |}).

(** [fs.writeFile(path.join(dir, name), content)] *)
Definition writeFile (fails : option string) (dir name content : string)
  : Task unit :=
  attempt (WriteFile dir name content) fails
    (fun h => {| dirs := dirs h; files := (dir, name, content) :: files h;
                 images := images h; trace := trace h |}).

(** [fs.rm(dir, { recursive: true, force: true })]: the directory and
    what it holds are gone; a directory that is absent is not an error. *)
Definition rm (fails : option string) (dir : string) : Task unit :=
  attempt (Rm dir) fails
    (fun h => {| dirs := filter (fun d => negb (String.eqb dir d)) (dirs h);
                 files := filter (fun f => negb (String.eqb dir (fst (fst f))))
                                 (files h);
                 images := images h; trace := trace h |}).

End fs.

Module docker.

(** [docker.getImage(image).inspect()]: throws unless the image is in
    the local store. *)
Definition inspect (image : option string) : Task unit :=
  fun h =>
    if image_cached image h
    then (Resolved tt, note (ImageInspect image) h)
    else (Thrown ("No such image: " ++ Js.show image), note (ImageInspect image) h).

(** [docker.pull(image, ...)] followed to its end: on success the image
    is in the local store. *)
Definition pull (fails : option string) (image : option string) : Task unit :=
  attempt (ImagePull image) fails
    (fun h => {| dirs := dirs h; files := files h;
                 images := match image with
                           | Some name => name :: images h
                           | None => images h
                           end;
                 trace := trace h |}).

Definition createContainer (fails : option string) (config : ContainerConfig)
  : Task unit :=
  attempt (ContainerCreate config) fails (fun h => h).

Definition start (fails : option string) : Task unit :=
  attempt ContainerStart fails (fun h => h).

(** [container.attach(...)], then [stream.write(input); stream.end()] *)
Definition attach_write (fails : option string) (input : string) : Task unit :=
  attempt (ContainerAttach input) fails (fun h => h).

(** [container.wait()], resolving to [data.StatusCode] *)
Definition wait (o : WaitOutcome) : Task Z :=
  fun h =>
    match o with
    | Exited c => (Resolved c, note ContainerWait h)
    | WaitFails e => (Thrown e, note ContainerWait h)
    | NeverExits => (Pending, note ContainerWait h)
    end.

(** [container.logs({ stdout: true, stderr: true })], as a string *)
Definition logs (o : string + string) : Task string :=
  fun h =>
    match o with
    | inl text => (Resolved text, note ContainerLogs h)
    | inr e => (Thrown e, note ContainerLogs h)
    end.

End docker.

(** ** The result of a batch execution *)

Record ExecutionResult : Type := {
  executionId : string;
  status : string;
  output : string;
  exitCode : Z
}.

Inductive JsValue : Type :=
| JsString (s : string)
| JsNumber (z : Z)
| JsBool (b : bool).

(** The own properties of a result object: what a caller reads from it
    and what its JSON rendering holds. *)
Definition property (r : ExecutionResult) (key : string) : option JsValue :=
  if String.eqb key "executionId" then Some (JsString (executionId r))
  else if String.eqb key "status" then Some (JsString (status r))
  else if String.eqb key "output" then Some (JsString (output r))
  else if String.eqb key "exitCode" then Some (JsNumber (exitCode r))
  else None.

(** ** The Docker-backed batch executor ([docker-service.js]) *)

Module DockerService.

Local Open Scope task_scope.

Record LanguageConfig : Type := {
  image : string;
  extension : string;
  filename : string;
  command : list string;
  inputCommand : option (list string);
  workDir : string
}.

Definition languageConfigs : list (string * LanguageConfig) :=
  [ ("javascript",
     {| image := "node:16-alpine"; extension := "js"; filename := "program.js";
        command := ["node"; "/code/program.js"];
        inputCommand :=
          Some ["bash"; "-c"; "cat /code/input.txt | node /code/program.js"];
        workDir := "/code" |});
    ("python",
     {| image := "python:3.9-alpine"; extension := "py"; filename := "program.py";
        command := ["python"; "/code/program.py"];
        inputCommand :=
          Some ["bash"; "-c"; "cat /code/input.txt | python /code/program.py"];
        workDir := "/code" |});
    ("java",
     {| image := "openjdk:11-jdk-slim"; extension := "java"; filename := "Main.java";
        command := ["bash"; "-c"; "cd /code && javac Main.java && java Main"];
        inputCommand :=
          Some ["bash"; "-c";
                "cd /code && javac Main.java && cat input.txt | java Main"];
        workDir := "/code" |});
    ("cpp",
     {| image := "gcc:latest"; extension := "cpp"; filename := "program.cpp";
        command :=
          ["bash"; "-c"; "cd /code && g++ -o program program.cpp && ./program"];
        inputCommand :=
          Some ["bash"; "-c";
                "cd /code && g++ -o program program.cpp && cat input.txt | ./program"];
        workDir := "/code" |});
    ("c",
     {| image := "gcc:latest"; extension := "c"; filename := "program.c";
        command :=
          ["bash"; "-c"; "cd /code && gcc -o program program.c && ./program"];
        inputCommand :=
          Some ["bash"; "-c";
                "cd /code && gcc -o program program.c && cat input.txt | ./program"];
        workDir := "/code" |});
    ("html",
     {| image := "nginx:alpine"; extension := "html"; filename := "index.html";
        command := ["echo"; "HTML files are for preview only"];
        inputCommand := None;
        workDir := "/code" |}) ].

(** [config.f] for a truthy [config]: a property of the profile, or
    [undefined] when [config] is a member inherited from
    [Object.prototype]. *)
Definition field {A : Type} (f : LanguageConfig -> A) (config : Js.Member LanguageConfig)
  : option A :=
  match config with
  | Js.Own c => Some (f c)
  | _ => None
  end.

Definition field_inputCommand (config : Js.Member LanguageConfig)
  : option (list string) :=
  match config with
  | Js.Own c => inputCommand c
  | _ => None
  end.

(** *** [code.match(/public\s+class\s+(\w+)/)] *)

Fixpoint skip_spaces (s : string) : string :=
  match s with
  | String c t => if Js.isSpace c then skip_spaces t else s
  | EmptyString => s
  end.

Definition starts_with_space (s : string) : bool :=
  match s with
  | String c _ => Js.isSpace c
  | EmptyString => false
  end.

(** The longest run of [\w] at the head of [s]. *)
Fixpoint take_word (s : string) : string :=
  match s with
  | String c t => if Js.isWord c then String c (take_word t) else EmptyString
  | EmptyString => EmptyString
  end.

(** [\s+] then [lit]: none of the literals begins with a space, so the
    greedy [\s+] never has to give a space back. *)
Definition spaces_then (lit : string) (s : string) : option string :=
  if starts_with_space s then Js.strip_prefix lit (skip_spaces s) else None.

(** The pattern anchored at the head of [s]; the result is group 1. *)
Definition match_here (s : string) : option string :=
  match Js.strip_prefix "public" s with
  | Some r1 =>
      match spaces_then "class" r1 with
      | Some r2 =>
          if starts_with_space r2
          then match take_word (skip_spaces r2) with
               | EmptyString => None
               | w => Some w
               end
          else None
      | None => None
      end
  | None => None
  end.

(** The leftmost match. *)
Fixpoint match_public_class (code : string) : option string :=
  match match_here code with
  | Some w => Some w
  | None =>
      match code with
      | String _ t => match_public_class t
      | EmptyString => None
      end
  end.

(** *** [executeCode] *)

(** The name of the source file in the workspace. *)
Definition sourceFilename (config : Js.Member LanguageConfig)
  (code language : string) : string :=
  if String.eqb (Js.toLowerCase language) "java" then
    let className :=
      match match_public_class code with
      | Some name => name
      | None => "Main"
      end in
    className ++ ".java"
  else
    match field filename config with
    | Some f => if Js.truthy f then f else "program." ++ Js.show (field extension config)
    | None => "program." ++ Js.show (field extension config)
    end.

Definition containerConfig (config : Js.Member LanguageConfig)
  (tempDir input : string) : ContainerConfig :=
  {| Image := field image config;
     Cmd := if Js.truthy input
            then match field_inputCommand config with
                 | Some c => Some c
                 | None => field command config
                 end
            else field command config;
     WorkingDir := field workDir config;
     HostConfig :=
       {| Binds := [tempDir ++ ":/code"];
          NetworkMode := "none";
          Memory := 512 * 1024 * 1024;
          MemorySwap := 512 * 1024 * 1024;
          CpuPeriod := 100000;
          CpuQuota := 50000;
          PidsLimit := 50;
          ReadonlyRootfs := false;
          AutoRemove := true |};
     Tty := false;
     OpenStdin := true;
     StdinOnce := true |}.

(** [pullImage(image)] *)
Definition pullImage (w : World) (image : option string) : Task unit :=
  docker.pull (pull_fails w) image.

Definition tempDir (w : World) : string := fs.join (tempRoot w) (uuidv4 w).

Definition when (b : bool) (m : Task unit) : Task unit :=
  if b then m else ret tt.

Definition isSome {A : Type} (o : option A) : bool :=
  match o with Some _ => true | None => false end.

Definition executeCode (w : World) (code language input : string)
  : Task ExecutionResult :=
  match Js.get languageConfigs (Js.toLowerCase language) with
  | Js.Undefined => throw ("Unsupported language: " ++ language)
  | config =>
      let executionId := uuidv4 w in
      let tempDir := tempDir w in
      try_catch
        (fs.mkdir (mkdir_fails w) tempDir ;;
         let filename := sourceFilename config code language in
         fs.writeFile (writeSource_fails w) tempDir filename code ;;
         when (Js.truthy input)
           (fs.writeFile (writeInput_fails w) tempDir "input.txt" input) ;;
         try_catch (docker.inspect (field image config))
           (fun _ => pullImage w (field image config)) ;;
         docker.createContainer (create_fails w)
           (containerConfig config tempDir input) ;;
         docker.start (start_fails w) ;;
         when (Js.truthy input && negb (isSome (field_inputCommand config)))
           (docker.attach_write (attach_fails w) input) ;;
         StatusCode <- docker.wait (wait_outcome w) ;;
         logs <- docker.logs (logs_outcome w) ;;
         fs.rm (rm_fails w) tempDir ;;
         ret {| executionId := executionId;
                status := if Z.eqb StatusCode 0 then "success" else "error";
                output := logs;
                exitCode := StatusCode |})
        (fun message =>
           try_catch (fs.rm (rm_again_fails w) tempDir) (fun _ => ret tt) ;;
           ret {| executionId := executionId;
                  status := "error";
                  output := message;
                  exitCode := 1 |})
  end.

End DockerService.

(** ** The other revision of [docker-service.js]

    It has no [filename] and no [inputCommand] in its profiles, no [html]
    profile, always pipes the input through the attached stream and asks
    for a read-only root file system. *)

Module DockerServiceStdin.

Local Open Scope task_scope.

Record LanguageConfig : Type := {
  image : string;
  extension : string;
  command : list string;
  workDir : string
}.

Definition languageConfigs : list (string * LanguageConfig) :=
  [ ("javascript",
     {| image := "node:16-alpine"; extension := "js";
        command := ["node"; "/code/program.js"]; workDir := "/code" |});
    ("python",
     {| image := "python:3.9-alpine"; extension := "py";
        command := ["python"; "/code/program.py"]; workDir := "/code" |});
    ("java",
     {| image := "openjdk:11-jdk-slim"; extension := "java";
        command := ["bash"; "-c"; "cd /code && javac Main.java && java Main"];
        workDir := "/code" |});
    ("cpp",
     {| image := "gcc:latest"; extension := "cpp";
        command :=
          ["bash"; "-c"; "cd /code && g++ -o program program.cpp && ./program"];
        workDir := "/code" |});
    ("c",
     {| image := "gcc:latest"; extension := "c";
        command :=
          ["bash"; "-c"; "cd /code && gcc -o program program.c && ./program"];
        workDir := "/code" |}) ].

Definition field {A : Type} (f : LanguageConfig -> A) (config : Js.Member LanguageConfig)
  : option A :=
  match config with
  | Js.Own c => Some (f c)
  | _ => None
  end.

Definition sourceFilename (config : Js.Member LanguageConfig)
  (code language : string) : string :=
  if String.eqb (Js.toLowerCase language) "java" then
    let className :=
      match DockerService.match_public_class code with
      | Some name => name
      | None => "Main"
      end in
    className ++ ".java"
  else "program." ++ Js.show (field extension config).

Definition containerConfig (config : Js.Member LanguageConfig)
  (tempDir : string) : ContainerConfig :=
  {| Image := field image config;
     Cmd := field command config;
     WorkingDir := field workDir config;
     HostConfig :=
       {| Binds := [tempDir ++ ":/code"];
          NetworkMode := "none";
          Memory := 512 * 1024 * 1024;
          MemorySwap := 512 * 1024 * 1024;
          CpuPeriod := 100000;
          CpuQuota := 50000;
          PidsLimit := 50;
          ReadonlyRootfs := true;
          AutoRemove := true |};
     Tty := false;
     OpenStdin := true;
     StdinOnce := true |}.

Definition pullImage (w : World) (image : option string) : Task unit :=
  docker.pull (pull_fails w) image.

Definition executeCode (w : World) (code language input : string)
  : Task ExecutionResult :=
  match Js.get languageConfigs (Js.toLowerCase language) with
  | Js.Undefined => throw ("Unsupported language: " ++ language)
  | config =>
      let executionId := uuidv4 w in
      let tempDir := DockerService.tempDir w in
      try_catch
        (fs.mkdir (mkdir_fails w) tempDir ;;
         let filename := sourceFilename config code language in
         fs.writeFile (writeSource_fails w) tempDir filename code ;;
         DockerService.when (Js.truthy input)
           (fs.writeFile (writeInput_fails w) tempDir "input.txt" input) ;;
         try_catch (docker.inspect (field image config))
           (fun _ => pullImage w (field image config)) ;;
         docker.createContainer (create_fails w)
           (containerConfig config tempDir) ;;
         docker.start (start_fails w) ;;
         DockerService.when (Js.truthy input)
           (docker.attach_write (attach_fails w) input) ;;
         StatusCode <- docker.wait (wait_outcome w) ;;
         logs <- docker.logs (logs_outcome w) ;;
         fs.rm (rm_fails w) tempDir ;;
         ret {| executionId := executionId;
                status := if Z.eqb StatusCode 0 then "success" else "error";
                output := logs;
                exitCode := StatusCode |})
        (fun message =>
           try_catch (fs.rm (rm_again_fails w) tempDir) (fun _ => ret tt) ;;
           ret {| executionId := executionId;
                  status := "error";
                  output := message;
                  exitCode := 1 |})
  end.

End DockerServiceStdin.

(** ** Several executions in flight

    JavaScript runs one call at a time and switches between calls at an
    [await].  A call of [executeCode] is followed here from one [await] to
    the next, each a call of the backend that is run against the machine
    the calls share; a pull is asked for at one step and ends at a later
    one, so that other calls may look for the image in between. *)

Module ConcurrentExecutions.

(** A call of [executeCode]: its arguments, and what the world answers
    to it. *)
Record Call : Type := {
  world : World;
  code : string;
  language : string;
  input : string
}.

Definition config (c : Call) : Js.Member DockerService.LanguageConfig :=
  Js.get DockerService.languageConfigs (Js.toLowerCase (language c)).

Definition image (c : Call) : option string :=
  DockerService.field DockerService.image (config c).

Definition writes_stdin (c : Call) : bool :=
  Js.truthy (input c)
  && negb (DockerService.isSome (DockerService.field_inputCommand (config c))).

(** The [await] a call stands at. *)
Inductive Stage : Type :=
| AtMkdir
| AtWriteSource
| AtWriteInput
| AtInspect
| AtPull                      (* the inspect threw: [pullImage] is next *)
| PullUnderWay                (* awaiting the end of its pull *)
| AtCreate
| AtStart
| AtAttach
| AtWait
| AtLogs (StatusCode : Z)
| AtRm (StatusCode : Z) (logs : string)
| AtRecover (message : string)          (* the [catch] block *)
| Returned (reply : Reply ExecutionResult).

(** Where a call goes after an awaited call of the backend: on, to the
    [catch] block when it threw, nowhere when it never returns. *)
Definition onward {A : Type} (r : Reply A * Machine) (k : A -> Stage)
  : Stage * Machine :=
  match r with
  | (Resolved a, h) => (k a, h)
  | (Thrown e, h) => (AtRecover e, h)
  | (Pending, h) => (Returned Pending, h)
  end.

(** One step of a call: the awaited call of the backend is run against
    the machine, and the call goes to its next [await]. *)
Definition advance (c : Call) (s : Stage) (h : Machine) : Stage * Machine :=
  let w := world c in
  let dir := DockerService.tempDir w in
  match s with
  | AtMkdir =>
      onward (fs.mkdir (mkdir_fails w) dir h) (fun _ => AtWriteSource)
  | AtWriteSource =>
      onward (fs.writeFile (writeSource_fails w) dir
                (DockerService.sourceFilename (config c) (code c) (language c))
                (code c) h)
        (fun _ => if Js.truthy (input c) then AtWriteInput else AtInspect)
  | AtWriteInput =>
      onward (fs.writeFile (writeInput_fails w) dir "input.txt" (input c) h)
        (fun _ => AtInspect)
  | AtInspect =>
      match docker.inspect (image c) h with
      | (Resolved _, h') => (AtCreate, h')
      | (Thrown _, h') => (AtPull, h')
      | (Pending, h') => (Returned Pending, h')
      end
  | AtPull => (PullUnderWay, note (ImagePull (image c)) h)
  | PullUnderWay =>
      match pull_fails w with
      | Some e => (AtRecover e, h)
      | None =>
          (AtCreate,
           {| dirs := dirs h; files := files h;
              images := match image c with
                        | Some name => name :: images h
                        | None => images h
                        end;
              trace := trace h |})
      end
  | AtCreate =>
      onward (docker.createContainer (create_fails w)
                (DockerService.containerConfig (config c) dir (input c)) h)
        (fun _ => AtStart)
  | AtStart =>
      onward (docker.start (start_fails w) h)
        (fun _ => if writes_stdin c then AtAttach else AtWait)
  | AtAttach =>
      onward (docker.attach_write (attach_fails w) (input c) h)
        (fun _ => AtWait)
  | AtWait => onward (docker.wait (wait_outcome w) h) AtLogs
  | AtLogs StatusCode =>
      onward (docker.logs (logs_outcome w) h) (AtRm StatusCode)
  | AtRm StatusCode logs =>
      onward (fs.rm (rm_fails w) dir h)
        (fun _ =>
           Returned
             (Resolved {| executionId := uuidv4 w;
                          status := if Z.eqb StatusCode 0 then "success"
                                    else "error";
                          output := logs;
                          exitCode := StatusCode |}))
  | AtRecover message =>
      (Returned (Resolved {| executionId := uuidv4 w;
                             status := "error";
                             output := message;
                             exitCode := 1 |}),
       snd (fs.rm (rm_again_fails w) dir h))
  | Returned _ => (s, h)
  end.

(** A call in flight: where it stands, what its inspect found when it
    has looked for the image ([true]: the image was there), and the calls
    of the backend it has made. *)
Record Running : Type := {
  stage : Stage;
  found : option bool;
  made : list Action
}.

Record Pool : Type := {
  machine : Machine;
  running : list Running
}.

(** A call arrives: for a language without a profile it throws at
    once. *)
Definition arrive (c : Call) : Running :=
  {| stage := match config c with
              | Js.Undefined =>
                  Returned (Thrown ("Unsupported language: " ++ language c))
              | _ => AtMkdir
              end;
     found := None;
     made := [] |}.

Definition move (c : Call) (r : Running) (h : Machine) : Running * Machine :=
  let (s, h') := advance c (stage r) h in
  ({| stage := s;
      found := match stage r with
               | AtInspect => Some (image_cached (image c) h)
               | _ => found r
               end;
      made := made r ++ skipn (List.length (trace h)) (trace h') |},
   h').

Fixpoint replace {A : Type} (i : nat) (x : A) (l : list A) : list A :=
  match l, i with
  | [], _ => []
  | _ :: t, O => x :: t
  | a :: t, S k => a :: replace k x t
  end.

(** The call numbered [i] takes its next step. *)
Definition step (calls : list Call) (i : nat) (p : Pool) : Pool :=
  match nth_error calls i, nth_error (running p) i with
  | Some c, Some r =>
      let (r', h') := move c r (machine p) in
      {| machine := h'; running := replace i r' (running p) |}
  | _, _ => p
  end.

(** A schedule: which call moves next, in order. *)
Fixpoint run (calls : list Call) (schedule : list nat) (p : Pool) : Pool :=
  match schedule with
  | [] => p
  | i :: rest => run calls rest (step calls i p)
  end.

Definition start (calls : list Call) (h : Machine) : Pool :=
  {| machine := h; running := map arrive calls |}.

Definition is_pull (a : Action) : bool :=
  match a with
  | ImagePull _ => true
  | _ => false
  end.

(** The pulls among the calls made. *)
Definition pulls (l : list Action) : nat := List.length (filter is_pull l).

(** Has the call asked for a pull. *)
Definition issued (r : Running) : bool := existsb is_pull (made r).

(** [cached] is what the inspect of the call found, if it has looked. *)
Definition agrees (f : option bool) (cached : bool) : Prop :=
  match f with
  | Some b => b = cached
  | None => True
  end.

(** *** A call on its own

    Apart from what its inspect finds, a call goes its way whatever the
    machine holds. *)

(** The stage after [s], when the inspect finds [cached]. *)
Definition next_stage (c : Call) (cached : bool) (s : Stage) : Stage :=
  let w := world c in
  let after (fails : option string) (s' : Stage) : Stage :=
    match fails with
    | Some e => AtRecover e
    | None => s'
    end in
  match s with
  | AtMkdir => after (mkdir_fails w) AtWriteSource
  | AtWriteSource =>
      after (writeSource_fails w)
        (if Js.truthy (input c) then AtWriteInput else AtInspect)
  | AtWriteInput => after (writeInput_fails w) AtInspect
  | AtInspect => if cached then AtCreate else AtPull
  | AtPull => PullUnderWay
  | PullUnderWay => after (pull_fails w) AtCreate
  | AtCreate => after (create_fails w) AtStart
  | AtStart => after (start_fails w) (if writes_stdin c then AtAttach else AtWait)
  | AtAttach => after (attach_fails w) AtWait
  | AtWait =>
      match wait_outcome w with
      | Exited StatusCode => AtLogs StatusCode
      | WaitFails e => AtRecover e
      | NeverExits => Returned Pending
      end
  | AtLogs StatusCode =>
      match logs_outcome w with
      | inl logs => AtRm StatusCode logs
      | inr e => AtRecover e
      end
  | AtRm StatusCode logs =>
      after (rm_fails w)
        (Returned
           (Resolved {| executionId := uuidv4 w;
                        status := if Z.eqb StatusCode 0 then "success"
                                  else "error";
                        output := logs;
                        exitCode := StatusCode |}))
  | AtRecover message =>
      Returned (Resolved {| executionId := uuidv4 w;
                            status := "error";
                            output := message;
                            exitCode := 1 |})
  | Returned _ => s
  end.

(** The call of the backend made at a stage. *)
Definition noted (c : Call) (s : Stage) : list Action :=
  let dir := DockerService.tempDir (world c) in
  match s with
  | AtMkdir => [Mkdir dir]
  | AtWriteSource =>
      [WriteFile dir
         (DockerService.sourceFilename (config c) (code c) (language c))
         (code c)]
  | AtWriteInput => [WriteFile dir "input.txt" (input c)]
  | AtInspect => [ImageInspect (image c)]
  | AtPull => [ImagePull (image c)]
  | PullUnderWay => []
  | AtCreate =>
      [ContainerCreate (DockerService.containerConfig (config c) dir (input c))]
  | AtStart => [ContainerStart]
  | AtAttach => [ContainerAttach (input c)]
  | AtWait => [ContainerWait]
  | AtLogs _ => [ContainerLogs]
  | AtRm _ _ => [Rm dir]
  | AtRecover _ => [Rm dir]
  | Returned _ => []
  end.

(** How far a call has come. *)
Definition rank (s : Stage) : nat :=
  match s with
  | AtMkdir => 0
  | AtWriteSource => 1
  | AtWriteInput => 2
  | AtInspect => 3
  | AtPull => 4
  | PullUnderWay => 5
  | AtCreate => 6
  | AtStart => 7
  | AtAttach => 8
  | AtWait => 9
  | AtLogs _ => 10
  | AtRm _ _ => 11
  | AtRecover _ => 12
  | Returned _ => 13
  end.

(** Has the call not yet looked for the image. *)
Definition early (s : Stage) : bool := Nat.leb (rank s) 3.

(** The calls still to make from a stage, and the reply at the end. *)
Fixpoint calls_ahead (fuel : nat) (c : Call) (cached : bool) (s : Stage)
  : list Action :=
  match fuel with
  | O => []
  | S n => noted c s ++ calls_ahead n c cached (next_stage c cached s)
  end.

Fixpoint reply_ahead (fuel : nat) (c : Call) (cached : bool) (s : Stage)
  : Reply ExecutionResult :=
  match s, fuel with
  | Returned reply, _ => reply
  | _, O => Pending
  | _, S n => reply_ahead n c cached (next_stage c cached s)
  end.

(** What holds of a call in flight on the machine [h]. *)
Record sound (c : Call) (h : Machine) (r : Running) : Prop := {
  not_looked : early (stage r) = true -> found r = None;
  about_to_pull : stage r = AtPull -> found r = Some false;
  pulls_after_looking : found r = None -> issued r = false;
  pulls_when_absent : found r = Some true -> issued r = false;
  found_stays : found r = Some true -> image_cached (image c) h = true;
  pulls_its_own :
    found r = Some false -> (stage r = AtPull <-> issued r = false);
  pulls_once : pulls (made r) = if issued r then 1 else 0;
  goes_its_way :
    forall cached, agrees (found r) cached ->
      (made r ++ calls_ahead 14 c cached (stage r))%list
      = calls_ahead 14 c cached (stage (arrive c)) /\
      reply_ahead 14 c cached (stage r)
      = reply_ahead 14 c cached (stage (arrive c))
}.

End ConcurrentExecutions.

(** ** The mock batch executor ([mock-docker-service.js])

    It runs nothing.  The text it answers with is guessed from the source
    by regular expressions; what those of the Python and JavaScript
    guessers match is left open here (the variables of the section), and
    the properties below hold whatever they match. *)

Module MockDockerService.

(** *** [mockCExecution] *)

(** The run of [[^;]*] at the head of [s]. *)
Fixpoint until_semicolon (s : string) : string :=
  match s with
  | String c t => if Nat.eqb (Js.code_unit c) 59 then EmptyString
                  else String c (until_semicolon t)
  | EmptyString => EmptyString
  end.

(** The length of [s] up to and with its last [")"], if it has one. *)
Fixpoint through_last_paren (s : string) : option nat :=
  match s with
  | EmptyString => None
  | String c t =>
      match through_last_paren t with
      | Some n => Some (S n)
      | None => if Nat.eqb (Js.code_unit c) 41 then Some 1 else None
      end
  end.

(** The number of matches of [/printf\([^;]*\)/g]; [skip] code units
    belong to the match before. *)
Fixpoint count_printf (skip : nat) (s : string) : nat :=
  match s with
  | EmptyString => 0
  | String _ t =>
      match skip with
      | S k => count_printf k t
      | O =>
          match Js.strip_prefix "printf(" s with
          | Some rest =>
              match through_last_paren (until_semicolon rest) with
              | Some n => S (count_printf (6 + n) t)
              | None => count_printf 0 t
              end
          | None => count_printf 0 t
          end
      end
  end.

(** The number of matches of [/cout\s*<<[^;]*/g]. *)
Fixpoint count_cout (skip : nat) (s : string) : nat :=
  match s with
  | EmptyString => 0
  | String _ t =>
      match skip with
      | S k => count_cout k t
      | O =>
          match Js.strip_prefix "cout" s with
          | Some rest =>
              let spaces := String.length rest - String.length (Js.trimStart rest) in
              match Js.strip_prefix "<<" (Js.trimStart rest) with
              | Some rest' =>
                  S (count_cout
                       (3 + spaces + 2 + String.length (until_semicolon rest')) t)
              | None => count_cout 0 t
              end
          | None => count_cout 0 t
          end
      end
  end.

Fixpoint times (n : nat) (s : string) : string :=
  match n with
  | O => EmptyString
  | S k => s ++ times k s
  end.

(** In the literals of this function the source writes [\\n]: a
    backslash and an [n], not a line feed. *)
Definition mockCExecution (code : string) : string :=
  let printfMatches := count_printf 0 code in
  let coutMatches := count_cout 0 code in
  if Nat.ltb 0 printfMatches then
    "Simulated C output:\n" ++ times printfMatches "[printf output simulation]\n"
  else if Nat.ltb 0 coutMatches then
    "Simulated C++ output:\n" ++ times coutMatches "[cout output simulation]\n"
  else "No printf/cout statements found in the code.".

(** *** [mockJavaExecution] *)

(** The run of code units other than [")"] at the head of [s], when a [")"] ends it. *)
Fixpoint until_paren (s : string) : option string :=
  match s with
  | EmptyString => None
  | String c t =>
      if Nat.eqb (Js.code_unit c) 41 then Some EmptyString
      else match until_paren t with
           | Some r => Some (String c r)
           | None => None
           end
  end.

(** What is between the parentheses in each match of the global
    pattern for [System.out.println(...)], whose argument has no [")"]. *)
Fixpoint println_contents (skip : nat) (s : string) : list string :=
  match s with
  | EmptyString => []
  | String _ t =>
      match skip with
      | S k => println_contents k t
      | O =>
          match Js.strip_prefix "System.out.println(" s with
          | Some rest =>
              match until_paren rest with
              | Some content =>
                  content :: println_contents (19 + String.length content) t
              | None => println_contents 0 t
              end
          | None => println_contents 0 t
          end
      end
  end.

Fixpoint join (sep : string) (l : list string) : string :=
  match l with
  | [] => EmptyString
  | [x] => x
  | x :: rest => x ++ sep ++ join sep rest
  end.

Definition mockJavaExecution (code : string) : string :=
  match println_contents 0 code with
  | [] => "No System.out.println statements found in the code.\nAdd System.out.println() to see output."
  | printMatches =>
      join "\n"
        (map (fun content =>
                if Js.startsWith_unit content Js.double_quote
                   || Js.startsWith_unit content Js.single_quote
                then Js.inner content
                else "[Simulated output]: " ++ content)
             printMatches)
  end.

(** *** [executeCode] *)

Section Guessers.

(** Groups 1 and 2 of [code.match(varInputPattern)]: the variable that
    receives [input(...)] and what stands between the parentheses. *)
Variable match_varInput : string -> option (string * string).
(** Group 1 of each match of [printPattern], in order: what stands
    between the parentheses of each [print(...)]. *)
Variable print_matches : string -> list string.
(** The callback that turns the content of a [print] into a line of
    output, given the variable and the input. *)
Variable patched_line : string -> string -> string -> string.
(** [mockJavaScriptExecution] and [mockPythonExecution]: the text, or the
    message of the error thrown. *)
Variable mockJavaScriptExecution : string -> string -> string + string.
Variable mockPythonExecution : string -> string -> string + string.

(** The "direct patch" for Python: the output of its [return], when it
    is reached. *)
Definition direct_patch (code input : string) : option string :=
  match match_varInput code with
  | Some (group1, group2) =>
      let varName := Js.trim group1 in
      let prompt :=
        if Js.truthy group2
        then (let p := Js.trim group2 in if Js.quoted p then Js.inner p else p)
        else EmptyString in
      match map Js.trim (print_matches code) with
      | [] => None
      | printStatements =>
          let outputs := map (patched_line varName input) printStatements in
          let outputText :=
            Js.LF ++ prompt ++ Js.LF ++ input ++ Js.LF
            ++ String.concat EmptyString (map (fun out => out ++ Js.LF) outputs) in
          Some (outputText ++ Js.LF ++ "** Process exited - Return Code: 0 **"
                ++ Js.LF ++ "Press Enter to exit terminal")
      end
  | None => None
  end.

(** The [switch] on the language: the output, or the error thrown. *)
Definition mock_output (code language input : string) : string + string :=
  let lang := Js.toLowerCase language in
  if String.eqb lang "javascript" then mockJavaScriptExecution code input
  else if String.eqb lang "python" then mockPythonExecution code input
  else if String.eqb lang "java" then inl (mockJavaExecution code)
  else if String.eqb lang "cpp" || String.eqb lang "c" then inl (mockCExecution code)
  else if Js.truthy input then
    inl ("Mock output for " ++ language ++ " code with input:" ++ Js.LF ++ input
         ++ Js.LF ++ Js.LF ++ Js.substring code 0 100 ++ "..." ++ Js.LF ++ Js.LF
         ++ "Execution successful!")
  else
    inl ("Mock output for " ++ language ++ " code:" ++ Js.LF
         ++ Js.substring code 0 100 ++ "..." ++ Js.LF ++ Js.LF
         ++ "Execution successful!").

(** [executionId] is what [uuidv4()] drew.  The function waits a second
    and always resolves. *)
Definition executeCode (executionId code language input : string)
  : ExecutionResult :=
  let patched :=
    if String.eqb (Js.toLowerCase language) "python"
    then direct_patch code input else None in
  match patched with
  | Some text =>
      {| executionId := executionId; status := "success";
         output := text; exitCode := 0 |}
  | None =>
      match mock_output code language input with
      | inl text =>
          {| executionId := executionId; status := "success";
             output := text; exitCode := 0 |}
      | inr message =>
          {| executionId := executionId; status := "error";
             output := "Mock execution error: " ++ message; exitCode := 1 |}
      end
  end.

End Guessers.

End MockDockerService.

(** ** The mock terminal ([mock-terminal-service.js])

    Sockets and sessions are numbered; [uuidv4()] is a supply of fresh
    numbers.  The server's state is the session map, the listeners placed
    on the sockets, the timers set and not yet run, and the events sent to
    the sockets.  Client events carry a payload of the documented shape,
    [{ language }] and [{ input }] with [input] a string. *)

Module MockTerminalService.

Record Session : Type := {
  language : option string;
  socket : nat;
  history : list string;
  active : bool
}.

(** What [socket.emit] sends. *)
Inductive Sent : Type :=
| terminal_created (sessionId : nat) (message : string)
| terminal_output (sessionId : nat) (output : string)
| terminal_error (error : string).

(** The callbacks given to [setTimeout]. *)
Inductive Timer : Type :=
| Answer (socket sessionId : nat) (input : string) (language : option string)
| Evict (sessionId : nat).

Record State : Type := {
  activeSessions : list (nat * Session);   (* a [Map]: in order of insertion *)
  listeners : list (nat * nat * option string);
                                           (* socket, session, and the language
                                              in the closure: the listeners of
                                              the session's input and close *)
  disconnect_listeners : list nat;         (* one entry for each session
                                              created over the socket *)
  timers : list (nat * Timer);             (* due time, callback; by due time *)
  sent : list (nat * Sent);                (* socket, event; oldest first *)
  now : nat;                               (* milliseconds *)
  uuid : nat                               (* the next id [uuidv4()] draws *)
}.

(** The payload of an event, as its handler destructures it: none at
    all ([undefined] or [null]), when the destructuring throws a TypeError
    with [message], or an object with the properties read from it. *)
Inductive Payload (A : Type) : Type :=
| Missing (message : string)
| Object (properties : A).
Arguments Missing {A} message.
Arguments Object {A} properties.

(** What the clients and the clock do.  The payload of a creation is an
    object whose [language] is a string or is absent, and that of an input
    is an object whose [input] is a string; the two [_bare] events come
    without a payload. *)
Inductive Event : Type :=
| terminal_create (socket : nat) (language : option string)
| terminal_create_bare (socket : nat) (message : string)
| terminal_input (socket sessionId : nat) (input : string)
| terminal_input_bare (socket sessionId : nat) (message : string)
| terminal_close (socket sessionId : nat)
| disconnect (socket : nat)
| elapse (ms : nat) (clock : string)  (* [clock]: the text of
                                         [new Date().toString()] meanwhile *).

Definition initial : State :=
  {| activeSessions := []; listeners := []; disconnect_listeners := [];
     timers := []; sent := []; now := 0; uuid := 0 |}.

(** *** [processCommand] and [getWelcomeMessage] *)

Definition processCommand (clock : string) (command : string)
  (language : option string) : string :=
  let cmd := Js.trim command in
  if String.eqb cmd "" then ""
  else if Js.startsWith cmd "echo " then Js.drop 5 cmd
  else if String.eqb cmd "ls" || String.eqb cmd "dir" then
    "example.txt" ++ Js.LF ++ "README.md" ++ Js.LF ++ "src/" ++ Js.LF ++ "node_modules/"
  else if String.eqb cmd "pwd" || String.eqb cmd "cd" then "/home/user"
  else if String.eqb cmd "whoami" then "user"
  else if String.eqb cmd "date" then clock
  else if Js.startsWith cmd "cat " then
    "Content of " ++ Js.drop 4 cmd ++ ":" ++ Js.LF ++ "This is a simulated file content."
  else if String.eqb cmd "help" then
    "Available commands: echo, ls, pwd, whoami, date, cat, help, clear"
  else if String.eqb cmd "clear" then String (ascii_of_nat 27) "c"
  else if Js.startsWith cmd "python" || Js.startsWith cmd "node"
          || Js.startsWith cmd "java" then
    "Simulated " ++ Js.first_field cmd ++ " execution..." ++ Js.LF
    ++ "Hello, World!" ++ Js.LF ++ "Execution complete."
  else
    "Command not found: " ++ cmd ++ Js.LF
    ++ "This is a simulated terminal environment with limited functionality.".

Definition language_is (language : option string) (name : string) : bool :=
  match language with
  | Some l => String.eqb l name
  | None => false
  end.

Definition getWelcomeMessage (language : option string) : string :=
  "Welcome to the simulated terminal environment!" ++ Js.LF ++ Js.LF ++
  (if language_is language "javascript" then "Node.js v16.14.0" ++ Js.LF ++ "> "
   else if language_is language "python" then "Python 3.9.7" ++ Js.LF ++ ">>> "
   else if language_is language "java" then "OpenJDK 11.0.11" ++ Js.LF ++ "$ "
   else if language_is language "cpp" || language_is language "c"
   then "GCC 11.2.0" ++ Js.LF ++ "$ "
   else "$ ").

(** *** The session map *)

Fixpoint get (m : list (nat * Session)) (id : nat) : option Session :=
  match m with
  | [] => None
  | (k, s) :: m' => if Nat.eqb k id then Some s else get m' id
  end.

(** [m.set(id, s)] *)
Fixpoint set (m : list (nat * Session)) (id : nat) (s : Session)
  : list (nat * Session) :=
  match m with
  | [] => [(id, s)]
  | (k, s0) :: m' => if Nat.eqb k id then (k, s) :: m' else (k, s0) :: set m' id s
  end.

(** [m.delete(id)] *)
Definition delete (m : list (nat * Session)) (id : nat) : list (nat * Session) :=
  filter (fun e => negb (Nat.eqb (fst e) id)) m.

(** *** Timers *)

(** [setTimeout(callback, delay)]: behind the timers due no later. *)
Fixpoint insert_timer (due : nat) (t : Timer) (l : list (nat * Timer))
  : list (nat * Timer) :=
  match l with
  | [] => [(due, t)]
  | (d, t0) :: l' =>
      if Nat.leb d due then (d, t0) :: insert_timer due t l'
      else (due, t) :: l
  end.

Definition setTimeout (t : Timer) (delay : nat) (st : State) : State :=
  {| activeSessions := activeSessions st; listeners := listeners st;
     disconnect_listeners := disconnect_listeners st;
     timers := insert_timer (now st + delay) t (timers st);
     sent := sent st; now := now st; uuid := uuid st |}.

Definition emit (socket : nat) (e : Sent) (st : State) : State :=
  {| activeSessions := activeSessions st; listeners := listeners st;
     disconnect_listeners := disconnect_listeners st; timers := timers st;
     sent := sent st ++ [(socket, e)]; now := now st; uuid := uuid st |}.

Definition with_sessions (m : list (nat * Session)) (st : State) : State :=
  {| activeSessions := m; listeners := listeners st;
     disconnect_listeners := disconnect_listeners st; timers := timers st;
     sent := sent st; now := now st; uuid := uuid st |}.

(** *** The handlers *)

(** [closeTerminalSession(sessionId)] *)
Definition closeTerminalSession (sessionId : nat) (st : State) : State :=
  match get (activeSessions st) sessionId with
  | Some session =>
      let closed := {| language := language session; socket := socket session;
                       history := history session; active := false |} in
      setTimeout (Evict sessionId) 1000
        (with_sessions (set (activeSessions st) sessionId closed) st)
  | None => st
  end.

(** The handler of [terminal_create]: what throws in its [try] block, the
    destructuring of a payload that is missing, leads to its [catch]
    block. *)
Definition on_create (sock : nat) (data : Payload (option string)) (st : State)
  : State :=
  match data with
  | Missing _ =>
      emit sock (terminal_error "Failed to create terminal session") st
  | Object lang =>
      let sessionId := uuid st in
      let st1 :=
        {| activeSessions :=
             set (activeSessions st) sessionId
               {| language := lang; socket := sock; history := [];
                  active := true |};
           listeners := listeners st ++ [(sock, sessionId, lang)];
           disconnect_listeners := disconnect_listeners st ++ [sock];
           timers := timers st; sent := sent st; now := now st;
           uuid := S (uuid st) |} in
      emit sock (terminal_output sessionId (getWelcomeMessage lang))
        (emit sock (terminal_created sessionId "Mock terminal session created")
           st1)
  end.

(** The handler of [terminal_input_<sessionId>], placed on [sock] with
    the [language] of the creation in its closure.  What throws in its
    [try] block, the destructuring of a payload that is missing, leads to
    its [catch] block, which answers with the message of the error,
    whatever the session is. *)
Definition on_input (sock sessionId : nat) (lang : option string)
  (data : Payload string) (st : State) : State :=
  match data with
  | Missing message =>
      emit sock (terminal_output sessionId ("Error: " ++ message)) st
  | Object input =>
      match get (activeSessions st) sessionId with
      | Some session =>
          if active session then
            let session' :=
              {| language := language session; socket := socket session;
                 history := history session ++ [input];
                 active := active session |} in
            setTimeout (Answer sock sessionId input lang) 300
              (with_sessions (set (activeSessions st) sessionId session') st)
          else st
      | None => st
      end
  end.

(** The handler of [terminal_close_<sessionId>]. *)
Definition on_close (sock sessionId : nat) (st : State) : State :=
  emit sock (terminal_output sessionId "Terminal session closed.")
    (closeTerminalSession sessionId st).

(** One [disconnect] listener loops over the map; the listeners placed on
    the socket run their loops in step, so every session of the socket is
    closed once by each of them. *)
Fixpoint close_each (times : nat) (ids : list nat) (st : State) : State :=
  match ids with
  | [] => st
  | id :: rest =>
      close_each times rest
        (Nat.iter times (closeTerminalSession id) st)
  end.

Definition on_disconnect (sock : nat) (st : State) : State :=
  let mine :=
    map fst (filter (fun e => Nat.eqb (socket (snd e)) sock) (activeSessions st)) in
  let placed := count_occ Nat.eq_dec (disconnect_listeners st) sock in
  close_each placed mine st.

Definition run_timer (clock : string) (t : Timer) (st : State) : State :=
  match t with
  | Answer sock sessionId input lang =>
      emit sock (terminal_output sessionId (processCommand clock input lang)) st
  | Evict sessionId =>
      with_sessions (delete (activeSessions st) sessionId) st
  end.

Definition due_now (st : State) : list (nat * Timer) :=
  filter (fun e => Nat.leb (fst e) (now st)) (timers st).

Definition not_due (st : State) : list (nat * Timer) :=
  filter (fun e => negb (Nat.leb (fst e) (now st))) (timers st).

Definition on_elapse (ms : nat) (clock : string) (st : State) : State :=
  let st1 :=
    {| activeSessions := activeSessions st; listeners := listeners st;
       disconnect_listeners := disconnect_listeners st; timers := timers st;
       sent := sent st; now := now st + ms; uuid := uuid st |} in
  let due := due_now st1 in
  let st2 :=
    {| activeSessions := activeSessions st1; listeners := listeners st1;
       disconnect_listeners := disconnect_listeners st1; timers := not_due st1;
       sent := sent st1; now := now st1; uuid := uuid st1 |} in
  fold_left (fun s e => run_timer clock (snd e) s) due st2.

(** The listener placed on [sock] for the session, as the language in
    its closure. *)
Definition listener (sock sessionId : nat) (st : State) : option (option string) :=
  match find (fun l => Nat.eqb (fst (fst l)) sock && Nat.eqb (snd (fst l)) sessionId)
             (listeners st) with
  | Some l => Some (snd l)
  | None => None
  end.

(** An event reaches the listener placed for it, if there is one. *)
Definition step (e : Event) (st : State) : State :=
  match e with
  | terminal_create sock lang => on_create sock (Object lang) st
  | terminal_create_bare sock message => on_create sock (Missing message) st
  | terminal_input sock sessionId input =>
      match listener sock sessionId st with
      | Some lang => on_input sock sessionId lang (Object input) st
      | None => st
      end
  | terminal_input_bare sock sessionId message =>
      match listener sock sessionId st with
      | Some lang => on_input sock sessionId lang (Missing message) st
      | None => st
      end
  | terminal_close sock sessionId =>
      match listener sock sessionId st with
      | Some _ => on_close sock sessionId st
      | None => st
      end
  | disconnect sock => on_disconnect sock st
  | elapse ms clock => on_elapse ms clock st
  end.

Fixpoint run (events : list Event) (st : State) : State :=
  match events with
  | [] => st
  | e :: rest => run rest (step e st)
  end.

(** A session is closed once its record is no longer active: from the
    close on, and still so when the record has been evicted. *)
Definition closed (sessionId : nat) (st : State) : Prop :=
  sessionId < uuid st /\
  match get (activeSessions st) sessionId with
  | Some session => active session = false
  | None => True
  end.

Definition outputs_for (sessionId : nat) (st : State) : list string :=
  flat_map (fun e => match snd e with
                     | terminal_output id text =>
                         if Nat.eqb id sessionId then [text] else []
                     | _ => []
                     end) (sent st).

End MockTerminalService.

(** ** The Docker-backed terminal ([terminal-service.js]): creating a session *)

Module TerminalService.

Definition imageMap : list (string * string) :=
  [ ("javascript", "node:16-alpine");
    ("python", "python:3.9-alpine");
    ("java", "openjdk:11-jdk-slim");
    ("cpp", "gcc:latest");
    ("c", "gcc:latest");
    ("go", "golang:alpine");
    ("ruby", "ruby:alpine");
    ("rust", "rust:slim");
    ("php", "php:cli-alpine") ].

(** What [getImageForLanguage] returns: the name of an image, or a member
    the map inherits from [Object.prototype], which is no string. *)
Inductive ImageValue : Type :=
| ImageName (name : string)
| InheritedMember (name : string).

(** [language] is [None] when the payload has none. *)
Definition getImageForLanguage (language : option string) : ImageValue :=
  match language with
  | None => ImageName "alpine:latest"
  | Some l =>
      if negb (Js.truthy l) then ImageName "alpine:latest"
      else
        match Js.get imageMap (Js.toLowerCase l) with
        | Js.Own name => if Js.truthy name then ImageName name
                         else ImageName "alpine:latest"
        | Js.Inherited member => InheritedMember member
        | Js.Undefined => ImageName "alpine:latest"
        end
  end.

(** The argument of [docker.createContainer]. *)
Record TerminalContainer : Type := {
  Image : ImageValue;
  Cmd : list string;
  Tty : bool;
  OpenStdin : bool;
  StdinOnce : bool;
  AttachStdin : bool;
  AttachStdout : bool;
  AttachStderr : bool;
  NetworkMode : string;
  Memory : Z;
  MemorySwap : Z;
  CpuPeriod : Z;
  CpuQuota : Z;
  PidsLimit : Z;
  AutoRemove : bool
}.

Definition terminalContainer (image : ImageValue) : TerminalContainer :=
  {| Image := image;
     Cmd := ["/bin/sh"];
     Tty := true;
     OpenStdin := true;
     StdinOnce := false;
     AttachStdin := true;
     AttachStdout := true;
     AttachStderr := true;
     NetworkMode := "bridge";
     Memory := 512 * 1024 * 1024;
     MemorySwap := 512 * 1024 * 1024;
     CpuPeriod := 100000;
     CpuQuota := 50000;
     PidsLimit := 100;
     AutoRemove := true |}.

Inductive Sent : Type :=
| terminal_created (sessionId message : string)
| terminal_error (error : string).

(** What the handler of [terminal_create] does: the container it asks
    for, whether it stores a session, and the event it sends back. *)
Record Creation : Type := {
  asked : TerminalContainer;
  stored : bool;
  sent : Sent
}.

Definition first_failure (l : list (option string)) : bool :=
  existsb (fun f => match f with Some _ => true | None => false end) l.

(** The handler of [terminal_create]: [createContainer], [start] and
    [attach] in turn; any of them throwing leads to the catch block. *)
Definition on_create (w : World) (language : option string) : Creation :=
  let sessionId := uuidv4 w in
  let image := getImageForLanguage language in
  if first_failure [create_fails w; start_fails w; attach_fails w] then
    {| asked := terminalContainer image; stored := false;
       sent := terminal_error "Failed to create terminal session" |}
  else
    {| asked := terminalContainer image; stored := true;
       sent := terminal_created sessionId "Terminal session created" |}.

End TerminalService.

(** ** The terms in which the properties are stated *)

(** The calls made between two states of the machine. *)
Definition performed (before after : Machine) : list Action :=
  skipn (List.length (trace before)) (trace after).

(** The specification's [filesystemPolicy] of a container. *)
Definition filesystemPolicy (c : ContainerConfig) : string :=
  if ReadonlyRootfs (HostConfig c) then "readonly" else "readwrite".

Fixpoint includes (s sub : string) : bool :=
  match Js.strip_prefix sub s with
  | Some _ => true
  | None =>
      match s with
      | String _ t => includes t sub
      | EmptyString => false
      end
  end.

(** A profile whose run has a compile step that writes next to the
    source: its command calls [javac], [g++ -o] or [gcc -o] in [/code]. *)
Definition compiles_next_to_source (command : list string) : bool :=
  existsb (fun arg => includes arg "javac " || includes arg "g++ -o "
                      || includes arg "gcc -o ") command.

(** A result says it is a simulation when it has a property besides the
    four of a real result, such as [simulated] or [errorKind]. *)
Definition tagged_as_simulation (r : ExecutionResult) : Prop :=
  exists key value,
    property r key = Some value /\
    ~ In key ["executionId"; "status"; "output"; "exitCode"].

(** *** The declaration of a public class in a Java source *)

Fixpoint all_units (p : ascii -> bool) (s : string) : bool :=
  match s with
  | EmptyString => true
  | String c t => p c && all_units p t
  end.

Definition head_is (p : ascii -> bool) (s : string) : bool :=
  match s with
  | String c _ => p c
  | EmptyString => false
  end.

(** [code] reads, after [before]: "public", white space, "class", white
    space, then the identifier [name] in full. *)
Definition declares_at (before name code : string) : Prop :=
  exists ws1 ws2 rest,
    code = before ++ "public" ++ ws1 ++ "class" ++ ws2 ++ name ++ rest /\
    ws1 <> "" /\ all_units Js.isSpace ws1 = true /\
    ws2 <> "" /\ all_units Js.isSpace ws2 = true /\
    name <> "" /\ all_units Js.isWord name = true /\
    head_is Js.isWord rest = false.

(** [name] is the class of the first such declaration in [code]. *)
Definition first_public_class (code name : string) : Prop :=
  exists before,
    declares_at before name code /\
    forall before' name',
      declares_at before' name' code ->
      String.length before <= String.length before'.

Definition no_public_class (code : string) : Prop :=
  forall before name, ~ declares_at before name code.

(** *** Worlds and machines to run the services in *)

Definition empty_machine : Machine :=
  {| dirs := []; files := []; images := []; trace := [] |}.

(** A world in which only the named answers can go wrong. *)
Definition world (pull : option string) (wait : WaitOutcome)
  (logs : string + string) (rm rm_again : option string) : World :=
  {| uuidv4 := "1b9d6bcd-bbfd-4b2d-9b5d-ab8dfbbd4bed";
     tempRoot := "/app/temp";
     mkdir_fails := None;
     writeSource_fails := None;
     writeInput_fails := None;
     pull_fails := pull;
     create_fails := None;
     start_fails := None;
     attach_fails := None;
     wait_outcome := wait;
     logs_outcome := logs;
     rm_fails := rm;
     rm_again_fails := rm_again |}.

(** Nothing fails and the program prints a line and exits with 0. *)
Definition calm : World :=
  world None (Exited 0) (inl ("Hello, World!" ++ Js.LF)) None None.

(** The program never exits. *)
Definition endless : World :=
  world None NeverExits (inl "") None None.

(** The program exits with 0 but its container is gone before the logs
    are read. *)
Definition unlogged : World :=
  world None (Exited 0) (inr "(HTTP code 404) no such container") None None.

(** The workspace cannot be removed. *)
Definition busy : World :=
  world None (Exited 0) (inl ("Hello, World!" ++ Js.LF))
    (Some "EBUSY: resource busy or locked, rmdir")
    (Some "EBUSY: resource busy or locked, rmdir").

(** *** The [try] block of [DockerService.executeCode] in two halves

    [provision] runs up to the start of the container and the writing of
    its input, [collect] waits for it and gathers the result, [recover]
    is the [catch] block. *)

Section Halves.

Local Open Scope task_scope.

Variable w : World.
Variables code language input : string.
Variable config : Js.Member DockerService.LanguageConfig.

Definition provision : Task unit :=
  fs.mkdir (mkdir_fails w) (DockerService.tempDir w) ;;
  fs.writeFile (writeSource_fails w) (DockerService.tempDir w)
    (DockerService.sourceFilename config code language) code ;;
  DockerService.when (Js.truthy input)
    (fs.writeFile (writeInput_fails w) (DockerService.tempDir w) "input.txt" input) ;;
  try_catch (docker.inspect (DockerService.field DockerService.image config))
    (fun _ => DockerService.pullImage w
                (DockerService.field DockerService.image config)) ;;
  docker.createContainer (create_fails w)
    (DockerService.containerConfig config (DockerService.tempDir w) input) ;;
  docker.start (start_fails w) ;;
  DockerService.when
    (Js.truthy input
     && negb (DockerService.isSome (DockerService.field_inputCommand config)))
    (docker.attach_write (attach_fails w) input).

Definition collect : Task ExecutionResult :=
  StatusCode <- docker.wait (wait_outcome w) ;;
  logs <- docker.logs (logs_outcome w) ;;
  fs.rm (rm_fails w) (DockerService.tempDir w) ;;
  ret {| executionId := uuidv4 w;
         status := if Z.eqb StatusCode 0 then "success" else "error";
         output := logs;
         exitCode := StatusCode |}.

Definition recover (message : string) : Task ExecutionResult :=
  try_catch (fs.rm (rm_again_fails w) (DockerService.tempDir w))
    (fun _ => ret tt) ;;
  ret {| executionId := uuidv4 w;
         status := "error";
         output := message;
         exitCode := 1 |}.

End Halves.

(** Every call a task makes satisfies [P], whatever the machine. *)
Definition calls_only {A : Type} (P : Action -> Prop) (m : Task A) : Prop :=
  forall h, exists acts,
    trace (snd (m h)) = (trace h ++ acts)%list /\ Forall P acts.

(** A task that never stays pending. *)
Definition settles {A : Type} (m : Task A) : Prop :=
  forall h, fst (m h) <> Pending.

Definition java_profile : DockerService.LanguageConfig :=
  {| DockerService.image := "openjdk:11-jdk-slim";
     DockerService.extension := "java";
     DockerService.filename := "Main.java";
     DockerService.command :=
       ["bash"; "-c"; "cd /code && javac Main.java && java Main"];
     DockerService.inputCommand :=
       Some ["bash"; "-c";
             "cd /code && javac Main.java && cat input.txt | java Main"];
     DockerService.workDir := "/code" |}.

(** *** Terms of the proofs *)

(** The calls of the first half of the [try] block: none waits for the
    container, ends it by force, reads its logs or removes the workspace. *)
Definition preparing (a : Action) : Prop :=
  a <> ContainerWait /\ forced_termination a = false /\
  (forall d, a <> Rm d) /\ a <> ContainerLogs.

(** What is asked of every container a service creates. *)
Definition creates_with (policy : string) (a : Action) : Prop :=
  forall config, a = ContainerCreate config ->
    NetworkMode (HostConfig config) = "none" /\
    AutoRemove (HostConfig config) = true /\
    filesystemPolicy config = policy.

Definition one (b : bool) : nat := if b then 1 else 0.


(** ** The calls of a run, written out *)

(** A service makes its calls in a fixed order and stops at the first
    that throws.  A plan lists the calls with the answer of the world to
    each ([None]: it succeeds); [follow] gives the calls made and the
    error that stopped them. *)
Fixpoint follow (plan : list (Action * option string))
  : list Action * option string :=
  match plan with
  | [] => ([], None)
  | (a, Some e) :: _ => ([a], Some e)
  | (a, None) :: rest =>
      let (acts, err) := follow rest in (a :: acts, err)
  end.

Section Plans.

Variable w : World.
Variables code language input : string.
Variable config : Js.Member DockerService.LanguageConfig.

Definition attaches : bool :=
  Js.truthy input
  && negb (DockerService.isSome (DockerService.field_inputCommand config)).

(** The calls of [provision]; [cached]: is the image in the store when
    the call looks for it.  The inspect that throws is caught, so it
    never stops the run. *)
Definition provision_plan (cached : bool) : list (Action * option string) :=
  [ (Mkdir (DockerService.tempDir w), mkdir_fails w);
    (WriteFile (DockerService.tempDir w)
       (DockerService.sourceFilename config code language) code,
     writeSource_fails w) ]
  ++ (if Js.truthy input
      then [(WriteFile (DockerService.tempDir w) "input.txt" input,
             writeInput_fails w)]
      else [])
  ++ [ (ImageInspect (DockerService.field DockerService.image config), None) ]
  ++ (if cached then []
      else [(ImagePull (DockerService.field DockerService.image config),
             pull_fails w)])
  ++ [ (ContainerCreate
          (DockerService.containerConfig config (DockerService.tempDir w) input),
        create_fails w);
       (ContainerStart, start_fails w) ]
  ++ (if attaches then [(ContainerAttach input, attach_fails w)] else []).

(** The calls of [collect], with those of the [catch] block when it
    throws. *)
Definition collect_calls : list Action :=
  match wait_outcome w with
  | NeverExits => [ContainerWait]
  | WaitFails _ => [ContainerWait; Rm (DockerService.tempDir w)]
  | Exited _ =>
      match logs_outcome w with
      | inr _ => [ContainerWait; ContainerLogs; Rm (DockerService.tempDir w)]
      | inl _ =>
          match rm_fails w with
          | None => [ContainerWait; ContainerLogs; Rm (DockerService.tempDir w)]
          | Some _ => [ContainerWait; ContainerLogs; Rm (DockerService.tempDir w);
                       Rm (DockerService.tempDir w)]
          end
      end
  end.

(** All the calls of a run of [executeCode] for an accepted language. *)
Definition run_calls (cached : bool) : list Action :=
  match follow (provision_plan cached) with
  | (acts, Some _) => acts ++ [Rm (DockerService.tempDir w)]
  | (acts, None) => acts ++ collect_calls
  end.

End Plans.

(** The error result of the [catch] block. *)
Definition error_result (w : World) (message : string) : ExecutionResult :=
  {| executionId := uuidv4 w; status := "error"; output := message;
     exitCode := 1 |}.

(** How [collect] under the [try] ends. *)
Definition collect_reply (w : World) : Reply ExecutionResult :=
  match wait_outcome w with
  | NeverExits => Pending
  | WaitFails e => Resolved (error_result w e)
  | Exited c =>
      match logs_outcome w with
      | inr e => Resolved (error_result w e)
      | inl text =>
          match rm_fails w with
          | Some e => Resolved (error_result w e)
          | None =>
              Resolved {| executionId := uuidv4 w;
                          status := if Z.eqb c 0 then "success" else "error";
                          output := text;
                          exitCode := c |}
          end
      end
  end.

(** How a run of [executeCode] ends for an accepted language. *)
Definition run_reply (w : World) (code language input : string)
  (config : Js.Member DockerService.LanguageConfig) (cached : bool)
  : Reply ExecutionResult :=
  match snd (follow (provision_plan w code language input config cached)) with
  | Some e => Resolved (error_result w e)
  | None => collect_reply w
  end.

Definition reply_of (err : option string) : Reply unit :=
  match err with
  | None => Resolved tt
  | Some e => Thrown e
  end.

(** A task whose calls and reply are those of a plan. *)
Definition does (m : Task unit) (plan : list (Action * option string)) (h : Machine)
  : Prop :=
  trace (snd (m h)) = (trace h ++ fst (follow plan))%list /\
  fst (m h) = reply_of (snd (follow plan)).

(** *** The states the mock terminal reaches

    What holds of every state the events lead to from
    [MockTerminalService.initial]: the keys of the map and the sessions of
    the listeners are ids that were drawn, a session has the listeners of
    one socket, the one it was created over, and the timers and the events
    sent name sessions with their listeners. *)

Record wired (st : MockTerminalService.State) : Prop := {
  keys_drawn :
    forall k s, In (k, s) (MockTerminalService.activeSessions st) ->
                k < MockTerminalService.uuid st;
  keys_once : NoDup (map fst (MockTerminalService.activeSessions st));
  listeners_drawn :
    forall sock id lang, In (sock, id, lang) (MockTerminalService.listeners st) ->
                         id < MockTerminalService.uuid st;
  listeners_once :
    forall sock sock' id lang lang',
      In (sock, id, lang) (MockTerminalService.listeners st) ->
      In (sock', id, lang') (MockTerminalService.listeners st) ->
      sock = sock' /\ lang = lang';
  listeners_created :
    forall sock id lang, In (sock, id, lang) (MockTerminalService.listeners st) ->
      In (sock, MockTerminalService.terminal_created id
                  "Mock terminal session created")
         (MockTerminalService.sent st);
  answers_wired :
    forall due sock id input lang,
      In (due, MockTerminalService.Answer sock id input lang)
         (MockTerminalService.timers st) ->
      In (sock, id, lang) (MockTerminalService.listeners st);
  outputs_wired :
    forall sock id text,
      In (sock, MockTerminalService.terminal_output id text)
         (MockTerminalService.sent st) ->
      exists lang, In (sock, id, lang) (MockTerminalService.listeners st);
  timers_ahead :
    forall due t, In (due, t) (MockTerminalService.timers st) ->
                  MockTerminalService.now st < due
}.

(** The time that passes during the events. *)
Fixpoint elapsed (events : list MockTerminalService.Event) : nat :=
  match events with
  | [] => 0
  | MockTerminalService.elapse ms _ :: rest => ms + elapsed rest
  | _ :: rest => elapsed rest
  end.

(** The eviction of a session is done, or due by [deadline]. *)
Definition evicted_by (deadline id : nat) (st : MockTerminalService.State)
  : Prop :=
  MockTerminalService.get (MockTerminalService.activeSessions st) id = None \/
  exists due, due <= deadline /\
              In (due, MockTerminalService.Evict id)
                 (MockTerminalService.timers st).


(** The listeners a timer needs are placed. *)
Definition timer_wired (st : MockTerminalService.State)
  (t : MockTerminalService.Timer) : Prop :=
  match t with
  | MockTerminalService.Answer sock id _ lang =>
      In (sock, id, lang) (MockTerminalService.listeners st)
  | MockTerminalService.Evict _ => True
  end.

(** A string that does not begin with white space. *)
Definition unspaced_head (s : string) : Prop :=
  match s with
  | String c _ => Js.isSpace c = false
  | EmptyString => True
  end.

(** A Java source that is one [System.out.println] of a string literal
    for each text, the literals between the quote [q]. *)
Fixpoint java_prints (q : ascii) (texts : list string) : string :=
  match texts with
  | [] => EmptyString
  | text :: rest =>
      "System.out.println(" ++ String q (text ++ String q ");")
      ++ java_prints q rest
  end.

(** A C source that is one [printf] statement for each argument list. *)
Fixpoint c_prints (args : list string) : string :=
  match args with
  | [] => EmptyString
  | a :: rest => "printf(" ++ a ++ ");" ++ c_prints rest
  end.

(** No code unit of [s] is [c]. *)
Definition free_of (c : nat) (s : string) : bool :=
  all_units (fun u => negb (Nat.eqb (Js.code_unit u) c)) s.

(** ** The route [POST /api/execute] ([index.js]) *)

Module ExecuteRoute.

(** The body of a request; each of the three properties is a string, or
    is absent. *)
Record Body : Type := {
  code : option string;
  language : option string;
  input : option string
}.

(** What [res.json] is given. *)
Inductive Json : Type :=
| Rejected (error : string)
| Completed (executionId message : string) (result : ExecutionResult)
| Failed (error message executionId : string).

(** What the handler does besides the calls of the executor: the answer
    to the request, with its status, if one is given, and the event it
    sends to the room of the execution. *)
Record Handled : Type := {
  response : option (nat * Json);
  emitted : option (string * ExecutionResult)
}.

(** A property that is there and truthy. *)
Definition given (v : option string) : bool :=
  match v with
  | Some s => Js.truthy s
  | None => false
  end.

(** A parameter with the default [''], given [v]. *)
Definition or_empty (v : option string) : string :=
  match v with
  | Some s => s
  | None => EmptyString
  end.

Section Route.

(** The [executeCode] that [index.js] imports. *)
Variable executeCode : string -> string -> string -> Task ExecutionResult.

(** The handler; [executionId] is what its own [uuidv4()] draws. *)
Definition execute (executionId : string) (body : Body) (h : Machine)
  : Handled * Machine :=
  if negb (given (code body)) || negb (given (language body)) then
    ({| response := Some (400, Rejected "Code and language are required");
        emitted := None |}, h)
  else
    match executeCode (or_empty (code body)) (or_empty (language body))
            (or_empty (input body)) h with
    | (Resolved result, h') =>
        ({| response :=
              Some (200, Completed executionId "Code execution completed" result);
            emitted := Some (executionId, result) |}, h')
    | (Thrown message, h') =>
        ({| response :=
              Some (500, Failed "Code execution failed" message executionId);
            emitted := None |}, h')
    | (Pending, h') => ({| response := None; emitted := None |}, h')
    end.

End Route.

End ExecuteRoute.

(** ** [runCommandInContainer] ([docker-service.js]) *)

Module ContainerExec.

(** What the stream of the exec emits. *)
Inductive StreamEvent : Type :=
| data (chunk : string)
| end_of_stream
| error (message : string).

(** The object the promise resolves with: [{ output }] or [{ error }]. *)
Inductive Outcome : Type :=
| with_output (output : string)
| with_error (error : string).

(** The promise around the stream: the first [end] resolves it and the
    first [error] rejects it, whichever comes first; until then each chunk
    is added to [output]. *)
Fixpoint listen (output : string) (events : list StreamEvent) : Reply Outcome :=
  match events with
  | [] => Pending
  | data chunk :: rest => listen (output ++ chunk) rest
  | end_of_stream :: _ => Resolved (with_output output)
  | error message :: _ => Thrown message
  end.

(** [exec_fails] and [start_fails]: what [container.exec] and
    [exec.start] throw. *)
Definition runCommandInContainer (exec_fails start_fails : option string)
  (events : list StreamEvent) : Reply Outcome :=
  match exec_fails with
  | Some message => Resolved (with_error message)
  | None =>
      match start_fails with
      | Some message => Resolved (with_error message)
      | None => listen EmptyString events
      end
  end.

End ContainerExec.

(** ** The sessions of the Docker-backed terminal ([terminal-service.js])

    Each handler runs to its end before the next event is taken. *)

Module TerminalSessions.

(** What [activeSessions] holds for a session.  The record has no
    [socket]. *)
Record Session : Type := {
  container : nat;   (* the container [createContainer] returned *)
  stream : nat;      (* the stream [attach] returned: that of the container *)
  language : option string
}.

(** [session.socket]: [undefined]. *)
Definition session_socket (s : Session) : option nat := None.

(** [a === socket] for what [session.socket] yields. *)
Definition same_socket (a : option nat) (socket : nat) : bool :=
  match a with
  | Some s => Nat.eqb s socket
  | None => false
  end.

Inductive Call : Type :=
| createContainer (config : TerminalService.TerminalContainer)
| start (container : nat)
| attach (container : nat)
| write (stream : nat) (input : string)
| resize (container rows cols : nat)
| stop (container : nat).

Inductive Sent : Type :=
| terminal_created (sessionId : nat) (message : string)
| terminal_output (sessionId : nat) (output : string)
| terminal_error (error : string).

Record State : Type := {
  activeSessions : list (nat * Session);
  listeners : list (nat * nat);        (* socket, session: the listeners of
                                          its resize, input and close *)
  data_listeners : list (nat * nat);   (* session, socket: the listener of
                                          the data of its stream *)
  disconnect_listeners : list nat;
  calls : list Call;                   (* oldest first *)
  sent : list (nat * Sent);            (* socket, event; oldest first *)
  uuid : nat;                          (* the next id [uuidv4()] draws *)
  containers : nat                     (* the next container of the daemon *)
}.

(** What the clients, the containers and the daemon do; a creation and
    a close say how their calls of the daemon fail, if they do. *)
Inductive Event : Type :=
| terminal_create (socket : nat) (language : option string)
    (create_fails start_fails attach_fails : option string)
| terminal_input (socket sessionId : nat) (input : string)
| terminal_resize (socket sessionId cols rows : nat)
| terminal_close (socket sessionId : nat) (stop_fails : option string)
| disconnect (socket : nat) (stop_fails : nat -> option string)
| container_output (sessionId : nat) (chunk : string).

Definition initial : State :=
  {| activeSessions := []; listeners := []; data_listeners := [];
     disconnect_listeners := []; calls := []; sent := []; uuid := 0;
     containers := 0 |}.

Fixpoint get (m : list (nat * Session)) (id : nat) : option Session :=
  match m with
  | [] => None
  | (k, s) :: m' => if Nat.eqb k id then Some s else get m' id
  end.

Fixpoint set (m : list (nat * Session)) (id : nat) (s : Session)
  : list (nat * Session) :=
  match m with
  | [] => [(id, s)]
  | (k, s0) :: m' => if Nat.eqb k id then (k, s) :: m' else (k, s0) :: set m' id s
  end.

Definition delete (m : list (nat * Session)) (id : nat) : list (nat * Session) :=
  filter (fun e => negb (Nat.eqb (fst e) id)) m.

Definition call (c : Call) (st : State) : State :=
  {| activeSessions := activeSessions st; listeners := listeners st;
     data_listeners := data_listeners st;
     disconnect_listeners := disconnect_listeners st;
     calls := calls st ++ [c]; sent := sent st; uuid := uuid st;
     containers := containers st |}.

Definition emit (socket : nat) (e : Sent) (st : State) : State :=
  {| activeSessions := activeSessions st; listeners := listeners st;
     data_listeners := data_listeners st;
     disconnect_listeners := disconnect_listeners st;
     calls := calls st; sent := sent st ++ [(socket, e)]; uuid := uuid st;
     containers := containers st |}.

Definition with_sessions (m : list (nat * Session)) (st : State) : State :=
  {| activeSessions := m; listeners := listeners st;
     data_listeners := data_listeners st;
     disconnect_listeners := disconnect_listeners st;
     calls := calls st; sent := sent st; uuid := uuid st;
     containers := containers st |}.

(** The catch block of the handler of [terminal_create]. *)
Definition creation_failed (sock : nat) (st : State) : State :=
  emit sock (terminal_error "Failed to create terminal session") st.

(** The handler of [terminal_create]. *)
Definition on_create (sock : nat) (lang : option string)
  (create_fails start_fails attach_fails : option string) (st : State) : State :=
  let sessionId := uuid st in
  let image := TerminalService.getImageForLanguage lang in
  let st0 :=
    {| activeSessions := activeSessions st; listeners := listeners st;
       data_listeners := data_listeners st;
       disconnect_listeners := disconnect_listeners st;
       calls := calls st; sent := sent st; uuid := S (uuid st);
       containers := containers st |} in
  let st1 := call (createContainer (TerminalService.terminalContainer image)) st0 in
  match create_fails with
  | Some _ => creation_failed sock st1
  | None =>
      let c := containers st in
      let st2 :=
        {| activeSessions := activeSessions st1; listeners := listeners st1;
           data_listeners := data_listeners st1;
           disconnect_listeners := disconnect_listeners st1;
           calls := calls st1; sent := sent st1; uuid := uuid st1;
           containers := S (containers st1) |} in
      let st3 := call (start c) st2 in
      match start_fails with
      | Some _ => creation_failed sock st3
      | None =>
          let st4 := call (attach c) st3 in
          match attach_fails with
          | Some _ => creation_failed sock st4
          | None =>
              let st5 :=
                {| activeSessions :=
                     set (activeSessions st4) sessionId
                       {| container := c; stream := c; language := lang |};
                   listeners := listeners st4 ++ [(sock, sessionId)];
                   data_listeners := data_listeners st4 ++ [(sessionId, sock)];
                   disconnect_listeners := disconnect_listeners st4 ++ [sock];
                   calls := calls st4; sent := sent st4; uuid := uuid st4;
                   containers := containers st4 |} in
              emit sock (terminal_created sessionId "Terminal session created") st5
          end
      end
  end.

(** The handler of [terminal_input_<sessionId>]: an error of the write is
    caught and logged. *)
Definition on_input (sessionId : nat) (input : string) (st : State) : State :=
  match get (activeSessions st) sessionId with
  | Some session => call (write (stream session) input) st
  | None => st
  end.

(** The handler of [terminal_resize_<sessionId>]. *)
Definition on_resize (sessionId cols rows : nat) (st : State) : State :=
  match get (activeSessions st) sessionId with
  | Some session => call (resize (container session) rows cols) st
  | None => st
  end.

(** [closeTerminalSession(sessionId)]: an error of the stop is caught and
    logged, before the session is removed. *)
Definition closeTerminalSession (sessionId : nat) (stop_fails : option string)
  (st : State) : State :=
  match get (activeSessions st) sessionId with
  | Some session =>
      let st1 := call (stop (container session)) st in
      match stop_fails with
      | Some _ => st1
      | None => with_sessions (delete (activeSessions st1) sessionId) st1
      end
  | None => st
  end.

Fixpoint close_each (times : nat) (stop_fails : nat -> option string)
  (ids : list nat) (st : State) : State :=
  match ids with
  | [] => st
  | id :: rest =>
      close_each times stop_fails rest
        (Nat.iter times (closeTerminalSession id (stop_fails id)) st)
  end.

(** The handlers of [disconnect] that the creations over the socket
    placed: each loops over the map and closes the sessions whose
    [socket] is the socket. *)
Definition on_disconnect (sock : nat) (stop_fails : nat -> option string)
  (st : State) : State :=
  let mine :=
    map fst (filter (fun e => same_socket (session_socket (snd e)) sock)
               (activeSessions st)) in
  let placed := count_occ Nat.eq_dec (disconnect_listeners st) sock in
  close_each placed stop_fails mine st.

(** The listener of the data of the stream. *)
Definition on_output (sessionId : nat) (chunk : string) (st : State) : State :=
  match find (fun l => Nat.eqb (fst l) sessionId) (data_listeners st) with
  | Some l => emit (snd l) (terminal_output sessionId chunk) st
  | None => st
  end.

Definition listening (sock sessionId : nat) (st : State) : bool :=
  existsb (fun l => Nat.eqb (fst l) sock && Nat.eqb (snd l) sessionId)
    (listeners st).

(** An event reaches the listener placed for it, if there is one. *)
Definition step (e : Event) (st : State) : State :=
  match e with
  | terminal_create sock lang create_fails start_fails attach_fails =>
      on_create sock lang create_fails start_fails attach_fails st
  | terminal_input sock sessionId input =>
      if listening sock sessionId st then on_input sessionId input st else st
  | terminal_resize sock sessionId cols rows =>
      if listening sock sessionId st then on_resize sessionId cols rows st
      else st
  | terminal_close sock sessionId stop_fails =>
      if listening sock sessionId st
      then closeTerminalSession sessionId stop_fails st
      else st
  | disconnect sock stop_fails => on_disconnect sock stop_fails st
  | container_output sessionId chunk => on_output sessionId chunk st
  end.

Fixpoint run (events : list Event) (st : State) : State :=
  match events with
  | [] => st
  | e :: rest => run rest (step e st)
  end.

(** The containers of the sessions in the map. *)
Definition running (st : State) : list nat :=
  map (fun e => container (snd e)) (activeSessions st).

End TerminalSessions.

(** ** The mock batch executor that writes a workspace
    ([mock-docker-service.js], the revision with a language registry) *)

Module MockDockerServiceFiles.

Local Open Scope task_scope.

(** [inputHandler] names the function the profile refers to; [executeCode]
    never calls it. *)
Record LanguageConfig : Type := {
  extension : string;
  filename : string;
  inputHandler : option string
}.

Definition languageConfigs : list (string * LanguageConfig) :=
  [ ("javascript",
     {| extension := "js"; filename := "program.js";
        inputHandler := Some "handleJavaScriptInput" |});
    ("python",
     {| extension := "py"; filename := "program.py";
        inputHandler := Some "handlePythonInput" |});
    ("java",
     {| extension := "java"; filename := "Main.java";
        inputHandler := Some "handleJavaInput" |});
    ("cpp",
     {| extension := "cpp"; filename := "program.cpp";
        inputHandler := Some "handleCppInput" |});
    ("c",
     {| extension := "c"; filename := "program.c";
        inputHandler := Some "handleCInput" |});
    ("html",
     {| extension := "html"; filename := "index.html";
        inputHandler := None |}) ].

Section Guessers.

(** The special handling of Python: the output of its [return], when it
    comes to one. *)
Variable python_special : string -> string -> option string.
(** What the patterns for [print(...)] and [console.log(...)] gather from
    the code. *)
Variable python_prints : string -> string.
Variable javascript_logs : string -> string.
(** The message of the error [path.join] throws for a name that is
    [undefined]. *)
Variable invalid_path : string.

(** The name of the source file, or the message of the error that
    [path.join(tempDir, filename)] throws. *)
Definition sourceFilename (config : Js.Member LanguageConfig)
  (code language : string) : string + string :=
  if String.eqb (Js.toLowerCase language) "java" then
    let className :=
      match DockerService.match_public_class code with
      | Some name => name
      | None => "Main"
      end in
    inl (className ++ ".java")
  else
    match config with
    | Js.Own c => inl (filename c)
    | _ => inr invalid_path
    end.

(** The output of the [try] block that follows the special handling. *)
Definition plain_output (code language : string) : string :=
  let lang := Js.toLowerCase language in
  let output :=
    if String.eqb lang "python" then python_prints code
    else if String.eqb lang "javascript" then javascript_logs code
    else "Mock output for " ++ language ++ " code" ++ Js.LF in
  if Js.truthy output then output else "No output generated" ++ Js.LF.

Definition succeeded (executionId output : string) : ExecutionResult :=
  {| executionId := executionId; status := "success"; output := output;
     exitCode := 0 |}.

(** The function waits a second after it has written the files.  What
    stands in the source after the [try] block that always returns is
    never run. *)
Definition executeCode (w : World) (code language input : string)
  : Task ExecutionResult :=
  let executionId := uuidv4 w in
  try_catch
    (match Js.get languageConfigs (Js.toLowerCase language) with
     | Js.Undefined => throw ("Unsupported language: " ++ language)
     | config =>
         let tempDir := DockerService.tempDir w in
         fs.mkdir (mkdir_fails w) tempDir ;;
         match sourceFilename config code language with
         | inr message => throw message
         | inl name =>
             fs.writeFile (writeSource_fails w) tempDir name code ;;
             DockerService.when (Js.truthy input)
               (fs.writeFile (writeInput_fails w) tempDir "input.txt" input) ;;
             match (if String.eqb (Js.toLowerCase language) "python"
                    then python_special code input else None) with
             | Some output => ret (succeeded executionId output)
             | None => ret (succeeded executionId (plain_output code language))
             end
         end
     end)
    (fun message =>
       ret {| executionId := executionId;
              status := "error";
              output := "Mock execution error: " ++ message;
              exitCode := 1 |}).

End Guessers.

End MockDockerServiceFiles.
(** * Properties *)

(** ** Tasks: the calls they make and whether they settle *)

Lemma skipn_own_length {A : Type} (l r : list A) :
  skipn (List.length l) (l ++ r)%list = r.
Proof. induction l as [|a l IH]; simpl; auto. Qed.

Lemma performed_extension (h h' : Machine) (acts : list Action) :
  trace h' = (trace h ++ acts)%list -> performed h h' = acts.
Proof. intros E. unfold performed. rewrite E. apply skipn_own_length. Qed.

Section TaskRules.

Context {A B : Type}.
Variable P : Action -> Prop.

Lemma calls_only_ret (a : A) : calls_only P (ret a).
Proof. intros h. exists []. simpl. rewrite app_nil_r. auto. Qed.

Lemma calls_only_throw (e : string) : calls_only P (@throw A e).
Proof. intros h. exists []. simpl. rewrite app_nil_r. auto. Qed.

Lemma calls_only_bind (m : Task A) (k : A -> Task B) :
  calls_only P m -> (forall a, calls_only P (k a)) -> calls_only P (bind m k).
Proof.
  intros Hm Hk h. unfold bind.
  destruct (Hm h) as (acts & E & F).
  destruct (m h) as [[a|e|] h1]; simpl in *.
  - destruct (Hk a h1) as (acts' & E' & F').
    exists (acts ++ acts')%list. split.
    + rewrite E', E, app_assoc. reflexivity.
    + apply Forall_app; auto.
  - exists acts; auto.
  - exists acts; auto.
Qed.

Lemma calls_only_try_catch (m : Task A) (handler : string -> Task A) :
  calls_only P m -> (forall e, calls_only P (handler e)) ->
  calls_only P (try_catch m handler).
Proof.
  intros Hm Hk h. unfold try_catch.
  destruct (Hm h) as (acts & E & F).
  destruct (m h) as [[a|e|] h1]; simpl in *.
  - exists acts; auto.
  - destruct (Hk e h1) as (acts' & E' & F').
    exists (acts ++ acts')%list. split.
    + rewrite E', E, app_assoc. reflexivity.
    + apply Forall_app; auto.
  - exists acts; auto.
Qed.

Lemma settles_ret (a : A) : settles (ret a).
Proof. intros h; simpl; discriminate. Qed.

Lemma settles_throw (e : string) : settles (@throw A e).
Proof. intros h; simpl; discriminate. Qed.

Lemma settles_bind (m : Task A) (k : A -> Task B) :
  settles m -> (forall a, settles (k a)) -> settles (bind m k).
Proof.
  intros Hm Hk h. unfold bind. specialize (Hm h).
  destruct (m h) as [[a|e|] h1]; simpl in *; try discriminate.
  - apply Hk.
  - congruence.
Qed.

Lemma settles_try_catch (m : Task A) (handler : string -> Task A) :
  settles m -> (forall e, settles (handler e)) -> settles (try_catch m handler).
Proof.
  intros Hm Hk h. unfold try_catch. specialize (Hm h).
  destruct (m h) as [[a|e|] h1]; simpl in *; try discriminate.
  - apply Hk.
  - congruence.
Qed.

End TaskRules.

Section CallRules.

Variable P : Action -> Prop.

Lemma calls_only_attempt (a : Action) (fails : option string)
  (effect : Machine -> Machine) :
  (forall h, trace (effect h) = trace h) -> P a ->
  calls_only P (attempt a fails effect).
Proof.
  intros He Pa h. exists [a]. unfold attempt.
  destruct fails; simpl; [|rewrite He]; simpl; auto.
Qed.

Lemma calls_only_mkdir f d : P (Mkdir d) -> calls_only P (fs.mkdir f d).
Proof. intros; apply calls_only_attempt; auto. Qed.

Lemma calls_only_writeFile f d n c :
  P (WriteFile d n c) -> calls_only P (fs.writeFile f d n c).
Proof. intros; apply calls_only_attempt; auto. Qed.

Lemma calls_only_rm f d : P (Rm d) -> calls_only P (fs.rm f d).
Proof. intros; apply calls_only_attempt; auto. Qed.

Lemma calls_only_pull f i : P (ImagePull i) -> calls_only P (docker.pull f i).
Proof. intros; apply calls_only_attempt; auto. Qed.

Lemma calls_only_createContainer f c :
  P (ContainerCreate c) -> calls_only P (docker.createContainer f c).
Proof. intros; apply calls_only_attempt; auto. Qed.

Lemma calls_only_start f : P ContainerStart -> calls_only P (docker.start f).
Proof. intros; apply calls_only_attempt; auto. Qed.

Lemma calls_only_attach_write f i :
  P (ContainerAttach i) -> calls_only P (docker.attach_write f i).
Proof. intros; apply calls_only_attempt; auto. Qed.

Lemma calls_only_inspect i : P (ImageInspect i) -> calls_only P (docker.inspect i).
Proof.
  intros Pa h. exists [ImageInspect i]. unfold docker.inspect.
  destruct (image_cached i h); simpl; auto.
Qed.

Lemma calls_only_wait o : P ContainerWait -> calls_only P (docker.wait o).
Proof. intros Pa h. exists [ContainerWait]. destruct o; simpl; auto. Qed.

Lemma calls_only_logs o : P ContainerLogs -> calls_only P (docker.logs o).
Proof. intros Pa h. exists [ContainerLogs]. destruct o; simpl; auto. Qed.

Lemma calls_only_when (b : bool) (m : Task unit) :
  calls_only P m -> calls_only P (DockerService.when b m).
Proof. intros Hm. destruct b; simpl; auto. apply calls_only_ret. Qed.

End CallRules.

Lemma settles_attempt a fails effect : settles (attempt a fails effect).
Proof. intros h. unfold attempt. destruct fails; simpl; discriminate. Qed.

Lemma settles_inspect i : settles (docker.inspect i).
Proof. intros h. unfold docker.inspect. destruct (image_cached i h); simpl; discriminate. Qed.

Lemma settles_logs o : settles (docker.logs o).
Proof. intros h. destruct o; simpl; discriminate. Qed.

Lemma settles_when (b : bool) (m : Task unit) :
  settles m -> settles (DockerService.when b m).
Proof. intros Hm. destruct b; simpl; auto. apply settles_ret. Qed.

Create HintDb task.
#[local] Hint Resolve settles_ret settles_throw settles_bind settles_try_catch
  settles_attempt settles_inspect settles_logs settles_when : task.

(** Takes a task apart down to its calls; what is left to show is [P] of
    each call. *)
Ltac task_calls :=
  repeat first
    [ apply calls_only_bind; [|intros ?]
    | apply calls_only_try_catch; [|intros ?]
    | apply calls_only_when
    | apply calls_only_ret | apply calls_only_throw
    | apply calls_only_mkdir | apply calls_only_writeFile | apply calls_only_rm
    | apply calls_only_pull | apply calls_only_createContainer
    | apply calls_only_start | apply calls_only_attach_write
    | apply calls_only_inspect | apply calls_only_wait | apply calls_only_logs ].

(** ** The batch executor *)

Lemma executeCode_calls_only (P : Action -> Prop) w code language input :
  (forall a, (forall c, a <> ContainerCreate c) -> forced_termination a = false -> P a) ->
  (forall config, P (ContainerCreate
     (DockerService.containerConfig config (DockerService.tempDir w) input))) ->
  calls_only P (DockerService.executeCode w code language input).
Proof.
  intros HP HC. unfold DockerService.executeCode, DockerService.pullImage.
  destruct (Js.get _ _); task_calls;
    solve [ apply HC | apply HP; [ intros; discriminate | reflexivity ] ].
Qed.

Lemma provision_prepares w code language input config :
  calls_only preparing (provision w code language input config).
Proof.
  unfold provision, DockerService.pullImage.
  task_calls; repeat split; intros; discriminate.
Qed.

Lemma provision_settles w code language input config :
  settles (provision w code language input config).
Proof.
  unfold provision, DockerService.pullImage, fs.mkdir, fs.writeFile,
    docker.pull, docker.createContainer, docker.start, docker.attach_write.
  auto 20 with task.
Qed.

(** Tasks that do the same on every machine. *)
Lemma bind_assoc {A B C : Type} (m : Task A) (k : A -> Task B) (k' : B -> Task C) h :
  bind (bind m k) k' h = bind m (fun a => bind (k a) k') h.
Proof. unfold bind. destruct (m h) as [[a|e|] h1]; reflexivity. Qed.

Lemma bind_ext {A B : Type} (m : Task A) (k k' : A -> Task B) h :
  (forall a h1, k a h1 = k' a h1) -> bind m k h = bind m k' h.
Proof. intros E. unfold bind. destruct (m h) as [[a|e|] h1]; auto. Qed.

Lemma try_catch_ext {A : Type} (m m' : Task A) (handler : string -> Task A) h :
  m h = m' h -> try_catch m handler h = try_catch m' handler h.
Proof. intros E. unfold try_catch. rewrite E. reflexivity. Qed.

(** [executeCode] is its two halves under the one [try]. *)
Lemma executeCode_halves w code language input h :
  DockerService.executeCode w code language input h =
  match Js.get DockerService.languageConfigs (Js.toLowerCase language) with
  | Js.Undefined => (Thrown ("Unsupported language: " ++ language), h)
  | config =>
      try_catch (bind (provision w code language input config) (fun _ => collect w))
        (recover w) h
  end.
Proof.
  unfold DockerService.executeCode.
  destruct (Js.get _ _) as [c|n|]; [| |reflexivity].
  all: apply try_catch_ext; unfold provision; symmetry.
  all: repeat (rewrite bind_assoc; apply bind_ext; intros ? ?).
  all: reflexivity.
Qed.

Lemma halves_shape w code language input config h :
  let h1 := snd (provision w code language input config h) in
  try_catch (bind (provision w code language input config) (fun _ => collect w))
    (recover w) h = try_catch (collect w) (recover w) h1
  \/ exists e,
      try_catch (bind (provision w code language input config) (fun _ => collect w))
        (recover w) h = recover w e h1.
Proof.
  cbv zeta. unfold try_catch at 1 3, bind at 1 2.
  pose proof (provision_settles w code language input config h) as S.
  destruct (provision _ _ _ _ _ h) as [[[]|e|] h1]; simpl in *.
  - left; reflexivity.
  - right; eauto.
  - congruence.
Qed.

(** How a run goes once the language is accepted: the first half resolves
    and the second runs under the [try], or it throws and the [catch]
    block runs. *)
Lemma run_shape w code language input h :
  let config := Js.get DockerService.languageConfigs (Js.toLowerCase language) in
  let h1 := snd (provision w code language input config h) in
  config <> Js.Undefined ->
  DockerService.executeCode w code language input h
    = try_catch (collect w) (recover w) h1
  \/ exists e, DockerService.executeCode w code language input h
               = recover w e h1.
Proof.
  cbv zeta. intros G. rewrite executeCode_halves.
  destruct (Js.get _ _) as [c|n|] eqn:E; [| |congruence]; apply halves_shape.
Qed.

Lemma rm_clears (d : string) (l : list string) :
  existsb (String.eqb d) (filter (fun x => negb (String.eqb d x)) l) = false.
Proof.
  induction l as [|x l IH]; simpl; auto.
  destruct (String.eqb d x) eqn:E; simpl; auto. rewrite E; auto.
Qed.

Lemma performed_from (h h1 hf : Machine) (acts1 more : list Action) :
  trace h1 = (trace h ++ acts1)%list ->
  trace hf = (trace h1 ++ more)%list ->
  performed h hf = (acts1 ++ more)%list.
Proof.
  intros E1 E2. apply performed_extension. rewrite E2, E1, app_assoc. reflexivity.
Qed.

Lemma no_calls (h : Machine) : performed h h = [].
Proof. unfold performed. apply skipn_all. Qed.

(** What the [catch] block does. *)
Lemma recover_run w e h1 :
  recover w e h1
  = (Resolved {| executionId := uuidv4 w; status := "error"; output := e;
                 exitCode := 1 |},
     match rm_again_fails w with
     | Some _ => note (Rm (DockerService.tempDir w)) h1
     | None =>
         {| dirs := filter (fun d => negb (String.eqb (DockerService.tempDir w) d))
                      (dirs h1);
            files := filter (fun f => negb (String.eqb (DockerService.tempDir w)
                                                       (fst (fst f))))
                       (files h1);
            images := images h1;
            trace := (trace h1 ++ [Rm (DockerService.tempDir w)])%list |}
     end).
Proof.
  unfold recover, try_catch, bind, fs.rm, attempt, ret.
  destruct (rm_again_fails w); reflexivity.
Qed.

Lemma recover_trace w e h1 :
  trace (snd (recover w e h1)) = (trace h1 ++ [Rm (DockerService.tempDir w)])%list.
Proof. rewrite recover_run. destruct (rm_again_fails w); reflexivity. Qed.

(** The calls of a run whose first half threw. *)
Lemma recovered_calls w code language input config h e :
  exists acts1,
    Forall preparing acts1 /\
    performed h (snd (recover w e (snd (provision w code language input config h))))
    = (acts1 ++ [Rm (DockerService.tempDir w)])%list.
Proof.
  destruct (provision_prepares w code language input config h) as (acts1 & T & F).
  exists acts1. split; auto.
  eapply performed_from; [exact T | apply recover_trace].
Qed.

Lemma preparing_not_wait acts :
  Forall preparing acts -> ~ In ContainerWait acts.
Proof.
  intros F I. rewrite Forall_forall in F. destruct (F _ I) as [N _]. congruence.
Qed.

(** A run that waited for the container did not go to the [catch] block
    from its first half. *)
Lemma waited_run w code language input h :
  In ContainerWait
     (performed h (snd (DockerService.executeCode w code language input h))) ->
  exists h1,
    DockerService.executeCode w code language input h
    = try_catch (collect w) (recover w) h1.
Proof.
  intros I.
  destruct (Js.get DockerService.languageConfigs (Js.toLowerCase language))
    as [c|n|] eqn:G.
  3:{ rewrite executeCode_halves, G in I. simpl in I. rewrite no_calls in I.
      destruct I. }
  all: pose proof (run_shape w code language input h) as R; cbv zeta in R;
    rewrite G in R; destruct R as [R|[e R]]; [discriminate|eauto|].
  all: exfalso; rewrite R in I;
    destruct (recovered_calls w code language input
                (Js.get DockerService.languageConfigs (Js.toLowerCase language)) h e)
      as (acts1 & F & E); rewrite G in E; rewrite E in I;
    apply in_app_or in I; destruct I as [I|[I|[]]]; [|discriminate];
    exact (preparing_not_wait _ F I).
Qed.

(** C1 (as amended): [executeCode] has no timeout.  It ends no container
    by force; once it waits for a container that never exits it stays
    pending for ever; and no result it returns has an [errorKind]. *)
Theorem executeCode_has_no_timeout (w : World) (code language input : string)
  (h : Machine) :
  let run := DockerService.executeCode w code language input h in
  Forall (fun a => forced_termination a = false) (performed h (snd run)) /\
  (In ContainerWait (performed h (snd run)) ->
   wait_outcome w = NeverExits -> fst run = Pending) /\
  (forall r, fst run = Resolved r -> property r "errorKind" = None).
Proof.
  cbv zeta. split; [|split].
  - destruct (executeCode_calls_only (fun a => forced_termination a = false)
                w code language input) with (h := h) as (acts & T & F); auto.
    rewrite (performed_extension _ _ _ T). exact F.
  - intros I N. destruct (waited_run _ _ _ _ _ I) as (h1 & R).
    rewrite R. unfold try_catch, collect, bind, docker.wait.
    rewrite N. reflexivity.
  - intros r _. reflexivity.
Qed.

(** C1 as the specification states it fails: the program never exits, no timeout
    fires; the call stays pending, no container is ended by force and the
    workspace stays on disk. *)
Lemma endless_program_is_never_timed_out :
  let run := DockerService.executeCode endless "while True: pass" "python" ""
               empty_machine in
  fst run = Pending /\
  (~ exists r, fst run = Resolved r /\ status r = "error" /\
               property r "errorKind" = Some (JsString "ExecutionTimeout")) /\
  In ContainerWait (trace (snd run)) /\
  forallb (fun a => negb (forced_termination a)) (trace (snd run)) = true /\
  dir_exists (DockerService.tempDir endless) (snd run) = true.
Proof.
  vm_compute. repeat split; auto.
  - intros (r & E & _). discriminate.
  - repeat (first [left; reflexivity | right]).
Qed.

(** ** The workspace *)

(** What the second half does, by the answers of the world. *)
Lemma collect_run w h1 :
  try_catch (collect w) (recover w) h1
  = match wait_outcome w with
    | NeverExits => (Pending, note ContainerWait h1)
    | WaitFails e => recover w e (note ContainerWait h1)
    | Exited c =>
        match logs_outcome w with
        | inr e => recover w e (note ContainerLogs (note ContainerWait h1))
        | inl text =>
            let h2 := note (Rm (DockerService.tempDir w))
                        (note ContainerLogs (note ContainerWait h1)) in
            match rm_fails w with
            | Some e => recover w e h2
            | None =>
                (Resolved {| executionId := uuidv4 w;
                             status := if Z.eqb c 0 then "success" else "error";
                             output := text;
                             exitCode := c |},
                 {| dirs := filter (fun d => negb (String.eqb (DockerService.tempDir w) d))
                              (dirs h2);
                    files := filter (fun f => negb (String.eqb (DockerService.tempDir w)
                                                               (fst (fst f))))
                               (files h2);
                    images := images h2;
                    trace := trace h2 |})
            end
        end
    end.
Proof.
  unfold try_catch at 1. unfold collect, bind, ret, docker.wait, docker.logs,
    fs.rm, attempt.
  destruct (wait_outcome w); [|reflexivity|reflexivity].
  destruct (logs_outcome w); [|reflexivity].
  destruct (rm_fails w); reflexivity.
Qed.

(** After the [catch] block the workspace is there only if its removal
    failed. *)
Lemma recover_leaves w e h1 :
  dir_exists (DockerService.tempDir w) (snd (recover w e h1)) = true ->
  exists e', rm_again_fails w = Some e'.
Proof.
  rewrite recover_run. destruct (rm_again_fails w) as [e'|]; [eauto|].
  unfold dir_exists; simpl. rewrite rm_clears. discriminate.
Qed.

Lemma recover_result w e h1 r :
  fst (recover w e h1) = Resolved r -> status r = "error" /\ exitCode r = 1%Z.
Proof. rewrite recover_run. simpl. intros [= <-]. auto. Qed.

Lemma recover_removes w e h0 h1 acts :
  trace h1 = (trace h0 ++ acts)%list ->
  In (Rm (DockerService.tempDir w)) (performed h0 (snd (recover w e h1))).
Proof.
  intros T. erewrite performed_from; [| exact T | apply recover_trace].
  apply in_or_app. right. left. reflexivity.
Qed.

Ltac after_recover T E :=
  split;
  [ eapply recover_removes; simpl; rewrite ?T, <- ?app_assoc; reflexivity
  | let D := fresh "D" in
    intros D; destruct (recover_leaves _ _ _ D) as [? ?];
    destruct (recover_result _ _ _ _ E); eauto ].

(** C2 (as amended): when [executeCode] returns a result it has asked
    for the removal of the workspace directory, and the directory is no
    longer on disk unless the removal in the [catch] block failed; that
    failure is swallowed and the result is an error result. *)
Theorem workspace_removed_unless_removal_fails (w : World)
  (code language input : string) (h : Machine) (r : ExecutionResult) :
  fst (DockerService.executeCode w code language input h) = Resolved r ->
  In (Rm (DockerService.tempDir w))
     (performed h (snd (DockerService.executeCode w code language input h))) /\
  (dir_exists (DockerService.tempDir w)
     (snd (DockerService.executeCode w code language input h)) = true ->
   exists e, rm_again_fails w = Some e /\ status r = "error" /\ exitCode r = 1%Z).
Proof.
  intros E.
  destruct (Js.get DockerService.languageConfigs (Js.toLowerCase language))
    as [c|n|] eqn:G.
  3:{ rewrite executeCode_halves, G in E. discriminate. }
  all: pose proof (run_shape w code language input h) as R; cbv zeta in R;
    rewrite G in R; destruct R as [R|[e R]]; [discriminate| |].
  all: destruct (provision_prepares w code language input
                   (Js.get DockerService.languageConfigs (Js.toLowerCase language)) h)
         as (acts1 & T & F); rewrite G in T.
  all: rewrite R in *; clear R.
  2,4: after_recover T E.
  all: rewrite collect_run in *.
  all: destruct (wait_outcome w); [| after_recover T E | discriminate].
  all: destruct (logs_outcome w); [| after_recover T E].
  all: cbv zeta in *; destruct (rm_fails w); [after_recover T E|].
  all: split;
    [ rewrite performed_extension with
        (acts := (acts1 ++ [ContainerWait; ContainerLogs; Rm (DockerService.tempDir w)])%list);
      [ apply in_or_app; right; simpl; auto
      | simpl; rewrite T, <- !app_assoc; reflexivity ]
    | unfold dir_exists; simpl; rewrite rm_clears; discriminate ].
Qed.

(** C2 as the specification states it fails: the program exits with 0, the removal
    of the workspace fails on the normal path and again in the [catch]
    block; [executeCode] returns and the directory is still on disk. *)
Lemma workspace_left_when_removal_fails :
  let run := DockerService.executeCode busy "print(1)" "python" "" empty_machine in
  fst run = Resolved {| executionId := uuidv4 busy;
                        status := "error";
                        output := "EBUSY: resource busy or locked, rmdir";
                        exitCode := 1 |} /\
  In (Mkdir (DockerService.tempDir busy)) (trace (snd run)) /\
  dir_exists (DockerService.tempDir busy) (snd run) = true.
Proof. vm_compute. repeat split; auto. Qed.

(** C2 (as amended) in a world where nothing fails: the workspace is
    removed. *)
Lemma workspace_removed_witness :
  In (Rm (DockerService.tempDir calm))
     (performed empty_machine
        (snd (DockerService.executeCode calm "print(1)" "python" "" empty_machine))) /\
  (dir_exists (DockerService.tempDir calm)
     (snd (DockerService.executeCode calm "print(1)" "python" "" empty_machine)) = true ->
   exists e, rm_again_fails calm = Some e /\
             status {| executionId := uuidv4 calm; status := "success";
                       output := "Hello, World!" ++ Js.LF; exitCode := 0 |} = "error" /\
             exitCode {| executionId := uuidv4 calm; status := "success";
                         output := "Hello, World!" ++ Js.LF; exitCode := 0 |} = 1%Z).
Proof.
  apply (workspace_removed_unless_removal_fails calm "print(1)" "python" ""
           empty_machine).
  vm_compute. reflexivity.
Defined.

(** ** The result of a natural exit *)

(** C6 (as amended): in a batch execution in which the container was
    waited for and exited with code [c]: when its logs are then read and
    the workspace is removed, the result has [exitCode = c], the logs as
    [output], and [status] "success" when [c = 0] and "error" otherwise;
    when reading the logs fails, the [catch] block returns an error
    result, with [exitCode] 1 and the message of the failure as
    [output], whatever [c] is. *)
Theorem natural_exit_result (w : World) (code language input : string)
  (h : Machine) (c : Z) :
  In ContainerWait
     (performed h (snd (DockerService.executeCode w code language input h))) ->
  wait_outcome w = Exited c ->
  (forall text,
     logs_outcome w = inl text ->
     rm_fails w = None ->
     exists r,
       fst (DockerService.executeCode w code language input h) = Resolved r /\
       exitCode r = c /\ output r = text /\
       (status r = "success" <-> c = 0%Z) /\
       (status r = "error" <-> c <> 0%Z)) /\
  (forall message,
     logs_outcome w = inr message ->
     fst (DockerService.executeCode w code language input h)
     = Resolved {| executionId := uuidv4 w; status := "error";
                   output := message; exitCode := 1 |}).
Proof.
  intros I W. destruct (waited_run _ _ _ _ _ I) as (h1 & E). split.
  - intros text L R.
    rewrite E, collect_run, W, L. cbv zeta. rewrite R. simpl.
    eexists. split; [reflexivity|]. simpl. repeat split; auto.
    + destruct (Z.eqb_spec c 0); auto. discriminate.
    + intros ->. reflexivity.
    + destruct (Z.eqb_spec c 0); auto. discriminate.
    + intros N. destruct (Z.eqb_spec c 0); auto. contradiction.
  - intros message L.
    rewrite E, collect_run, W, L, recover_run. reflexivity.
Qed.

(** C6 as the specification states it fails: the program exits with 0 and
    reading the logs fails; the [catch] block returns an error result with
    [exitCode] 1 and the message of the failure as [output]. *)
Lemma exit_code_lost_when_logs_fail :
  let run := DockerService.executeCode unlogged "print(1)" "python" ""
               empty_machine in
  wait_outcome unlogged = Exited 0 /\
  In ContainerWait (trace (snd run)) /\
  fst run = Resolved {| executionId := uuidv4 unlogged;
                        status := "error";
                        output := "(HTTP code 404) no such container";
                        exitCode := 1 |}.
Proof.
  vm_compute. repeat split. repeat (first [left; reflexivity | right]).
Qed.

(** C6 (as amended) for a program that prints a line and exits with 0,
    and for the same program when its logs cannot be read. *)
Lemma natural_exit_witness :
  (exists r,
     fst (DockerService.executeCode calm "print('Hello, World!')" "python" ""
            empty_machine) = Resolved r /\
     exitCode r = 0%Z /\ output r = "Hello, World!" ++ Js.LF /\
     (status r = "success" <-> 0%Z = 0%Z) /\
     (status r = "error" <-> 0%Z <> 0%Z)) /\
  fst (DockerService.executeCode unlogged "print('Hello, World!')" "python" ""
         empty_machine)
  = Resolved {| executionId := uuidv4 unlogged; status := "error";
                output := "(HTTP code 404) no such container";
                exitCode := 1 |}.
Proof.
  split.
  - apply (natural_exit_result calm "print('Hello, World!')" "python" ""
             empty_machine 0).
    + vm_compute. repeat (first [left; reflexivity | right]).
    + reflexivity.
    + reflexivity.
    + reflexivity.
  - apply (natural_exit_result unlogged "print('Hello, World!')" "python" ""
             empty_machine 0).
    + vm_compute. repeat (first [left; reflexivity | right]).
    + reflexivity.
    + reflexivity.
Defined.

(** ** Unknown languages *)

(** X1: a language that is neither a key of the registry nor the name of
    a member every object inherits is rejected at once: the call throws an
    error that names the language and nothing is created. *)
Theorem unknown_language_rejected (w : World) (code language input : string)
  (h : Machine) :
  Js.own DockerService.languageConfigs (Js.toLowerCase language) = None ->
  Js.inherited (Js.toLowerCase language) = false ->
  DockerService.executeCode w code language input h
  = (Thrown ("Unsupported language: " ++ language), h).
Proof.
  intros O I. unfold DockerService.executeCode, Js.get. rewrite O, I. reflexivity.
Qed.

(** X1 for a language of no profile: nothing is done and the call
    throws. *)
Lemma unknown_language_witness :
  DockerService.executeCode calm "puts 1" "unknownlang" "" empty_machine
  = (Thrown "Unsupported language: unknownlang", empty_machine).
Proof.
  apply (unknown_language_rejected calm "puts 1" "unknownlang" "" empty_machine);
    reflexivity.
Defined.

Lemma provision_begins w code language input config h :
  exists rest,
    trace (snd (provision w code language input config h))
    = (trace h ++ Mkdir (DockerService.tempDir w) :: rest)%list.
Proof.
  unfold provision.
  match goal with |- context [bind ?m ?k] =>
    assert (C : forall a, calls_only (fun _ => True) (k a))
  end.
  { intros a. unfold DockerService.pullImage. task_calls; exact I. }
  unfold bind at 1, fs.mkdir at 1, attempt.
  destruct (mkdir_fails w); simpl.
  - exists []. reflexivity.
  - match goal with |- context [snd (?k ?h')] =>
      destruct (C tt h') as (acts & T & _)
    end.
    exists acts. simpl in T. rewrite T, <- app_assoc. reflexivity.
Qed.

Lemma run_after_provision w code language input h :
  let config := Js.get DockerService.languageConfigs (Js.toLowerCase language) in
  config <> Js.Undefined ->
  exists more,
    trace (snd (DockerService.executeCode w code language input h))
    = (trace (snd (provision w code language input config h)) ++ more)%list /\
    (forall e, fst (DockerService.executeCode w code language input h) <> Thrown e).
Proof.
  cbv zeta. intros G.
  destruct (run_shape w code language input h G) as [R|[e R]]; rewrite R.
  - assert (C : calls_only (fun _ => True) (try_catch (collect w) (recover w))).
    { unfold collect, recover. task_calls; exact I. }
    match goal with |- context [try_catch _ _ ?h1] =>
      destruct (C h1) as (more & T & _); exists more; split; [exact T|]
    end.
    intros e. rewrite collect_run.
    destruct (wait_outcome w); [|rewrite recover_run; discriminate|discriminate].
    destruct (logs_outcome w); [|rewrite recover_run; discriminate].
    cbv zeta. destruct (rm_fails w); [rewrite recover_run|]; discriminate.
  - eexists. split; [apply recover_trace|]. rewrite recover_run. discriminate.
Qed.

(** C5, on the name of a member every object inherits: the language
    "constructor" is in no profile, yet the lookup finds something, the
    request is not rejected and the workspace directory is created. *)
Theorem inherited_name_is_not_rejected (w : World) (code input : string)
  (h : Machine) :
  let run := DockerService.executeCode w code "constructor" input h in
  Js.own DockerService.languageConfigs (Js.toLowerCase "constructor") = None /\
  (forall e, fst run <> Thrown e) /\
  In (Mkdir (DockerService.tempDir w)) (performed h (snd run)).
Proof.
  cbv zeta. split; [reflexivity|].
  destruct (run_after_provision w code "constructor" input h) as (more & T & N).
  { discriminate. }
  split; [exact N|].
  destruct (provision_begins w code "constructor" input
              (Js.get DockerService.languageConfigs (Js.toLowerCase "constructor")) h)
    as (rest & P).
  erewrite performed_extension.
  2:{ rewrite T, P, <- app_assoc. reflexivity. }
  left. reflexivity.
Qed.

(** ** The container of a batch execution *)

Lemma executeCode_stdin_calls_only (P : Action -> Prop) w code language input :
  (forall a, (forall c, a <> ContainerCreate c) -> forced_termination a = false -> P a) ->
  (forall config, P (ContainerCreate
     (DockerServiceStdin.containerConfig config (DockerService.tempDir w)))) ->
  calls_only P (DockerServiceStdin.executeCode w code language input).
Proof.
  intros HP HC. unfold DockerServiceStdin.executeCode, DockerServiceStdin.pullImage.
  destruct (Js.get _ _); task_calls;
    solve [ apply HC | apply HP; [ intros; discriminate | reflexivity ] ].
Qed.

(** C7 (as amended): the container of a batch execution has no network
    and is removed when it exits; its file system policy does not depend
    on the language: read-write for every language in the revision that
    compiles next to the source, read-only for every language in the
    other revision. *)
Theorem container_policy_is_fixed (w : World) (code language input : string)
  (h : Machine) :
  (forall config,
     In (ContainerCreate config)
        (performed h (snd (DockerService.executeCode w code language input h))) ->
     NetworkMode (HostConfig config) = "none" /\
     AutoRemove (HostConfig config) = true /\
     filesystemPolicy config = "readwrite") /\
  (forall config,
     In (ContainerCreate config)
        (performed h (snd (DockerServiceStdin.executeCode w code language input h))) ->
     NetworkMode (HostConfig config) = "none" /\
     AutoRemove (HostConfig config) = true /\
     filesystemPolicy config = "readonly").
Proof.
  split; intros config I.
  - destruct (executeCode_calls_only (creates_with "readwrite") w code language input)
      with (h := h) as (acts & T & F).
    + intros a N _ c E. destruct (N c E).
    + intros cfg c [= <-]. repeat split.
    + rewrite (performed_extension _ _ _ T) in I.
      rewrite Forall_forall in F. exact (F _ I config eq_refl).
  - destruct (executeCode_stdin_calls_only (creates_with "readonly") w code language input)
      with (h := h) as (acts & T & F).
    + intros a N _ c E. destruct (N c E).
    + intros cfg c [= <-]. repeat split.
    + rewrite (performed_extension _ _ _ T) in I.
      rewrite Forall_forall in F. exact (F _ I config eq_refl).
Qed.

(** C7 as the specification states it fails both ways: Python has no compile step
    and gets a read-write file system in one revision; Java compiles next
    to its source and gets a read-only one in the other. *)
Lemma file_system_policy_ignores_the_language :
  (exists config,
     In (ContainerCreate config)
        (trace (snd (DockerService.executeCode calm "print(1)" "python" ""
                       empty_machine))) /\
     filesystemPolicy config = "readwrite") /\
  option_map (fun p => compiles_next_to_source (DockerService.command p))
             (Js.own DockerService.languageConfigs "python") = Some false /\
  (exists config,
     In (ContainerCreate config)
        (trace (snd (DockerServiceStdin.executeCode calm "public class Main {}"
                       "java" "" empty_machine))) /\
     filesystemPolicy config = "readonly") /\
  option_map (fun p => compiles_next_to_source (DockerServiceStdin.command p))
             (Js.own DockerServiceStdin.languageConfigs "java") = Some true.
Proof.
  repeat split.
  - eexists. split.
    + vm_compute. do 4 right. left. reflexivity.
    + reflexivity.
  - eexists. split.
    + vm_compute. do 4 right. left. reflexivity.
    + reflexivity.
Qed.

(** ** The name of the source file *)

Lemma word_is_no_space (c : ascii) : Js.isWord c = true -> Js.isSpace c = false.
Proof.
  destruct c as [[] [] [] [] [] [] [] []]; vm_compute; intros; congruence.
Qed.

Lemma strip_prefix_app (p r : string) : Js.strip_prefix p (p ++ r) = Some r.
Proof.
  induction p as [|a p IH]; simpl.
  - destruct r; reflexivity.
  - rewrite Ascii.eqb_refl. exact IH.
Qed.

Lemma strip_prefix_inv (p s r : string) :
  Js.strip_prefix p s = Some r -> s = p ++ r.
Proof.
  revert s. induction p as [|a p IH]; intros s E; simpl in *.
  - destruct s; congruence.
  - destruct s as [|b s]; [discriminate|].
    destruct (Ascii.eqb_spec a b); [|discriminate].
    subst. f_equal. auto.
Qed.

Lemma skip_spaces_app (ws r : string) :
  all_units Js.isSpace ws = true -> head_is Js.isSpace r = false ->
  DockerService.skip_spaces (ws ++ r) = r.
Proof.
  induction ws as [|c ws IH]; simpl; intros A H.
  - destruct r as [|c r]; simpl in *; auto. rewrite H. reflexivity.
  - apply andb_prop in A. destruct A as [C A]. rewrite C. auto.
Qed.

Lemma skip_spaces_split (s : string) :
  exists ws,
    s = ws ++ DockerService.skip_spaces s /\
    all_units Js.isSpace ws = true /\
    head_is Js.isSpace (DockerService.skip_spaces s) = false /\
    (DockerService.starts_with_space s = true -> ws <> "").
Proof.
  induction s as [|c s (ws & E & A & H & N)]; simpl.
  - exists "". repeat split; auto. discriminate.
  - destruct (Js.isSpace c) eqn:C.
    + exists (String c ws). simpl. rewrite C, A. repeat split; auto.
      * f_equal. exact E.
      * discriminate.
    + exists "". simpl. repeat split; auto. discriminate.
Qed.

Lemma starts_with_space_app (ws r : string) :
  ws <> "" -> all_units Js.isSpace ws = true ->
  DockerService.starts_with_space (ws ++ r) = true.
Proof.
  destruct ws as [|c ws]; [congruence|]. simpl. intros _ A.
  apply andb_prop in A. tauto.
Qed.

Lemma take_word_app (name rest : string) :
  all_units Js.isWord name = true -> head_is Js.isWord rest = false ->
  DockerService.take_word (name ++ rest) = name.
Proof.
  induction name as [|c name IH]; simpl; intros A H.
  - destruct rest as [|c rest]; simpl in *; auto. rewrite H. reflexivity.
  - apply andb_prop in A. destruct A as [C A]. rewrite C. f_equal. auto.
Qed.

Lemma take_word_split (s : string) :
  exists rest,
    s = DockerService.take_word s ++ rest /\
    all_units Js.isWord (DockerService.take_word s) = true /\
    head_is Js.isWord rest = false.
Proof.
  induction s as [|c s (rest & E & A & H)]; simpl.
  - exists "". auto.
  - destruct (Js.isWord c) eqn:C.
    + exists rest. simpl. rewrite C, A. repeat split; auto. f_equal. exact E.
    + exists (String c s). simpl. auto.
Qed.

Lemma word_head_no_space (name rest : string) :
  name <> "" -> all_units Js.isWord name = true ->
  head_is Js.isSpace (name ++ rest) = false.
Proof.
  destruct name as [|c name]; [congruence|]. simpl. intros _ A.
  apply andb_prop in A. destruct A as [C _]. apply word_is_no_space; auto.
Qed.

(** The anchored pattern matches exactly a declaration at the head. *)
Lemma match_here_declares (s name : string) :
  DockerService.match_here s = Some name <-> declares_at "" name s.
Proof.
  unfold DockerService.match_here, DockerService.spaces_then, declares_at. split.
  - destruct (Js.strip_prefix "public" s) as [r1|] eqn:E1; [|discriminate].
    destruct (DockerService.starts_with_space r1) eqn:S1; [|discriminate].
    destruct (Js.strip_prefix "class" (DockerService.skip_spaces r1)) as [r2|] eqn:E2;
      [|discriminate].
    destruct (DockerService.starts_with_space r2) eqn:S2; [|discriminate].
    destruct (DockerService.take_word (DockerService.skip_spaces r2)) as [|c n] eqn:W;
      [discriminate|].
    intros [= <-].
    apply strip_prefix_inv in E1, E2.
    destruct (skip_spaces_split r1) as (ws1 & R1 & A1 & _ & N1).
    destruct (skip_spaces_split r2) as (ws2 & R2 & A2 & _ & N2).
    destruct (take_word_split (DockerService.skip_spaces r2)) as (rest & R3 & A3 & H3).
    rewrite W in *.
    exists ws1, ws2, rest. repeat split; auto; try discriminate.
    rewrite E1, R1, E2, R2, R3 at 1. reflexivity.
  - intros (ws1 & ws2 & rest & E & N1 & A1 & N2 & A2 & N3 & A3 & H).
    subst s. change ("" ++ "public" ++ ws1 ++ "class" ++ ws2 ++ name ++ rest)
      with ("public" ++ (ws1 ++ "class" ++ ws2 ++ name ++ rest)).
    rewrite strip_prefix_app, starts_with_space_app by auto.
    rewrite skip_spaces_app by auto.
    rewrite strip_prefix_app, starts_with_space_app by auto.
    rewrite skip_spaces_app by (auto using word_head_no_space).
    rewrite take_word_app by auto.
    destruct name; congruence.
Qed.

Lemma declares_at_later (c : ascii) (before name code : string) :
  declares_at (String c before) name code <->
  exists code', code = String c code' /\ declares_at before name code'.
Proof.
  unfold declares_at. split.
  - intros (ws1 & ws2 & rest & E & H). simpl in E.
    eexists. split; [exact E|]. exists ws1, ws2, rest. split; auto.
  - intros (code' & E & ws1 & ws2 & rest & E' & H). subst.
    exists ws1, ws2, rest. split; auto.
Qed.

Lemma declares_at_empty (before name : string) : ~ declares_at before name "".
Proof.
  intros (ws1 & ws2 & rest & E & _). destruct before; discriminate.
Qed.

Lemma first_public_class_found (code name : string) :
  first_public_class code name -> DockerService.match_public_class code = Some name.
Proof.
  revert name. induction code as [|c code IH]; intros name (before & D & M).
  - destruct (declares_at_empty _ _ D).
  - simpl DockerService.match_public_class.
    destruct before as [|b before].
    + apply match_here_declares in D. rewrite D. reflexivity.
    + destruct (DockerService.match_here (String c code)) as [n|] eqn:E.
      * apply match_here_declares in E. specialize (M _ _ E). simpl in M. lia.
      * apply declares_at_later in D. destruct D as (code' & [= -> <-] & D).
        apply IH. exists before. split; auto.
        intros before' name' D'.
        assert (D2 : declares_at (String b before') name' (String b code)).
        { apply declares_at_later. eauto. }
        specialize (M _ _ D2). simpl in M. lia.
Qed.

Lemma no_public_class_found (code : string) :
  no_public_class code -> DockerService.match_public_class code = None.
Proof.
  induction code as [|c code IH]; intros N; simpl.
  - reflexivity.
  - destruct (DockerService.match_here (String c code)) as [n|] eqn:E.
    + apply match_here_declares in E. destruct (N _ _ E).
    + apply IH. intros before name D.
      apply (N (String c before) name). apply declares_at_later. eauto.
Qed.

Lemma source_is_written w code language input h :
  let config := Js.get DockerService.languageConfigs (Js.toLowerCase language) in
  config <> Js.Undefined ->
  mkdir_fails w = None ->
  In (WriteFile (DockerService.tempDir w)
        (DockerService.sourceFilename config code language) code)
     (performed h (snd (DockerService.executeCode w code language input h))).
Proof.
  cbv zeta. intros G M.
  destruct (run_after_provision w code language input h G) as (more & T & _).
  assert (P : exists rest,
             trace (snd (provision w code language input
                           (Js.get DockerService.languageConfigs
                              (Js.toLowerCase language)) h))
             = (trace h ++ Mkdir (DockerService.tempDir w)
                  :: WriteFile (DockerService.tempDir w)
                       (DockerService.sourceFilename
                          (Js.get DockerService.languageConfigs
                             (Js.toLowerCase language)) code language) code
                  :: rest)%list).
  { unfold provision.
    match goal with |- context [bind _ (fun _ => bind _ ?k)] =>
      assert (C : forall a, calls_only (fun _ => True) (k a))
    end.
    { intros a. unfold DockerService.pullImage. task_calls; exact I. }
    unfold bind at 1 2, fs.mkdir at 1, fs.writeFile at 1, attempt.
    rewrite M. simpl.
    destruct (writeSource_fails w); simpl.
    - exists []. rewrite <- app_assoc. reflexivity.
    - match goal with |- context [snd (?k ?h')] =>
        destruct (C tt h') as (acts & T' & _)
      end.
      exists acts. simpl in T'. rewrite T', <- !app_assoc. reflexivity. }
  destruct P as (rest & P).
  erewrite performed_extension.
  2:{ rewrite T, P, <- app_assoc. reflexivity. }
  right. left. reflexivity.
Qed.

(** The name follows the pattern: for Java the source file is named
    after the class of the leftmost [public], white space, [class], white
    space, word in the source, and [Main.java] when the source has none;
    for every other language of the registry it has the static name of
    the profile.  That name is the one [executeCode] writes the source
    under. *)
Lemma source_file_name_by_pattern (code language : string)
  (profile : DockerService.LanguageConfig) :
  Js.get DockerService.languageConfigs (Js.toLowerCase language) = Js.Own profile ->
  let name := DockerService.sourceFilename (Js.Own profile) code language in
  (Js.toLowerCase language = "java" ->
   (forall class, first_public_class code class -> name = class ++ ".java") /\
   (no_public_class code -> name = "Main.java")) /\
  (Js.toLowerCase language <> "java" -> name = DockerService.filename profile) /\
  (forall w input h,
     mkdir_fails w = None ->
     In (WriteFile (DockerService.tempDir w) name code)
        (performed h (snd (DockerService.executeCode w code language input h)))).
Proof.
  intros G. cbv zeta. split; [|split].
  - intros J. unfold DockerService.sourceFilename. rewrite J. simpl. split.
    + intros class F. rewrite (first_public_class_found _ _ F). reflexivity.
    + intros N. rewrite (no_public_class_found _ N). reflexivity.
  - intros J. unfold DockerService.sourceFilename.
    destruct (String.eqb_spec (Js.toLowerCase language) "java"); [contradiction|].
    simpl.
    unfold Js.get in G.
    destruct (Js.own DockerService.languageConfigs (Js.toLowerCase language))
      as [p|] eqn:O; [|destruct (Js.inherited _); discriminate].
    injection G as ->.
    unfold DockerService.languageConfigs in O. simpl in O.
    repeat match type of O with
           | (if ?b then _ else _) = _ => destruct b
           end; try discriminate; injection O as <-; reflexivity.
  - intros w input h M.
    pose proof (source_is_written w code language input h) as W.
    cbv zeta in W. rewrite G in W. apply W; auto. discriminate.
Qed.

(** C8, where the code misses it: the class of a Java source is looked
    for with a pattern that wants [class] right after [public], and that
    is tried on comments as well.  A source whose public class has a
    modifier is written to [Main.java], not to the file of its class, and
    a source with a comment that reads like a declaration is written to
    the file of the name in the comment, not to that of the class it
    declares; the source that declares its class plainly is written to
    the file of its class. *)
Theorem java_class_name_missed :
  In (WriteFile (DockerService.tempDir calm) "Main.java"
        "public final class Foo { }")
     (performed empty_machine
        (snd (DockerService.executeCode calm "public final class Foo { }"
                "java" "" empty_machine))) /\
  In (WriteFile (DockerService.tempDir calm) "Wrong.java"
        ("// public class Wrong" ++ Js.LF ++ "public class Right { }"))
     (performed empty_machine
        (snd (DockerService.executeCode calm
                ("// public class Wrong" ++ Js.LF ++ "public class Right { }")
                "java" "" empty_machine))) /\
  In (WriteFile (DockerService.tempDir calm) "Foo.java"
        "public class Foo { }")
     (performed empty_machine
        (snd (DockerService.executeCode calm "public class Foo { }"
                "java" "" empty_machine))).
Proof.
  split; [|split]; vm_compute; right; left; reflexivity.
Qed.

(** The name written for that source. *)
Lemma hello_java :
  DockerService.sourceFilename (Js.Own java_profile)
    "import java.util.*; public class Hello { }" "Java" = "Hello.java".
Proof. reflexivity. Qed.

(** ** The mock executor *)

Lemma four_properties (r : ExecutionResult) : ~ tagged_as_simulation r.
Proof.
  intros (key & value & P & N). unfold property in P.
  destruct (String.eqb_spec key "executionId") as [->|_]; [apply N; simpl; auto|].
  destruct (String.eqb_spec key "status") as [->|_]; [apply N; simpl; auto|].
  destruct (String.eqb_spec key "output") as [->|_]; [apply N; simpl; auto|].
  destruct (String.eqb_spec key "exitCode") as [->|_]; [apply N; simpl; auto 6|].
  discriminate.
Qed.

(** C4 (as amended): a result of the mock executor has the four
    properties of a real result and nothing that marks it as a simulation;
    it reports [exitCode] 0 with [status] "success" on every path but the
    [catch] block, which reports 1 with "error": constants of the code,
    since no process is run. *)
Theorem mock_result_is_untagged
  (match_varInput : string -> option (string * string))
  (print_matches : string -> list string)
  (patched_line : string -> string -> string -> string)
  (mockJavaScriptExecution mockPythonExecution : string -> string -> string + string)
  (executionId code language input : string) :
  let r := MockDockerService.executeCode match_varInput print_matches patched_line
             mockJavaScriptExecution mockPythonExecution
             executionId code language input in
  ~ tagged_as_simulation r /\
  property r "simulated" = None /\
  property r "errorKind" = None /\
  ((status r = "success" /\ property r "exitCode" = Some (JsNumber 0)) \/
   (status r = "error" /\ property r "exitCode" = Some (JsNumber 1) /\
    exists message, output r = "Mock execution error: " ++ message)).
Proof.
  cbv zeta. split; [apply four_properties|]. split; [reflexivity|].
  split; [reflexivity|].
  unfold MockDockerService.executeCode.
  destruct (if String.eqb (Js.toLowerCase language) "python"
            then MockDockerService.direct_patch match_varInput print_matches
                   patched_line code input
            else None) as [text|].
  - left. split; reflexivity.
  - destruct (MockDockerService.mock_output _ _ _ _ _) as [text|message].
    + left. split; reflexivity.
    + right. repeat split. exists message. reflexivity.
Qed.

(** C4 as the specification states it fails: for a C source with nothing to print
    the mock executor answers like a real run that succeeded, with an exit
    code of 0 that nothing measured and no mark of a simulation. *)
Lemma mock_result_claims_an_exit_code :
  let r := MockDockerService.executeCode
             (fun _ => None) (fun _ => []) (fun _ _ content => content)
             (fun _ _ => inl "No output generated.")
             (fun _ _ => inl "No output generated.")
             "1b9d6bcd-bbfd-4b2d-9b5d-ab8dfbbd4bed"
             "int main() { return 0; }" "c" "" in
  r = {| executionId := "1b9d6bcd-bbfd-4b2d-9b5d-ab8dfbbd4bed";
         status := "success";
         output := "No printf/cout statements found in the code.";
         exitCode := 0 |} /\
  ~ tagged_as_simulation r /\
  property r "exitCode" = Some (JsNumber 0).
Proof.
  cbv zeta. split; [reflexivity|]. split; [apply four_properties|reflexivity].
Qed.

(** ** The terminal service: the image of a session *)

(** X2: a language that is missing, or that names neither an image of
    the map nor a member the map inherits, gets the default image. *)
Theorem default_image (language : option string) :
  match language with
  | None => True
  | Some l => Js.own TerminalService.imageMap (Js.toLowerCase l) = None /\
              Js.inherited (Js.toLowerCase l) = false
  end ->
  TerminalService.getImageForLanguage language
  = TerminalService.ImageName "alpine:latest".
Proof.
  destruct language as [l|]; [|reflexivity]. intros [O I].
  unfold TerminalService.getImageForLanguage, Js.get. rewrite O, I.
  destruct (Js.truthy l); reflexivity.
Qed.

(** X2 for a language of no image: the default one. *)
Lemma default_image_witness :
  TerminalService.getImageForLanguage (Some "kotlin")
  = TerminalService.ImageName "alpine:latest".
Proof.
  apply (default_image (Some "kotlin")). split; reflexivity.
Defined.

(** C10, on the name of a member every object inherits: the language
    "constructor" is not among the known ones, yet the image asked of
    Docker is not the default one, and not even a string. *)
Theorem inherited_name_gets_no_default_image (w : World) :
  Js.own TerminalService.imageMap (Js.toLowerCase "constructor") = None /\
  TerminalService.getImageForLanguage (Some "constructor")
  = TerminalService.InheritedMember "constructor" /\
  TerminalService.Image (TerminalService.asked
                           (TerminalService.on_create w (Some "constructor")))
  <> TerminalService.ImageName "alpine:latest".
Proof.
  split; [reflexivity|]. split; [reflexivity|].
  unfold TerminalService.on_create.
  destruct (TerminalService.first_failure _); simpl; discriminate.
Qed.

(** ** The mock terminal *)

Section MockTerminal.

Import MockTerminalService.


Lemma get_set_other m id id' s : id <> id' -> get (set m id s) id' = get m id'.
Proof.
  intros N. induction m as [|[k s0] m IH]; simpl.
  - destruct (Nat.eqb_spec id id'); [contradiction|reflexivity].
  - destruct (Nat.eqb_spec k id); simpl.
    + subst. destruct (Nat.eqb_spec id id'); [contradiction|reflexivity].
    + destruct (Nat.eqb_spec k id'); auto.
Qed.

Lemma get_delete m id id' :
  get (delete m id) id' = if Nat.eqb id id' then None else get m id'.
Proof.
  induction m as [|[k s0] m IH]; simpl.
  - destruct (Nat.eqb id id'); reflexivity.
  - destruct (Nat.eqb_spec k id); simpl.
    + subst. rewrite IH. destruct (Nat.eqb_spec id id'); reflexivity.
    + rewrite IH. destruct (Nat.eqb_spec k id'); auto.
      subst. destruct (Nat.eqb_spec id id'); [congruence|reflexivity].
Qed.


Lemma closeTerminalSession_uuid id st : uuid (closeTerminalSession id st) = uuid st.
Proof.
  unfold closeTerminalSession. destruct (get _ _); reflexivity.
Qed.


Lemma closeTerminalSession_sends id st :
  sent (closeTerminalSession id st) = sent st.
Proof.
  unfold closeTerminalSession. destruct (get _ _); reflexivity.
Qed.


Lemma iter_close_uuid n id st :
  uuid (Nat.iter n (closeTerminalSession id) st) = uuid st.
Proof.
  induction n; simpl; auto. rewrite closeTerminalSession_uuid. exact IHn.
Qed.


Lemma close_each_uuid n ids st : uuid (close_each n ids st) = uuid st.
Proof.
  revert st. induction ids as [|i ids IH]; intros st; simpl; auto.
  rewrite IH. apply iter_close_uuid.
Qed.


Lemma run_timer_uuid clock t st : uuid (run_timer clock t st) = uuid st.
Proof. destruct t; reflexivity. Qed.


Lemma run_timers_uuid clock (due : list (nat * Timer)) st :
  uuid (fold_left (fun s (e : nat * Timer) => run_timer clock (snd e) s) due st) = uuid st.
Proof.
  revert st. induction due as [|t due IH]; intros st; simpl; auto.
  rewrite IH. apply run_timer_uuid.
Qed.

Lemma get_in m id s : get m id = Some s -> In (id, s) m.
Proof.
  induction m as [|[k s0] m IH]; simpl; [discriminate|].
  destruct (Nat.eqb_spec k id); [intros [= ->]; subst; auto|auto].
Qed.





End MockTerminal.



(** * Further properties *)

(** ** The calls of a batch execution, in order *)

Lemma bind_attempt {B : Type} a fails effect (k : unit -> Task B) h :
  bind (attempt a fails effect) k h
  = match fails with
    | Some e => (Thrown e, note a h)
    | None => k tt (effect (note a h))
    end.
Proof. unfold bind, attempt. destruct fails; reflexivity. Qed.

Lemma follow_cons a f rest :
  follow ((a, f) :: rest)
  = match f with
    | Some e => ([a], Some e)
    | None => (a :: fst (follow rest), snd (follow rest))
    end.
Proof. simpl. destruct f; auto. destruct (follow rest); reflexivity. Qed.

Lemma does_attempt a fails effect (k : unit -> Task unit) plan h :
  (forall h0, trace (effect h0) = trace h0) ->
  (fails = None -> does (k tt) plan (effect (note a h))) ->
  does (bind (attempt a fails effect) k) ((a, fails) :: plan) h.
Proof.
  intros T K. unfold does. rewrite bind_attempt, follow_cons.
  destruct fails as [e|]; simpl.
  - split; reflexivity.
  - destruct (K eq_refl) as [K1 K2]. rewrite K1, K2, T. simpl.
    rewrite <- app_assoc. split; reflexivity.
Qed.

Lemma does_last a fails effect h :
  (forall h0, trace (effect h0) = trace h0) ->
  does (attempt a fails effect) [(a, fails)] h.
Proof.
  intros T. unfold does, attempt. destruct fails; simpl; [|rewrite T]; auto.
Qed.

Lemma does_nothing plan h (k : unit -> Task unit) :
  does (k tt) plan h -> does (bind (ret tt) k) plan h.
Proof. auto. Qed.

Lemma ensure_image i f {B : Type} (k : unit -> Task B) h :
  bind (try_catch (docker.inspect i) (fun _ => docker.pull f i)) k h
  = if image_cached i h then k tt (note (ImageInspect i) h)
    else bind (docker.pull f i) k (note (ImageInspect i) h).
Proof.
  unfold bind, try_catch, docker.inspect, docker.pull, attempt.
  destruct (image_cached i h); [reflexivity|]. destruct f; reflexivity.
Qed.

Lemma does_ensure i f (k : unit -> Task unit) plan h :
  (forall h0, does (k tt) plan h0) ->
  does (bind (try_catch (docker.inspect i) (fun _ => docker.pull f i)) k)
       ((ImageInspect i, None)
          :: (if image_cached i h then [] else [(ImagePull i, f)]) ++ plan) h.
Proof.
  intros K. unfold does. rewrite follow_cons, ensure_image. cbn [fst snd].
  destruct (image_cached i h); cbn [app].
  - destruct (K (note (ImageInspect i) h)) as [K1 K2].
    rewrite K1, K2. simpl. rewrite <- app_assoc. split; reflexivity.
  - assert (D : does (bind (docker.pull f i) k) ((ImagePull i, f) :: plan)
                  (note (ImageInspect i) h)).
    { apply does_attempt; [reflexivity|]. intros _. apply K. }
    destruct D as [D1 D2]. rewrite D1, D2. simpl. rewrite <- app_assoc.
    split; reflexivity.
Qed.

(** The first half of the [try] block makes the calls of its plan. *)
Lemma provision_follows w code language input config h :
  does (provision w code language input config)
       (provision_plan w code language input config
          (image_cached (DockerService.field DockerService.image config) h)) h.
Proof.
  unfold provision, provision_plan, fs.mkdir, fs.writeFile,
    DockerService.pullImage, docker.createContainer, docker.start,
    docker.attach_write.
  cbn [app].
  apply does_attempt; [reflexivity|intros _].
  apply does_attempt; [reflexivity|intros _].
  assert (Rest : forall h0,
    does (bind (try_catch
                  (docker.inspect (DockerService.field DockerService.image config))
                  (fun _ => docker.pull (pull_fails w)
                              (DockerService.field DockerService.image config)))
            (fun _ => bind (attempt (ContainerCreate
                     (DockerService.containerConfig config (DockerService.tempDir w)
                        input)) (create_fails w) (fun h => h))
               (fun _ => bind (attempt ContainerStart (start_fails w) (fun h => h))
                  (fun _ => DockerService.when
                     (Js.truthy input
                      && negb (DockerService.isSome
                                 (DockerService.field_inputCommand config)))
                     (attempt (ContainerAttach input) (attach_fails w) (fun h => h))))))
         ((ImageInspect (DockerService.field DockerService.image config), None)
          :: (if image_cached (DockerService.field DockerService.image config) h0
              then []
              else [(ImagePull (DockerService.field DockerService.image config),
                     pull_fails w)])
          ++ [(ContainerCreate
                 (DockerService.containerConfig config (DockerService.tempDir w)
                    input), create_fails w);
              (ContainerStart, start_fails w)]
          ++ (if attaches input config
              then [(ContainerAttach input, attach_fails w)] else [])) h0).
  { intros h0. apply does_ensure. intros h1. cbn [app].
    apply does_attempt; [reflexivity|intros _].
    unfold attaches.
    destruct (Js.truthy input
              && negb (DockerService.isSome (DockerService.field_inputCommand config)));
      simpl DockerService.when.
    - apply does_attempt; [reflexivity|intros _].
      apply does_last; reflexivity.
    - unfold does, bind, attempt. destruct (start_fails w); simpl;
        rewrite ?app_nil_r; auto. }
  destruct (Js.truthy input); simpl DockerService.when; cbn [app].
  - apply does_attempt; [reflexivity|intros _].
    match goal with |- does _ _ ?h1 =>
      change (image_cached (DockerService.field DockerService.image config) h)
        with (image_cached (DockerService.field DockerService.image config) h1)
    end.
    apply Rest.
  - apply does_nothing.
    match goal with |- does _ _ ?h1 =>
      change (image_cached (DockerService.field DockerService.image config) h)
        with (image_cached (DockerService.field DockerService.image config) h1)
    end.
    apply Rest.
Qed.

Lemma collect_trace w h1 :
  trace (snd (try_catch (collect w) (recover w) h1))
  = (trace h1 ++ collect_calls w)%list /\
  fst (try_catch (collect w) (recover w) h1) = collect_reply w.
Proof.
  rewrite collect_run. unfold collect_calls, collect_reply.
  destruct (wait_outcome w); [| |simpl; auto].
  - destruct (logs_outcome w).
    + cbv zeta. destruct (rm_fails w).
      * rewrite recover_run. split; [|reflexivity].
        destruct (rm_again_fails w); simpl; rewrite <- !app_assoc; reflexivity.
      * simpl. rewrite <- !app_assoc. auto.
    + rewrite recover_run. split; [|reflexivity].
      destruct (rm_again_fails w); simpl; rewrite <- !app_assoc; reflexivity.
  - rewrite recover_run. split; [|reflexivity].
    destruct (rm_again_fails w); simpl; rewrite <- !app_assoc; reflexivity.
Qed.

(** The calls and the reply of a run, for an accepted language. *)
Lemma run_follows w code language input h :
  let config := Js.get DockerService.languageConfigs (Js.toLowerCase language) in
  let cached := image_cached (DockerService.field DockerService.image config) h in
  config <> Js.Undefined ->
  performed h (snd (DockerService.executeCode w code language input h))
  = run_calls w code language input config cached /\
  fst (DockerService.executeCode w code language input h)
  = run_reply w code language input config cached.
Proof.
  cbv zeta. intros G.
  assert (E : DockerService.executeCode w code language input h
              = try_catch (bind (provision w code language input
                                   (Js.get DockerService.languageConfigs
                                      (Js.toLowerCase language)))
                             (fun _ => collect w)) (recover w) h).
  { rewrite executeCode_halves.
    destruct (Js.get _ _); [reflexivity|reflexivity|congruence]. }
  rewrite E. clear E.
  destruct (provision_follows w code language input
              (Js.get DockerService.languageConfigs (Js.toLowerCase language)) h)
    as [T R].
  unfold run_calls, run_reply.
  destruct (follow _) as [acts err]. simpl in T, R.
  set (X := try_catch _ _ h).
  assert (EX : X = match provision w code language input
                           (Js.get DockerService.languageConfigs
                              (Js.toLowerCase language)) h with
                   | (Resolved _, h1) => try_catch (collect w) (recover w) h1
                   | (Thrown e, h1) => recover w e h1
                   | (Pending, h1) => (Pending, h1)
                   end).
  { subst X. unfold try_catch at 1, bind at 1.
    destruct (provision _ _ _ _ _ h) as [[[]|e|] h1]; reflexivity. }
  rewrite EX. clear EX X.
  destruct (provision _ _ _ _ _ h) as [r h1]. simpl in T, R. subst r.
  destruct err as [e|]; simpl.
  - rewrite recover_run. split; [|reflexivity].
    apply performed_extension.
    destruct (rm_again_fails w); simpl; rewrite T, <- app_assoc; reflexivity.
  - destruct (collect_trace w h1) as [C1 C2].
    split; [|exact C2]. apply performed_extension.
    rewrite C1, T, <- app_assoc. reflexivity.
Qed.
Ltac walk_plan :=
  cbn [app];
  repeat (rewrite follow_cons;
          match goal with
          | |- context [match ?f with Some _ => _ | None => _ end] =>
              destruct f eqn:?
          end; cbn [fst snd app]);
  cbn [follow fst snd app].

Ltac open_plan :=
  unfold run_calls, run_reply, provision_plan, attaches;
  match goal with
  | |- context [Js.truthy ?i] => destruct (Js.truthy i) eqn:?
  end;
  match goal with
  | |- context [DockerService.field_inputCommand ?c] =>
      destruct (DockerService.field_inputCommand c) eqn:?
  end;
  match goal with
  | |- context [image_cached ?i ?h] => destruct (image_cached i h) eqn:?
  end;
  cbn [andb negb DockerService.isSome].

Lemma collect_calls_are (w : World) (a : Action) :
  In a (collect_calls w) ->
  a = ContainerWait \/ a = ContainerLogs \/ a = Rm (DockerService.tempDir w).
Proof.
  unfold collect_calls.
  destruct (wait_outcome w); try destruct (logs_outcome w);
    try destruct (rm_fails w); cbn [In]; intuition.
Qed.

Ltac sift_calls :=
  repeat match goal with
         | H : In _ (_ ++ _) |- _ => apply in_app_or in H
         | H : In _ (_ :: _) |- _ => cbn [In] in H
         | H : In _ [] |- _ => destruct H
         | H : In _ (collect_calls _) |- _ => apply collect_calls_are in H
         | H : _ \/ _ |- _ => destruct H
         | H : False |- _ => destruct H
         | H : ContainerCreate _ = ContainerCreate _ |- _ =>
             injection H as <-
         | H : ImagePull _ = ImagePull _ |- _ => injection H as <-
         | H : ContainerAttach _ = ContainerAttach _ |- _ => injection H as <-
         | H : WriteFile _ _ _ = WriteFile _ _ _ |- _ => injection H as <- <- <-
         | H : Mkdir _ = Mkdir _ |- _ => injection H as <-
         | H : Rm _ = Rm _ |- _ => injection H as ->
         end.

(** What the calls of a run tell about the calls before them. *)
Lemma run_facts (w : World) (code language input : string) (h : Machine) :
  let config := Js.get DockerService.languageConfigs (Js.toLowerCase language) in
  let image := DockerService.field DockerService.image config in
  let dir := DockerService.tempDir w in
  let calls := performed h (snd (DockerService.executeCode w code language input h)) in
  (forall c, In (ContainerCreate c) calls ->
     c = DockerService.containerConfig config dir input /\
     mkdir_fails w = None /\ writeSource_fails w = None /\
     (Js.truthy input = true -> writeInput_fails w = None) /\
     (image_cached image h = true \/ pull_fails w = None)) /\
  (In ContainerStart calls -> create_fails w = None) /\
  (In ContainerWait calls ->
     start_fails w = None /\
     (forall i, In (ContainerAttach i) calls -> attach_fails w = None)) /\
  (forall i, In (ImagePull i) calls ->
     i = image /\ image_cached image h = false) /\
  (forall i, In (ContainerAttach i) calls ->
     i = input /\ Js.truthy input = true /\
     DockerService.field_inputCommand config = None /\ start_fails w = None) /\
  (forall d f x, In (WriteFile d f x) calls ->
     d = dir /\
     ((f = DockerService.sourceFilename config code language /\ x = code) \/
      (f = "input.txt" /\ x = input /\ Js.truthy input = true))) /\
  (forall d, In (Mkdir d) calls -> d = dir) /\
  (forall d, In (Rm d) calls -> d = dir).
Proof.
  cbv zeta.
  destruct (Js.get DockerService.languageConfigs (Js.toLowerCase language))
    as [p|n|] eqn:G.
  3:{ rewrite executeCode_halves, G. simpl. rewrite no_calls. simpl.
      repeat split; intros; contradiction. }
  all: destruct (run_follows w code language input h) as [C _];
    [rewrite G; discriminate|]; rewrite G in C; rewrite C; clear C.
  all: open_plan; walk_plan.
  all: repeat split; intros; sift_calls;
    try discriminate; try congruence; auto.
Qed.

(** X3: a container is created only after the workspace and the files
    were written and the image is there, started only when it was
    created, and waited for only when it was started and, where the input
    goes to its standard input, given that input. *)
Theorem calls_come_in_order (w : World) (code language input : string)
  (h : Machine) :
  let config := Js.get DockerService.languageConfigs (Js.toLowerCase language) in
  let image := DockerService.field DockerService.image config in
  let calls := performed h (snd (DockerService.executeCode w code language input h)) in
  (forall c, In (ContainerCreate c) calls ->
     mkdir_fails w = None /\ writeSource_fails w = None /\
     (Js.truthy input = true -> writeInput_fails w = None) /\
     (image_cached image h = true \/ pull_fails w = None)) /\
  (In ContainerStart calls -> create_fails w = None) /\
  (In ContainerWait calls ->
     start_fails w = None /\
     (forall i, In (ContainerAttach i) calls -> attach_fails w = None)).
Proof.
  cbv zeta.
  destruct (run_facts w code language input h) as (C & S & W & _).
  split; [|split]; [|exact S|exact W].
  intros c I. destruct (C c I) as (_ & F). exact F.
Qed.
(** ** Several executions in flight *)

Section Concurrent.

Import ConcurrentExecutions.

(** Case analysis on what is matched on, the innermost first. *)
Ltac crack_stage :=
  repeat match goal with
         | |- context [match ?x with _ => _ end] =>
             lazymatch x with
             | context [match _ with _ => _ end] => fail
             | _ => destruct x
             end
         end.

Lemma advance_next c s h :
  fst (advance c s h) = next_stage c (image_cached (image c) h) s.
Proof.
  destruct s; cbn [advance next_stage];
    unfold onward, fs.mkdir, fs.writeFile, fs.rm, docker.createContainer,
      docker.start, docker.attach_write, docker.inspect, docker.wait,
      docker.logs, attempt;
    crack_stage; reflexivity.
Qed.

(** The two steps of the pull are [docker.pull] followed to its end. *)
Lemma pull_in_two_steps c h :
  advance c PullUnderWay (snd (advance c AtPull h))
  = onward (docker.pull (pull_fails (world c)) (image c) h)
      (fun _ => AtCreate).
Proof.
  cbn [advance snd]. unfold onward, docker.pull, attempt.
  destruct (pull_fails (world c)); reflexivity.
Qed.

Lemma advance_trace c s h :
  trace (snd (advance c s h)) = (trace h ++ noted c s)%list.
Proof.
  destruct s; cbn [advance noted];
    unfold onward, fs.mkdir, fs.writeFile, fs.rm, docker.createContainer,
      docker.start, docker.attach_write, docker.inspect, docker.wait,
      docker.logs, attempt;
    crack_stage; simpl; rewrite ?app_nil_r; reflexivity.
Qed.

Lemma advance_images c s h name :
  In name (images h) -> In name (images (snd (advance c s h))).
Proof.
  destruct s; cbn [advance];
    unfold onward, fs.mkdir, fs.writeFile, fs.rm, docker.createContainer,
      docker.start, docker.attach_write, docker.inspect, docker.wait,
      docker.logs, attempt;
    crack_stage; simpl; auto.
Qed.

Lemma advance_keeps_image c s h x :
  image_cached x h = true -> image_cached x (snd (advance c s h)) = true.
Proof.
  destruct x as [name|]; simpl; [|discriminate].
  intros E. apply existsb_exists in E. destruct E as (n & I & E).
  apply existsb_exists. exists n. split; [|exact E].
  apply advance_images. exact I.
Qed.

Lemma next_blind c b b' s :
  s <> AtInspect -> next_stage c b s = next_stage c b' s.
Proof. destruct s; intros N; try reflexivity. congruence. Qed.

Lemma early_back c b s :
  early (next_stage c b s) = true -> s <> AtInspect /\ early s = true.
Proof.
  destruct s; cbn [next_stage]; crack_stage; simpl;
    intros E; split; try discriminate; auto.
Qed.

Lemma pull_comes_from_inspect c b s :
  next_stage c b s = AtPull -> s = AtInspect /\ b = false.
Proof.
  destruct s; cbn [next_stage]; crack_stage; intros E;
    try discriminate; auto.
Qed.

Lemma rank_up c b s : rank s < 13 -> rank s < rank (next_stage c b s).
Proof.
  destruct s; cbn [next_stage]; crack_stage; simpl; lia.
Qed.

Lemma reply_ahead_returned n c b reply :
  reply_ahead n c b (Returned reply) = reply.
Proof. destruct n; reflexivity. Qed.

Lemma calls_ahead_returned n c b reply :
  calls_ahead n c b (Returned reply) = [].
Proof. induction n; simpl; auto. Qed.

Lemma reply_ahead_unfold n c b s :
  reply_ahead (S n) c b s
  = match s with
    | Returned reply => reply
    | _ => reply_ahead n c b (next_stage c b s)
    end.
Proof. destruct s; reflexivity. Qed.

Lemma reply_ahead_enough n m c b s :
  13 - rank s <= n -> 13 - rank s <= m ->
  reply_ahead n c b s = reply_ahead m c b s.
Proof.
  revert m s. induction n as [|n IH]; intros m s Hn Hm.
  - destruct s; simpl in Hn; try lia. rewrite !reply_ahead_returned. reflexivity.
  - destruct m as [|m].
    + destruct s; simpl in Hm; try lia. rewrite !reply_ahead_returned.
      reflexivity.
    + rewrite !reply_ahead_unfold.
      pose proof (rank_up c b s) as R.
      destruct s; try reflexivity; cbn [rank] in *; apply IH; lia.
Qed.

Lemma calls_ahead_enough n m c b s :
  13 - rank s <= n -> 13 - rank s <= m ->
  calls_ahead n c b s = calls_ahead m c b s.
Proof.
  revert m s. induction n as [|n IH]; intros m s Hn Hm.
  - destruct s; simpl in Hn; try lia. rewrite !calls_ahead_returned. reflexivity.
  - destruct m as [|m].
    + destruct s; simpl in Hm; try lia. rewrite !calls_ahead_returned.
      reflexivity.
    + cbn [calls_ahead]. f_equal.
      pose proof (rank_up c b s) as R.
      destruct s; cbn [rank] in *;
        try (apply IH; lia).
      cbn [next_stage]. rewrite !calls_ahead_returned. reflexivity.
Qed.

(** A step on is a step of what lies ahead. *)
Lemma reply_ahead_step c b s :
  reply_ahead 14 c b (next_stage c b s) = reply_ahead 14 c b s.
Proof.
  rewrite (reply_ahead_unfold 13 c b s).
  destruct s; try (apply reply_ahead_enough; lia).
  reflexivity.
Qed.

Lemma calls_ahead_step c b s :
  calls_ahead 14 c b s
  = (noted c s ++ calls_ahead 14 c b (next_stage c b s))%list.
Proof.
  change (calls_ahead 14 c b s)
    with (noted c s ++ calls_ahead 13 c b (next_stage c b s))%list.
  f_equal. apply calls_ahead_enough; lia.
Qed.

Lemma recover_ahead c b e :
  calls_ahead 14 c b (AtRecover e) = [Rm (DockerService.tempDir (world c))] /\
  reply_ahead 14 c b (AtRecover e)
  = Resolved (error_result (world c) e).
Proof.
  rewrite calls_ahead_step, <- reply_ahead_step. cbn [noted next_stage].
  rewrite calls_ahead_returned, reply_ahead_returned. split; reflexivity.
Qed.

Lemma collect_ahead c b :
  calls_ahead 14 c b AtWait = collect_calls (world c) /\
  reply_ahead 14 c b AtWait = collect_reply (world c).
Proof.
  unfold collect_calls, collect_reply.
  rewrite calls_ahead_step, <- reply_ahead_step. cbn [noted next_stage].
  destruct (wait_outcome (world c)) as [status|e|].
  - rewrite calls_ahead_step, <- reply_ahead_step. cbn [noted next_stage].
    destruct (logs_outcome (world c)) as [text|e].
    + rewrite calls_ahead_step, <- reply_ahead_step. cbn [noted next_stage].
      destruct (rm_fails (world c)) as [e|].
      * destruct (recover_ahead c b e) as [-> ->]. split; reflexivity.
      * rewrite calls_ahead_returned, reply_ahead_returned. split; reflexivity.
    + destruct (recover_ahead c b e) as [-> ->]. split; reflexivity.
  - destruct (recover_ahead c b e) as [-> ->]. split; reflexivity.
  - rewrite calls_ahead_returned, reply_ahead_returned. split; reflexivity.
Qed.

(** The calls and the reply of a plan that is followed to its end. *)
Lemma plan_ahead c b s s' a f plan :
  noted c s = [a] ->
  next_stage c b s = match f with Some e => AtRecover e | None => s' end ->
  (calls_ahead 14 c b s'
   = match follow plan with
     | (acts, Some _) => acts ++ [Rm (DockerService.tempDir (world c))]
     | (acts, None) => acts ++ collect_calls (world c)
     end)%list /\
  reply_ahead 14 c b s'
  = match snd (follow plan) with
    | Some e => Resolved (error_result (world c) e)
    | None => collect_reply (world c)
    end ->
  (calls_ahead 14 c b s
   = match follow ((a, f) :: plan) with
     | (acts, Some _) => acts ++ [Rm (DockerService.tempDir (world c))]
     | (acts, None) => acts ++ collect_calls (world c)
     end)%list /\
  reply_ahead 14 c b s
  = match snd (follow ((a, f) :: plan)) with
    | Some e => Resolved (error_result (world c) e)
    | None => collect_reply (world c)
    end.
Proof.
  intros N X [T R].
  rewrite calls_ahead_step, <- reply_ahead_step, N, X, follow_cons.
  destruct f as [e|].
  - destruct (recover_ahead c b e) as [-> ->]. split; reflexivity.
  - rewrite T, R. destruct (follow plan) as [acts [e|]]; split; reflexivity.
Qed.

(** The same for the pull, which is asked for at one step and ends at the
    next. *)
Lemma pull_ahead c b plan :
  (calls_ahead 14 c b AtCreate
   = match follow plan with
     | (acts, Some _) => acts ++ [Rm (DockerService.tempDir (world c))]
     | (acts, None) => acts ++ collect_calls (world c)
     end)%list /\
  reply_ahead 14 c b AtCreate
  = match snd (follow plan) with
    | Some e => Resolved (error_result (world c) e)
    | None => collect_reply (world c)
    end ->
  (calls_ahead 14 c b AtPull
   = match follow ((ImagePull (image c), pull_fails (world c)) :: plan) with
     | (acts, Some _) => acts ++ [Rm (DockerService.tempDir (world c))]
     | (acts, None) => acts ++ collect_calls (world c)
     end)%list /\
  reply_ahead 14 c b AtPull
  = match snd (follow ((ImagePull (image c), pull_fails (world c)) :: plan)) with
    | Some e => Resolved (error_result (world c) e)
    | None => collect_reply (world c)
    end.
Proof.
  intros [T R].
  rewrite calls_ahead_step, <- reply_ahead_step. cbn [noted next_stage].
  rewrite calls_ahead_step, <- reply_ahead_step. cbn [noted next_stage].
  rewrite follow_cons.
  destruct (pull_fails (world c)) as [e|].
  - destruct (recover_ahead c b e) as [-> ->]. split; reflexivity.
  - rewrite T, R. destruct (follow plan) as [acts [e|]]; split; reflexivity.
Qed.

(** A call that goes its way alone makes the calls and gives the reply of
    [executeCode]. *)
Lemma alone_ahead (c : Call) (b : bool) :
  calls_ahead 14 c b AtMkdir
  = run_calls (world c) (code c) (language c) (input c) (config c) b /\
  reply_ahead 14 c b AtMkdir
  = run_reply (world c) (code c) (language c) (input c) (config c) b.
Proof.
  unfold run_calls, run_reply, provision_plan, attaches.
  change (Js.truthy (input c)
          && negb (DockerService.isSome
                     (DockerService.field_inputCommand (config c))))
    with (writes_stdin c).
  change (DockerService.field DockerService.image (config c)) with (image c).
  cbn [app].
  assert (Last : forall s,
             s = AtWait ->
             (calls_ahead 14 c b s
              = match follow [] with
                | (acts, Some _) =>
                    acts ++ [Rm (DockerService.tempDir (world c))]
                | (acts, None) => acts ++ collect_calls (world c)
                end)%list /\
             reply_ahead 14 c b s
             = match snd (follow []) with
               | Some e => Resolved (error_result (world c) e)
               | None => collect_reply (world c)
               end).
  { intros s ->. apply collect_ahead. }
  eapply plan_ahead; [reflexivity|reflexivity|].
  eapply plan_ahead; [reflexivity|reflexivity|].
  assert (Look : forall s,
             s = AtInspect ->
             (calls_ahead 14 c b s
              = match
                  follow
                    ((ImageInspect (image c), None)
                       :: (if b then []
                           else [(ImagePull (image c), pull_fails (world c))])
                       ++ (ContainerCreate
                             (DockerService.containerConfig (config c)
                                (DockerService.tempDir (world c)) (input c)),
                           create_fails (world c))
                       :: (ContainerStart, start_fails (world c))
                       :: (if writes_stdin c
                           then [(ContainerAttach (input c),
                                  attach_fails (world c))]
                           else []))
                with
                | (acts, Some _) =>
                    acts ++ [Rm (DockerService.tempDir (world c))]
                | (acts, None) => acts ++ collect_calls (world c)
                end)%list /\
             reply_ahead 14 c b s
             = match
                 snd
                   (follow
                      ((ImageInspect (image c), None)
                         :: (if b then []
                             else [(ImagePull (image c), pull_fails (world c))])
                         ++ (ContainerCreate
                               (DockerService.containerConfig (config c)
                                  (DockerService.tempDir (world c)) (input c)),
                             create_fails (world c))
                         :: (ContainerStart, start_fails (world c))
                         :: (if writes_stdin c
                             then [(ContainerAttach (input c),
                                    attach_fails (world c))]
                             else [])))
               with
               | Some e => Resolved (error_result (world c) e)
               | None => collect_reply (world c)
               end).
  { intros s ->.
    assert (Make : forall s,
               s = AtCreate ->
               (calls_ahead 14 c b s
                = match
                    follow
                      ((ContainerCreate
                          (DockerService.containerConfig (config c)
                             (DockerService.tempDir (world c)) (input c)),
                        create_fails (world c))
                         :: (ContainerStart, start_fails (world c))
                         :: (if writes_stdin c
                             then [(ContainerAttach (input c),
                                    attach_fails (world c))]
                             else []))
                  with
                  | (acts, Some _) =>
                      acts ++ [Rm (DockerService.tempDir (world c))]
                  | (acts, None) => acts ++ collect_calls (world c)
                  end)%list /\
               reply_ahead 14 c b s
               = match
                   snd
                     (follow
                        ((ContainerCreate
                            (DockerService.containerConfig (config c)
                               (DockerService.tempDir (world c)) (input c)),
                          create_fails (world c))
                           :: (ContainerStart, start_fails (world c))
                           :: (if writes_stdin c
                               then [(ContainerAttach (input c),
                                      attach_fails (world c))]
                               else [])))
                 with
                 | Some e => Resolved (error_result (world c) e)
                 | None => collect_reply (world c)
                 end).
    { intros s ->.
      eapply plan_ahead; [reflexivity|reflexivity|].
      eapply plan_ahead; [reflexivity|reflexivity|].
      destruct (writes_stdin c).
      - eapply plan_ahead; [reflexivity|reflexivity|]. apply Last. reflexivity.
      - apply Last. reflexivity. }
    eapply plan_ahead; [reflexivity|cbn [next_stage]; reflexivity|].
    destruct b; cbn [app].
    - apply Make. reflexivity.
    - apply pull_ahead. apply Make. reflexivity. }
  destruct (Js.truthy (input c)); cbn [app].
  - eapply plan_ahead; [reflexivity|reflexivity|]. apply Look. reflexivity.
  - apply Look. reflexivity.
Qed.

(** *** One step of a call *)

Lemma move_machine c r h : snd (move c r h) = snd (advance c (stage r) h).
Proof. unfold move. destruct (advance c (stage r) h); reflexivity. Qed.

Lemma move_stage c r h :
  stage (fst (move c r h))
  = next_stage c (image_cached (image c) h) (stage r).
Proof.
  rewrite <- advance_next. unfold move.
  destruct (advance c (stage r) h); reflexivity.
Qed.

Lemma move_found c r h :
  found (fst (move c r h))
  = match stage r with
    | AtInspect => Some (image_cached (image c) h)
    | _ => found r
    end.
Proof. unfold move. destruct (advance c (stage r) h); reflexivity. Qed.

Lemma move_made c r h :
  made (fst (move c r h)) = (made r ++ noted c (stage r))%list.
Proof.
  pose proof (advance_trace c (stage r) h) as T. unfold move.
  destruct (advance c (stage r) h) as [s h']. cbn [fst snd made] in *.
  rewrite T, skipn_own_length. reflexivity.
Qed.

Lemma move_trace c r h :
  trace (snd (move c r h)) = (trace h ++ noted c (stage r))%list.
Proof. rewrite move_machine. apply advance_trace. Qed.

Lemma noted_pull c s :
  existsb is_pull (noted c s) = true <-> s = AtPull.
Proof. destruct s; simpl; split; congruence. Qed.

Lemma noted_pulls c s :
  pulls (noted c s) = if existsb is_pull (noted c s) then 1 else 0.
Proof. destruct s; reflexivity. Qed.

Lemma pulls_app l l' : pulls (l ++ l') = pulls l + pulls l'.
Proof. unfold pulls. rewrite filter_app, length_app. reflexivity. Qed.

Lemma move_issued c r h :
  issued (fst (move c r h))
  = issued r || existsb is_pull (noted c (stage r)).
Proof. unfold issued. rewrite move_made, existsb_app. reflexivity. Qed.

(** *** What holds of every call in flight *)

Lemma sound_arrive c h : sound c h (arrive c).
Proof.
  split; cbn [arrive stage found made issued existsb]; try congruence;
    try reflexivity.
  - destruct (config c); discriminate.
  - intros cached _. split; reflexivity.
Qed.

Lemma sound_other c h h' r :
  (forall x, image_cached x h = true -> image_cached x h' = true) ->
  sound c h r -> sound c h' r.
Proof.
  intros K [A B C D E F P G].
  split; auto.
Qed.

Lemma sound_move c r h :
  sound c h r -> sound c (snd (move c r h)) (fst (move c r h)).
Proof.
  intros [A B C D E F P G].
  split; rewrite ?move_stage, ?move_found, ?move_issued, ?move_made;
    destruct r as [s f m]; unfold issued in *;
    cbn [stage found made] in *.
  - intros Y. apply early_back in Y. destruct Y as [Y1 Y2].
    destruct s; try contradiction; auto.
  - intros Y. apply pull_comes_from_inspect in Y. destruct Y as [-> ->].
    reflexivity.
  - intros Y. destruct s; try discriminate; cbn [noted existsb is_pull];
      rewrite ?orb_false_r; auto.
    rewrite (B eq_refl) in Y. discriminate.
  - intros Y. destruct s; cbn [noted existsb is_pull];
      rewrite ?orb_false_r; auto.
    rewrite (B eq_refl) in Y. discriminate.
  - intros Y. rewrite move_machine. apply advance_keeps_image.
    destruct s; auto. injection Y as Y. exact Y.
  - intros Y.
    destruct s;
      try (assert (I : existsb is_pull m = true)
             by (destruct (existsb is_pull m) eqn:X; auto;
                 pose proof (proj2 (F Y) eq_refl); discriminate);
           rewrite I; cbn [orb];
           split; [|discriminate];
           let Q := fresh in
           intros Q; apply pull_comes_from_inspect in Q;
           destruct Q; discriminate).
    + injection Y as Y. rewrite Y. cbn [next_stage noted existsb is_pull].
      rewrite (C (A eq_refl)). split; reflexivity.
    + cbn [next_stage noted existsb is_pull]. rewrite orb_true_r.
      split; discriminate.
  - rewrite pulls_app, P, noted_pulls.
    destruct (existsb is_pull (noted c s)) eqn:X.
    + apply noted_pull in X. rewrite (proj1 (F (B X)) X). reflexivity.
    + rewrite orb_false_r. destruct (existsb is_pull m); reflexivity.
  - intros cached Y.
    assert (Z : agrees f cached /\
                next_stage c (image_cached (image c) h) s
                = next_stage c cached s).
    { destruct s; try (split; [exact Y|reflexivity]).
      rewrite (A eq_refl). cbn [agrees] in *. rewrite Y. split; auto. }
    destruct Z as [Z1 Z2]. rewrite Z2.
    destruct (G cached Z1) as [G1 G2].
    rewrite <- G1, <- G2, <- app_assoc, <- calls_ahead_step, reply_ahead_step.
    split; reflexivity.
Qed.

(** *** The calls together *)

Lemma filter_replace {A : Type} (f : A -> bool) (l : list A) (i : nat)
  (x y : A) :
  nth_error l i = Some y ->
  List.length (filter f (replace i x l)) + (if f y then 1 else 0)
  = List.length (filter f l) + (if f x then 1 else 0).
Proof.
  revert i. induction l as [|a l IH]; intros [|i] E; simpl in *;
    try discriminate.
  - injection E as ->. destruct (f y), (f x); simpl; lia.
  - specialize (IH _ E). destruct (f a); simpl; lia.
Qed.

Lemma Forall2_nth {A B : Type} (R : A -> B -> Prop) (l : list A)
  (l' : list B) (i : nat) (a : A) (b : B) :
  Forall2 R l l' -> nth_error l i = Some a -> nth_error l' i = Some b ->
  R a b.
Proof.
  intros F. revert i. induction F as [|x y l l' H F IH]; intros [|i] Ea Eb;
    simpl in *; try discriminate.
  - injection Ea as <-. injection Eb as <-. exact H.
  - eapply IH; eassumption.
Qed.

Lemma Forall2_replace {A B : Type} (R : A -> B -> Prop) (l : list A)
  (l' : list B) (i : nat) (a : A) (x : B) :
  Forall2 R l l' -> nth_error l i = Some a -> R a x ->
  Forall2 R l (replace i x l').
Proof.
  intros F. revert i. induction F as [|u v l l' H F IH]; intros [|i] Ea Rx;
    simpl in *; try discriminate.
  - injection Ea as <-. constructor; assumption.
  - constructor; [assumption|]. apply IH; assumption.
Qed.

Lemma move_keeps_image c r h x :
  image_cached x h = true -> image_cached x (snd (move c r h)) = true.
Proof. rewrite move_machine. apply advance_keeps_image. Qed.

(** Every call in flight is sound, and the pulls asked of the daemon are
    those of the calls that have asked for one. *)
Lemma step_sound (calls : list Call) (h0 : Machine) (i : nat) (p : Pool) :
  Forall2 (fun c r => sound c (machine p) r) calls (running p) /\
  (exists l, trace (machine p) = (trace h0 ++ l)%list /\
             pulls l = List.length (filter issued (running p))) ->
  Forall2 (fun c r => sound c (machine (step calls i p)) r) calls
    (running (step calls i p)) /\
  (exists l, trace (machine (step calls i p)) = (trace h0 ++ l)%list /\
             pulls l = List.length (filter issued (running (step calls i p)))).
Proof.
  intros [F (l & T & N)]. unfold step.
  destruct (nth_error calls i) as [c|] eqn:Ec; [|split; eauto].
  destruct (nth_error (running p) i) as [r|] eqn:Er; [|split; eauto].
  pose proof (Forall2_nth _ _ _ _ _ _ F Ec Er) as S.
  pose proof (sound_move c r (machine p) S) as S'.
  pose proof (move_trace c r (machine p)) as T'.
  pose proof (move_made c r (machine p)) as M'.
  pose proof (move_keeps_image c r (machine p)) as K.
  destruct (move c r (machine p)) as [r' h']. cbn [fst snd machine running] in *.
  split.
  - apply Forall2_replace with (a := c); [|exact Ec|exact S'].
    eapply Forall2_impl; [|exact F]. intros c1 r1 S1.
    apply (sound_other c1 (machine p) h' r1); [|exact S1].
    intros x. apply K.
  - exists (l ++ noted c (stage r))%list. split.
    + rewrite T', T, app_assoc. reflexivity.
    + pose proof (filter_replace issued (running p) i r' r Er) as Q.
      pose proof (pulls_once c _ _ S) as P.
      pose proof (pulls_once c _ _ S') as P'.
      rewrite M', pulls_app in P'. rewrite pulls_app. lia.
Qed.

Lemma run_sound (calls : list Call) (h0 : Machine) (schedule : list nat) :
  let p := run calls schedule (start calls h0) in
  Forall2 (fun c r => sound c (machine p) r) calls (running p) /\
  (exists l, trace (machine p) = (trace h0 ++ l)%list /\
             pulls l = List.length (filter issued (running p))).
Proof.
  cbv zeta.
  assert (G : forall p,
             Forall2 (fun c r => sound c (machine p) r) calls (running p) /\
             (exists l, trace (machine p) = (trace h0 ++ l)%list /\
                        pulls l = List.length (filter issued (running p))) ->
             Forall2 (fun c r => sound c (machine (run calls schedule p)) r)
               calls (running (run calls schedule p)) /\
             (exists l, trace (machine (run calls schedule p))
                        = (trace h0 ++ l)%list /\
                        pulls l = List.length
                                    (filter issued
                                       (running (run calls schedule p))))).
  { induction schedule as [|i rest IH]; intros p I; [exact I|].
    cbn [run]. apply IH. apply step_sound. exact I. }
  apply G. unfold start. cbn [machine running]. split.
  - clear G. induction calls as [|c rest IH]; cbn [map]; constructor; auto.
    apply sound_arrive.
  - exists []. split; [rewrite app_nil_r; reflexivity|].
    clear G. induction calls as [|c rest IH]; [reflexivity|].
    cbn [map filter]. unfold issued at 1. cbn [arrive made existsb]. exact IH.
Qed.

(** *** A call in flight and [executeCode] *)

(** The calls and the reply ahead of a call that arrives are those of
    [executeCode] on a machine where the inspect finds the same. *)
Lemma alone_run (c : Call) (h0 : Machine) :
  calls_ahead 14 c (image_cached (image c) h0) (stage (arrive c))
  = performed h0 (snd (DockerService.executeCode (world c) (code c)
                         (language c) (input c) h0)) /\
  reply_ahead 14 c (image_cached (image c) h0) (stage (arrive c))
  = fst (DockerService.executeCode (world c) (code c) (language c)
           (input c) h0).
Proof.
  cbn [arrive stage].
  destruct (config c) eqn:G.
  3: { rewrite executeCode_halves. fold (config c). rewrite G.
       cbn [fst snd]. unfold performed. rewrite skipn_all.
       rewrite calls_ahead_returned, reply_ahead_returned.
       split; reflexivity. }
  all: destruct (run_follows (world c) (code c) (language c) (input c) h0)
         as [T R]; [fold (config c); congruence|];
       fold (config c) in T, R; fold (image c) in T, R;
       rewrite T, R; apply alone_ahead.
Qed.

(** A run that has asked for a pull that fails ends with the error of
    the pull. *)
Lemma pull_failure_reply (w : World) (code language input : string)
  (config : Js.Member DockerService.LanguageConfig) (e : string) :
  pull_fails w = Some e ->
  existsb is_pull (run_calls w code language input config false) = true ->
  run_reply w code language input config false = Resolved (error_result w e).
Proof.
  intros P. unfold run_calls, run_reply, provision_plan. cbn [app].
  rewrite follow_cons.
  destruct (mkdir_fails w);
    [cbn [fst snd app existsb is_pull orb]; discriminate|].
  rewrite follow_cons.
  destruct (writeSource_fails w);
    [cbn [fst snd app existsb is_pull orb]; discriminate|].
  destruct (Js.truthy input); cbn [app].
  - rewrite follow_cons.
    destruct (writeInput_fails w);
      [cbn [fst snd app existsb is_pull orb]; discriminate|].
    rewrite !follow_cons, P. reflexivity.
  - rewrite !follow_cons, P. reflexivity.
Qed.

(** *** How far the calls come *)

Lemma nth_error_replace {A : Type} (l : list A) (i j : nat) (x y : A) :
  nth_error l j = Some y ->
  nth_error (replace i x l) j = Some (if Nat.eqb i j then x else y).
Proof.
  revert i j. induction l as [|a l IH]; intros [|i] [|j] E; simpl in *;
    try discriminate; auto.
Qed.

Lemma rank_most s : rank s <= 13.
Proof. destruct s; simpl; lia. Qed.

Lemma rank_kept c b s : rank s <= rank (next_stage c b s).
Proof.
  pose proof (rank_up c b s) as U. pose proof (rank_most s) as M.
  destruct s; cbn [rank] in *; try lia. reflexivity.
Qed.

Lemma rank_returned s : 13 <= rank s -> exists reply, s = Returned reply.
Proof. destruct s; simpl; intros L; try lia. eauto. Qed.

Lemma run_rank (calls : list Call) (schedule : list nat) (p : Pool)
  (i : nat) (c : Call) (r0 : Running) :
  nth_error calls i = Some c ->
  nth_error (running p) i = Some r0 ->
  exists r,
    nth_error (running (run calls schedule p)) i = Some r /\
    Nat.min 13 (rank (stage r0) + count_occ Nat.eq_dec schedule i)
    <= rank (stage r).
Proof.
  intros Ec. revert p r0.
  induction schedule as [|j rest IH]; intros p r0 Er.
  - exists r0. split; [exact Er|]. cbn [count_occ]. lia.
  - cbn [run count_occ]. unfold step at 1.
    destruct (nth_error calls j) as [cj|] eqn:Ej.
    2: { destruct (Nat.eq_dec j i) as [->|N]; [congruence|].
         apply IH. exact Er. }
    destruct (nth_error (running p) j) as [rj|] eqn:Erj.
    2: { destruct (Nat.eq_dec j i) as [->|N]; [congruence|].
         apply IH. exact Er. }
    pose proof (move_stage cj rj (machine p)) as M.
    destruct (move cj rj (machine p)) as [r' h']. cbn [fst] in M.
    pose proof (nth_error_replace (running p) j i r' r0 Er) as X.
    destruct (Nat.eq_dec j i) as [->|N].
    + rewrite Nat.eqb_refl in X.
      assert (rj = r0) by congruence. subst rj.
      destruct (IH {| machine := h'; running := replace i r' (running p) |}
                  r' X) as (r & R1 & R2).
      exists r. split; [exact R1|].
      pose proof (rank_most (stage r0)) as B.
      pose proof (rank_up cj (image_cached (image cj) (machine p)) (stage r0))
        as U.
      pose proof (rank_kept cj (image_cached (image cj) (machine p))
                    (stage r0)) as K.
      rewrite <- M in U, K. lia.
    + apply Nat.eqb_neq in N. rewrite N in X.
      apply (IH {| machine := h'; running := replace j r' (running p) |}
               r0 X).
Qed.

Lemma sound_issued c h r :
  sound c h r ->
  issued r = true <-> found r = Some false /\ stage r <> AtPull.
Proof.
  intros [A B C D E F P G]. split.
  - intros I. destruct (found r) as [[|]|].
    + rewrite D in I; [discriminate|reflexivity].
    + split; [reflexivity|]. intros S.
      rewrite (proj1 (F eq_refl) S) in I. discriminate.
    + rewrite C in I; [discriminate|reflexivity].
  - intros [Y N]. destruct (issued r) eqn:I; [reflexivity|].
    destruct N. apply (F Y). reflexivity.
Qed.

(** C3 (as amended): the pulls are not shared.  Several calls of
    [executeCode] run in any order of their steps, each step one awaited
    call of the backend.  The daemon is asked for as many pulls as there
    are calls that have asked for one, and a call has asked for one when
    its own inspect found the image absent and it has gone on from
    there; a call that found the image present found it rightly and asks
    for none.  A call that has taken thirteen steps has returned, or
    waits for ever for its container to exit.  What a call returns, and
    the calls of the backend it has made, are those of [executeCode] run
    by itself on any machine where the inspect finds what the call found;
    when its own pull failed it is the error result with the message of
    that pull.  When every call has found the image absent and gone on,
    there are as many pulls as calls. *)
Theorem every_call_pulls_for_itself (calls : list Call) (h : Machine)
  (schedule : list nat) :
  let p := run calls schedule (start calls h) in
  pulls (performed h (machine p)) = List.length (filter issued (running p)) /\
  (forall i c r,
     nth_error calls i = Some c -> nth_error (running p) i = Some r ->
     (issued r = true <-> found r = Some false /\ stage r <> AtPull) /\
     (found r = Some true -> image_cached (image c) (machine p) = true) /\
     (13 <= count_occ Nat.eq_dec schedule i ->
      exists reply, stage r = Returned reply) /\
     (forall reply h0,
        stage r = Returned reply ->
        agrees (found r) (image_cached (image c) h0) ->
        reply = fst (DockerService.executeCode (world c) (code c)
                       (language c) (input c) h0) /\
        made r = performed h0 (snd (DockerService.executeCode (world c)
                                      (code c) (language c) (input c) h0))) /\
     (forall reply e,
        stage r = Returned reply -> issued r = true ->
        pull_fails (world c) = Some e ->
        reply = Resolved {| executionId := uuidv4 (world c);
                            status := "error";
                            output := e;
                            exitCode := 1 |})) /\
  ((forall r, In r (running p) -> found r = Some false /\ stage r <> AtPull) ->
   pulls (performed h (machine p)) = List.length calls).
Proof.
  cbv zeta.
  destruct (run_sound calls h schedule) as [F (l & T & N)].
  set (p := run calls schedule (start calls h)) in *.
  assert (Count : pulls (performed h (machine p))
                  = List.length (filter issued (running p))).
  { rewrite (performed_extension h (machine p) l T). exact N. }
  split; [exact Count|]. split.
  - intros i c r Ec Er.
    pose proof (Forall2_nth _ _ _ _ _ _ F Ec Er) as S.
    split; [exact (sound_issued c _ r S)|].
    split; [exact (found_stays c _ r S)|].
    split; [|split].
    + intros L.
      assert (E0 : nth_error (running (start calls h)) i = Some (arrive c)).
      { unfold start. cbn [running]. apply map_nth_error. exact Ec. }
      destruct (run_rank calls schedule (start calls h) i c (arrive c) Ec E0)
        as (r1 & R1 & R2).
      fold p in R1. rewrite Er in R1. injection R1 as <-.
      apply rank_returned. lia.
    + intros reply h0 R A.
      destruct (goes_its_way c _ r S _ A) as [G1 G2].
      destruct (alone_run c h0) as [A1 A2].
      rewrite R in G1, G2.
      rewrite calls_ahead_returned, app_nil_r in G1.
      rewrite reply_ahead_returned in G2.
      split; congruence.
    + intros reply e R I P.
      apply (sound_issued c _ r S) in I. destruct I as [Y _].
      assert (A : agrees (found r) false) by (rewrite Y; reflexivity).
      destruct (goes_its_way c _ r S _ A) as [G1 G2].
      rewrite R in G1, G2.
      rewrite calls_ahead_returned, app_nil_r in G1.
      rewrite reply_ahead_returned in G2.
      assert (I : issued r = true).
      { apply (sound_issued c _ r S). split; [exact Y|]. rewrite R.
        discriminate. }
      unfold issued in I. rewrite G1 in I. rewrite G2.
      revert I. cbn [arrive stage].
      destruct (config c) eqn:X;
        try (rewrite calls_ahead_returned; discriminate);
        destruct (alone_ahead c false) as [A1 A2]; rewrite A1, A2;
        intros I; apply (pull_failure_reply _ _ _ _ _ e P I).
  - intros All. rewrite Count.
    assert (Q : forall cs rs,
               Forall2 (fun c r => sound c (machine p) r) cs rs ->
               (forall r, In r rs -> found r = Some false /\ stage r <> AtPull) ->
               List.length (filter issued rs) = List.length cs).
    { induction 1 as [|c r cs rs S F' IH]; intros A; [reflexivity|].
      cbn [filter].
      assert (I : issued r = true).
      { apply (sound_issued c _ r S). apply A. left. reflexivity. }
      rewrite I. cbn [List.length]. f_equal. apply IH.
      intros r1 I1. apply A. right. exact I1. }
    apply Q; assumption.
Qed.

End Concurrent.

(** C3 as the specification states it fails: two calls for the same
    image, which is not in the store, both look for it before either pull
    has ended.  Two pulls are asked of the daemon; the pull of the first
    call fails and that of the second succeeds, so the first call returns
    the error of its pull and the second the output of its program. *)
Lemma two_calls_two_pulls :
  let refused :=
    world (Some "pull access denied for python") (Exited 0)
      (inl ("Hello, World!" ++ Js.LF)) None None in
  let first :=
    {| ConcurrentExecutions.world := refused;
       ConcurrentExecutions.code := "print('Hello, World!')";
       ConcurrentExecutions.language := "python";
       ConcurrentExecutions.input := "" |} in
  let second :=
    {| ConcurrentExecutions.world := calm;
       ConcurrentExecutions.code := "print('Hello, World!')";
       ConcurrentExecutions.language := "python";
       ConcurrentExecutions.input := "" |} in
  let p :=
    ConcurrentExecutions.run [first; second]
      [0; 1; 0; 1; 0; 1; 0; 1; 0; 1; 0; 1; 1; 1; 1; 1; 1]
      (ConcurrentExecutions.start [first; second] empty_machine) in
  ConcurrentExecutions.image first = ConcurrentExecutions.image second /\
  image_cached (ConcurrentExecutions.image first) empty_machine = false /\
  ConcurrentExecutions.pulls (performed empty_machine
                                (ConcurrentExecutions.machine p)) = 2 /\
  map ConcurrentExecutions.stage (ConcurrentExecutions.running p)
  = [ConcurrentExecutions.Returned
       (Resolved {| executionId := uuidv4 refused;
                    status := "error";
                    output := "pull access denied for python";
                    exitCode := 1 |});
     ConcurrentExecutions.Returned
       (Resolved {| executionId := uuidv4 calm;
                    status := "success";
                    output := "Hello, World!" ++ Js.LF;
                    exitCode := 0 |})].
Proof. vm_compute. repeat split; reflexivity. Qed.
(** How a run ends. *)
Lemma run_outcome (w : World) (code language input : string)
  (h : Machine) :
  match fst (DockerService.executeCode w code language input h) with
  | Thrown e =>
      Js.get DockerService.languageConfigs (Js.toLowerCase language)
      = Js.Undefined /\
      e = "Unsupported language: " ++ language
  | Pending => wait_outcome w = NeverExits
  | Resolved r =>
      executionId r = uuidv4 w /\
      ((status r = "success" /\ exitCode r = 0%Z /\
        wait_outcome w = Exited 0 /\ logs_outcome w = inl (output r) /\
        rm_fails w = None) \/
       (status r = "error" /\ exitCode r <> 0%Z))
  end.
Proof.
  destruct (Js.get DockerService.languageConfigs (Js.toLowerCase language))
    as [p|n|] eqn:G.
  3:{ unfold DockerService.executeCode. rewrite G. simpl. auto. }
  all: destruct (run_follows w code language input h) as [_ R];
    [rewrite G; discriminate|]; rewrite G in R; rewrite R; clear R.
  all: unfold run_reply; destruct (snd (follow _)) as [e|];
    [simpl; split; [reflexivity|right; split; [reflexivity|discriminate]]|].
  all: unfold collect_reply; destruct (wait_outcome w) as [c|e|];
    [|simpl; split; [reflexivity|right; split; [reflexivity|discriminate]]
     |reflexivity].
  all: destruct (logs_outcome w) as [text|e];
    [|simpl; split; [reflexivity|right; split; [reflexivity|discriminate]]].
  all: destruct (rm_fails w) as [e|];
    [simpl; split; [reflexivity|right; split; [reflexivity|discriminate]]|].
  all: simpl; split; [reflexivity|].
  all: destruct (Z.eqb_spec c 0) as [->|N]; [left|right]; auto.
Qed.

(** X4: a run rejects only for a language the registry lacks, stays
    pending only while the container never exits, and otherwise resolves
    with the id of the run; the result says success only when the program
    exited with 0, its logs were read and the workspace was removed, and
    every other result says error with an exit code other than 0. *)
Theorem outcome_of_a_run (w : World) (code language input : string)
  (h : Machine) :
  match fst (DockerService.executeCode w code language input h) with
  | Thrown e =>
      Js.get DockerService.languageConfigs (Js.toLowerCase language)
      = Js.Undefined /\
      e = "Unsupported language: " ++ language
  | Pending => wait_outcome w = NeverExits
  | Resolved r =>
      executionId r = uuidv4 w /\
      ((status r = "success" /\ exitCode r = 0%Z /\
        wait_outcome w = Exited 0 /\ logs_outcome w = inl (output r) /\
        rm_fails w = None) \/
       (status r = "error" /\ exitCode r <> 0%Z))
  end.
Proof. exact (run_outcome w code language input h). Qed.

(** X5: an image is pulled only when the daemon does not have it, and it
    is the image of the language's profile. *)
Theorem image_pulled_only_when_absent (w : World)
  (code language input : string) (h : Machine) (i : option string) :
  let config := Js.get DockerService.languageConfigs (Js.toLowerCase language) in
  let image := DockerService.field DockerService.image config in
  In (ImagePull i)
     (performed h (snd (DockerService.executeCode w code language input h))) ->
  i = image /\ image_cached image h = false.
Proof.
  cbv zeta. intros I.
  destruct (run_facts w code language input h) as (_ & _ & _ & P & _).
  exact (P i I).
Qed.

Lemma image_pulled_witness :
  In (ImagePull (Some "python:3.9-alpine"))
     (performed empty_machine
        (snd (DockerService.executeCode calm "print(1)" "Python" ""
                empty_machine))) /\
  image_cached (Some "python:3.9-alpine") empty_machine = false.
Proof.
  assert (I : In (ImagePull (Some "python:3.9-alpine"))
                (performed empty_machine
                   (snd (DockerService.executeCode calm "print(1)" "Python" ""
                           empty_machine)))).
  { vm_compute. repeat (first [left; reflexivity | right]). }
  split; [exact I|].
  exact (proj2 (image_pulled_only_when_absent calm "print(1)" "Python" ""
                  empty_machine (Some "python:3.9-alpine") I)).
Defined.

(** X6: the input reaches the program one way only.  Where the profile
    has a command for input, the container runs that command and nothing
    is written to its standard input; where it has none, the container
    runs the plain command and the input is written to its standard
    input; without input the plain command runs and nothing is written. *)
Theorem input_reaches_the_program_one_way (w : World)
  (code language input : string) (h : Machine) (c : ContainerConfig) :
  let config := Js.get DockerService.languageConfigs (Js.toLowerCase language) in
  let calls :=
    performed h (snd (DockerService.executeCode w code language input h)) in
  In (ContainerCreate c) calls ->
  (forall i, In (ContainerAttach i) calls ->
     i = input /\ Cmd c = DockerService.field DockerService.command config) /\
  (forall cmd, Js.truthy input = true ->
     DockerService.field_inputCommand config = Some cmd ->
     Cmd c = Some cmd /\ forall i, ~ In (ContainerAttach i) calls) /\
  (Js.truthy input = false ->
     Cmd c = DockerService.field DockerService.command config /\
     forall i, ~ In (ContainerAttach i) calls).
Proof.
  cbv zeta. intros I.
  destruct (run_facts w code language input h) as (C & _ & _ & _ & A & _).
  destruct (C c I) as (-> & _).
  repeat split.
  - apply (A i H).
  - destruct (A i H) as (_ & T & N & _). simpl. rewrite T, N. reflexivity.
  - simpl. rewrite H, H0. reflexivity.
  - intros i J. destruct (A i J) as (_ & _ & N & _). congruence.
  - simpl. rewrite H. reflexivity.
  - intros i J. destruct (A i J) as (_ & T & _). congruence.
Qed.

Lemma input_one_way_witness :
  let calls :=
    performed empty_machine
      (snd (DockerService.executeCode calm "<p>hi</p>" "html" "Ada"
              empty_machine)) in
  In (ContainerAttach "Ada") calls /\
  forall c, In (ContainerCreate c) calls ->
    Cmd c = Some ["echo"; "HTML files are for preview only"].
Proof.
  cbv zeta. split.
  - vm_compute. repeat (first [left; reflexivity | right]).
  - intros c I.
    destruct (input_reaches_the_program_one_way calm "<p>hi</p>" "html" "Ada"
                empty_machine c I) as (A & _).
    apply A with (i := "Ada").
    vm_compute. repeat (first [left; reflexivity | right]).
Defined.

(** X7: a run touches the file system only in its own workspace: the
    directory it creates, the files it writes and the directory it
    removes are under the path of its execution id, and the container
    sees that directory alone, as /code. *)
Theorem run_touches_only_its_workspace (w : World)
  (code language input : string) (h : Machine) (a : Action) :
  In a (performed h (snd (DockerService.executeCode w code language input h))) ->
  match a with
  | Mkdir d | Rm d | WriteFile d _ _ => d = DockerService.tempDir w
  | ContainerCreate c =>
      Binds (HostConfig c) = [DockerService.tempDir w ++ ":/code"]
  | _ => True
  end.
Proof.
  intros I.
  destruct (run_facts w code language input h)
    as (C & _ & _ & _ & _ & W & M & R).
  destruct a; auto.
  - apply (W _ _ _ I).
  - destruct (C _ I) as (-> & _). reflexivity.
Qed.

Lemma workspace_only_witness :
  let dir := "/app/temp/1b9d6bcd-bbfd-4b2d-9b5d-ab8dfbbd4bed" in
  In (WriteFile dir "program.py" "print(1)")
     (performed empty_machine
        (snd (DockerService.executeCode calm "print(1)" "python" ""
                empty_machine))) /\
  dir = DockerService.tempDir calm.
Proof.
  cbv zeta.
  assert (I : In (WriteFile "/app/temp/1b9d6bcd-bbfd-4b2d-9b5d-ab8dfbbd4bed"
                    "program.py" "print(1)")
                (performed empty_machine
                   (snd (DockerService.executeCode calm "print(1)" "python" ""
                           empty_machine)))).
  { vm_compute. repeat (first [left; reflexivity | right]). }
  split; [exact I|].
  exact (run_touches_only_its_workspace calm "print(1)" "python" ""
           empty_machine _ I).
Defined.

(** X8: every container a run creates is limited to 512 MiB of memory
    with no swap beyond it, half of one CPU and 50 processes, has no
    terminal, and has a standard input that closes after one client. *)
Theorem container_limits_are_fixed (w : World)
  (code language input : string) (h : Machine) (c : ContainerConfig) :
  In (ContainerCreate c)
     (performed h (snd (DockerService.executeCode w code language input h))) ->
  Memory (HostConfig c) = (512 * 1024 * 1024)%Z /\
  MemorySwap (HostConfig c) = Memory (HostConfig c) /\
  (2 * CpuQuota (HostConfig c))%Z = CpuPeriod (HostConfig c) /\
  PidsLimit (HostConfig c) = 50%Z /\
  Tty c = false /\ OpenStdin c = true /\ StdinOnce c = true.
Proof.
  intros I.
  destruct (run_facts w code language input h) as (C & _).
  destruct (C c I) as (-> & _). repeat split.
Qed.

Lemma container_limits_witness :
  exists c,
    In (ContainerCreate c)
       (performed empty_machine
          (snd (DockerService.executeCode calm "print(1)" "python" ""
                  empty_machine))) /\
    Memory (HostConfig c) = 536870912%Z /\ PidsLimit (HostConfig c) = 50%Z.
Proof.
  exists (DockerService.containerConfig
            (Js.get DockerService.languageConfigs "python")
            (DockerService.tempDir calm) "").
  assert (I : In (ContainerCreate
                    (DockerService.containerConfig
                       (Js.get DockerService.languageConfigs "python")
                       (DockerService.tempDir calm) ""))
                (performed empty_machine
                   (snd (DockerService.executeCode calm "print(1)" "python" ""
                           empty_machine)))).
  { vm_compute. repeat (first [left; reflexivity | right]). }
  split; [exact I|].
  destruct (container_limits_are_fixed calm "print(1)" "python" ""
              empty_machine _ I) as (M & _ & _ & P & _).
  split; [exact M|exact P].
Defined.
Lemma length_append (s t : string) :
  String.length (s ++ t) = String.length s + String.length t.
Proof.
  induction s as [|c s IH]; simpl; [reflexivity|]. rewrite IH. reflexivity.
Qed.

Lemma append_cancel_r (s s' t : string) : (s ++ t = s' ++ t)%string -> s = s'.
Proof.
  revert s'. induction s as [|c s IH]; intros [|c' s'] E; simpl in E.
  - reflexivity.
  - apply (f_equal String.length) in E. simpl in E.
    rewrite length_append in E. lia.
  - apply (f_equal String.length) in E. simpl in E.
    rewrite length_append in E. lia.
  - injection E as -> E. f_equal. apply IH. exact E.
Qed.

(** X9: a Java source whose public class is not called Main is written
    under the name of its class, while the command of the container
    compiles Main.java whatever the class is called: no file of that name
    is written to the workspace. *)
Theorem java_source_is_not_the_compiled_file (w : World)
  (code language input : string) (h : Machine) (name : string) :
  let calls :=
    performed h (snd (DockerService.executeCode w code language input h)) in
  Js.toLowerCase language = "java" ->
  DockerService.match_public_class code = Some name ->
  name <> "Main" ->
  (forall d f x, In (WriteFile d f x) calls ->
     f = name ++ ".java" \/ f = "input.txt") /\
  (forall d x, ~ In (WriteFile d "Main.java" x) calls) /\
  (forall c, In (ContainerCreate c) calls ->
     exists script, Cmd c = Some ["bash"; "-c"; script] /\
                    includes script "javac Main.java" = true).
Proof.
  cbv zeta. intros J M N.
  destruct (run_facts w code language input h)
    as (C & _ & _ & _ & _ & W & _).
  rewrite J in C, W.
  change (Js.get DockerService.languageConfigs "java")
    with (Js.Own java_profile) in C, W.
  assert (F : DockerService.sourceFilename (Js.Own java_profile) code language
              = name ++ ".java").
  { unfold DockerService.sourceFilename. rewrite J, M. reflexivity. }
  rewrite F in W.
  assert (W' : forall d f x,
             In (WriteFile d f x)
                (performed h
                   (snd (DockerService.executeCode w code language input h))) ->
             f = name ++ ".java" \/ f = "input.txt").
  { intros d f x I. destruct (W d f x I) as (_ & [[-> _]|[-> _]]); auto. }
  split; [exact W'|split].
  - intros d x I. destruct (W' d _ x I) as [E|E]; [|discriminate].
    apply N. apply (append_cancel_r name "Main" ".java"). symmetry. exact E.
  - intros c I. destruct (C c I) as (-> & _).
    unfold DockerService.containerConfig. simpl Cmd.
    destruct (Js.truthy input); eexists; split; reflexivity.
Qed.

Lemma java_source_witness :
  let calls :=
    performed empty_machine
      (snd (DockerService.executeCode calm "public class Hello { }" "Java" ""
              empty_machine)) in
  DockerService.match_public_class "public class Hello { }" = Some "Hello" /\
  In (WriteFile (DockerService.tempDir calm) "Hello.java"
        "public class Hello { }") calls /\
  forall d x, ~ In (WriteFile d "Main.java" x) calls.
Proof.
  cbv zeta. split; [reflexivity|split].
  - vm_compute. repeat (first [left; reflexivity | right]).
  - apply (java_source_is_not_the_compiled_file calm "public class Hello { }"
             "Java" "" empty_machine "Hello");
      [reflexivity|reflexivity|discriminate].
Defined.
(** ** The states of the mock terminal *)

Section MockTerminalStates.

Import MockTerminalService.

Lemma in_set m id s k s' :
  In (k, s') (set m id s) -> (k = id /\ s' = s) \/ In (k, s') m.
Proof.
  induction m as [|[k0 s0] m IH]; simpl.
  - intros [[= <- <-]|[]]. auto.
  - destruct (Nat.eqb_spec k0 id) as [->|N].
    + intros [[= <- <-]|H]; auto.
    + intros [H|H]; auto. destruct (IH H); auto.
Qed.

Lemma set_keys m id s k :
  In k (map fst (set m id s)) -> k = id \/ In k (map fst m).
Proof.
  intros H. apply in_map_iff in H. destruct H as ([k' s'] & <- & H).
  apply in_set in H. destruct H as [[-> _]|H]; auto.
  right. apply in_map_iff. exists (k', s'). auto.
Qed.

Lemma set_keys_once m id s :
  NoDup (map fst m) -> NoDup (map fst (set m id s)).
Proof.
  induction m as [|[k0 s0] m IH]; simpl; intros N.
  - constructor; [intros []|constructor].
  - inversion N as [|? ? N1 N2]; subst.
    destruct (Nat.eqb_spec k0 id) as [->|D]; simpl.
    + constructor; auto.
    + constructor; auto. intros H. apply set_keys in H.
      destruct H as [->|H]; auto.
Qed.

Lemma in_delete m id k s : In (k, s) (delete m id) -> In (k, s) m.
Proof. unfold delete. intros H. apply filter_In in H. tauto. Qed.

Lemma delete_keys_once m id :
  NoDup (map fst m) -> NoDup (map fst (delete m id)).
Proof.
  unfold delete. induction m as [|[k0 s0] m IH]; simpl; intros N; auto.
  inversion N as [|? ? N1 N2]; subst.
  destruct (negb (Nat.eqb k0 id)); simpl; auto.
  constructor; auto. intros H. apply N1.
  apply in_map_iff in H. destruct H as ([k' s'] & <- & H).
  apply filter_In in H. apply in_map_iff. exists (k', s'). tauto.
Qed.

Lemma in_insert_timer due t l x :
  In x (insert_timer due t l) <-> x = (due, t) \/ In x l.
Proof.
  induction l as [|[d t0] l IH]; simpl.
  - intuition.
  - destruct (Nat.leb d due); simpl; rewrite ?IH; intuition.
Qed.

Lemma listener_in sock id st lang :
  listener sock id st = Some lang -> In (sock, id, lang) (listeners st).
Proof.
  unfold listener.
  destruct (find _ (listeners st)) as [[[s i] l]|] eqn:F; [|discriminate].
  intros [= <-]. apply find_some in F. destruct F as [I E]. simpl in E.
  apply andb_true_iff in E. destruct E as [E1 E2].
  apply Nat.eqb_eq in E1, E2. subst. exact I.
Qed.

Lemma wired_initial : wired initial.
Proof. constructor; simpl; try tauto. constructor. Qed.

Lemma wired_error sock message st :
  wired st -> wired (emit sock (terminal_error message) st).
Proof.
  intros [KD KO LD LO LC AW OW TA]. constructor; simpl; auto.
  - intros s i l H. apply in_or_app. left. eauto.
  - intros s i t H. apply in_app_or in H.
    destruct H as [H|[H|[]]]; [eauto|discriminate].
Qed.

Lemma wired_create sock lang st :
  wired st -> wired (on_create sock (Object lang) st).
Proof.
  intros [KD KO LD LO LC AW OW TA]. constructor; simpl.
  - intros k s H. apply in_set in H. destruct H as [[-> _]|H]; [lia|].
    specialize (KD _ _ H). lia.
  - apply set_keys_once. exact KO.
  - intros s id l H. apply in_app_or in H. destruct H as [H|[[= <- <- <-]|[]]].
    + specialize (LD _ _ _ H). lia.
    + lia.
  - intros s s' id l l' H H'. apply in_app_or in H, H'.
    destruct H as [H|[[= <- <- <-]|[]]], H' as [H'|[H'|[]]].
    + eauto.
    + injection H' as <- <- <-. specialize (LD _ _ _ H). lia.
    + specialize (LD _ _ _ H'). lia.
    + injection H' as <- <-. auto.
  - intros s id l H. apply in_app_or in H. rewrite <- app_assoc.
    destruct H as [H|[[= <- <- <-]|[]]].
    + apply in_or_app. left. eauto.
    + apply in_or_app. right. left. reflexivity.
  - intros due s id input l H. apply in_or_app. left. eauto.
  - intros s id text H. rewrite <- app_assoc in H. apply in_app_or in H.
    destruct H as [H|[H|[[= <- <- <-]|[]]]].
    + destruct (OW _ _ _ H) as (l & L). exists l. apply in_or_app. auto.
    + discriminate.
    + exists lang. apply in_or_app. right. left. reflexivity.
  - exact TA.
Qed.

Lemma wired_close id st : wired st -> wired (closeTerminalSession id st).
Proof.
  intros [KD KO LD LO LC AW OW TA]. unfold closeTerminalSession.
  destruct (get (activeSessions st) id) as [session|] eqn:G;
    [|constructor; assumption].
  constructor; simpl; auto.
  - intros k s H. apply in_set in H. destruct H as [[-> _]|H]; eauto.
    apply get_in in G. eauto.
  - apply set_keys_once. exact KO.
  - intros due s i input l H. apply in_insert_timer in H.
    destruct H as [H|H]; [discriminate|eauto].
  - intros due t H. apply in_insert_timer in H.
    destruct H as [[= -> _]|H]; [lia|eauto].
Qed.

Lemma wired_input sock id lang input st :
  wired st -> In (sock, id, lang) (listeners st) ->
  wired (on_input sock id lang (Object input) st).
Proof.
  intros W L. unfold on_input.
  destruct (get (activeSessions st) id) as [session|] eqn:G; [|exact W].
  destruct (active session); [|exact W].
  destruct W as [KD KO LD LO LC AW OW TA].
  constructor; simpl; auto.
  - intros k s H. apply in_set in H. destruct H as [[-> _]|H]; eauto.
  - apply set_keys_once. exact KO.
  - intros due s i inp l H. apply in_insert_timer in H.
    destruct H as [[= _ <- <- <- <-]|H]; [exact L|eauto].
  - intros due t H. apply in_insert_timer in H.
    destruct H as [[= -> _]|H]; [lia|eauto].
Qed.

Lemma wired_output sock id text st :
  wired st -> (exists lang, In (sock, id, lang) (listeners st)) ->
  wired (emit sock (terminal_output id text) st).
Proof.
  intros [KD KO LD LO LC AW OW TA] L. constructor; simpl; auto.
  - intros s i l H. apply in_or_app. left. eauto.
  - intros s i t H. apply in_app_or in H.
    destruct H as [H|[[= <- <- <-]|[]]]; eauto.
Qed.

Lemma closeTerminalSession_listeners id st :
  listeners (closeTerminalSession id st) = listeners st.
Proof. unfold closeTerminalSession. destruct (get _ _); reflexivity. Qed.

Lemma wired_iter_close n id st :
  wired st -> wired (Nat.iter n (closeTerminalSession id) st).
Proof. intros W. induction n; simpl; auto using wired_close. Qed.

Lemma wired_close_each n ids st : wired st -> wired (close_each n ids st).
Proof.
  revert st. induction ids as [|i ids IH]; intros st W; simpl; auto.
  apply IH. apply wired_iter_close. exact W.
Qed.

Lemma run_timer_listeners clock t st :
  listeners (run_timer clock t st) = listeners st.
Proof. destruct t; reflexivity. Qed.

Lemma run_timer_timers clock t st :
  timers (run_timer clock t st) = timers st.
Proof. destruct t; reflexivity. Qed.

Lemma run_timer_now clock t st : now (run_timer clock t st) = now st.
Proof. destruct t; reflexivity. Qed.

Lemma wired_run_timer clock t st :
  wired st -> timer_wired st t -> wired (run_timer clock t st).
Proof.
  intros W T. destruct t as [sock id input lang|id]; simpl.
  - apply wired_output; eauto.
  - destruct W as [KD KO LD LO LC AW OW TA]. constructor; simpl; auto.
    + intros k s H. apply in_delete in H. eauto.
    + apply delete_keys_once. exact KO.
Qed.

Lemma wired_run_timers clock (due : list (nat * Timer)) st :
  wired st -> (forall e, In e due -> timer_wired st (snd e)) ->
  wired (fold_left (fun s (e : nat * Timer) => run_timer clock (snd e) s) due st).
Proof.
  revert st. induction due as [|e due IH]; intros st W T; simpl; auto.
  apply IH.
  - apply wired_run_timer; auto. apply T. left. reflexivity.
  - intros e' I. specialize (T e' (or_intror I)).
    destruct (snd e'); simpl in *; auto.
    rewrite run_timer_listeners. exact T.
Qed.

Lemma wired_elapse ms clock st : wired st -> wired (on_elapse ms clock st).
Proof.
  intros W. unfold on_elapse. apply wired_run_timers.
  - destruct W as [KD KO LD LO LC AW OW TA]. constructor; simpl; auto.
    + intros due s id input l H. unfold not_due in H. simpl in H.
      apply filter_In in H. destruct H as [H _]. eauto.
    + intros due t H. unfold not_due in H. simpl in H.
      apply filter_In in H. destruct H as [_ H]. simpl in H.
      apply negb_true_iff in H. apply Nat.leb_gt in H. exact H.
  - intros [due t] I. unfold due_now in I. simpl in I.
    apply filter_In in I. destruct I as [I _]. simpl.
    destruct t as [sock id input lang|id]; simpl; auto.
    apply (answers_wired st W) in I. exact I.
Qed.

Lemma wired_step e st : wired st -> wired (step e st).
Proof.
  intros W.
  destruct e as [sock lang|sock message|sock id input|sock id message
                |sock id|sock|ms clock]; cbn [step].
  - apply wired_create. exact W.
  - apply wired_error. exact W.
  - destruct (listener sock id st) as [lang|] eqn:L; [|exact W].
    apply wired_input; auto. apply listener_in. exact L.
  - destruct (listener sock id st) as [lang|] eqn:L; [|exact W].
    apply wired_output; [exact W|]. exists lang. apply listener_in. exact L.
  - destruct (listener sock id st) as [lang|] eqn:L; [|exact W].
    unfold on_close. apply wired_output.
    + apply wired_close. exact W.
    + exists lang. rewrite closeTerminalSession_listeners.
      apply listener_in. exact L.
  - apply wired_close_each. exact W.
  - apply wired_elapse. exact W.
Qed.

Lemma wired_run events st : wired st -> wired (run events st).
Proof.
  revert st. induction events as [|e events IH]; intros st W; simpl; auto.
  apply IH. apply wired_step. exact W.
Qed.

(** X10: every output of a session goes to the socket the session was
    created over, whatever the clients do and whenever the timers run:
    no other socket is sent an output of the session. *)
Theorem session_output_goes_to_its_creator (events : list Event)
  (sock id : nat) (text : string) :
  let st := run events initial in
  In (sock, terminal_output id text) (sent st) ->
  In (sock, terminal_created id "Mock terminal session created") (sent st) /\
  forall sock' text',
    In (sock', terminal_output id text') (sent st) -> sock' = sock.
Proof.
  cbv zeta. intros O.
  pose proof (wired_run events initial wired_initial) as W.
  destruct (outputs_wired _ W _ _ _ O) as (lang & L). split.
  - apply (listeners_created _ W _ _ _ L).
  - intros sock' text' O'.
    destruct (outputs_wired _ W _ _ _ O') as (lang' & L').
    destruct (listeners_once _ W _ _ _ _ _ L' L) as [E _]. exact E.
Qed.

End MockTerminalStates.

Lemma session_output_witness :
  let st := MockTerminalService.run
              [MockTerminalService.terminal_create 7 (Some "python");
               MockTerminalService.terminal_create 8 None;
               MockTerminalService.terminal_input 7 0 "whoami";
               MockTerminalService.terminal_input 8 0 "whoami";
               MockTerminalService.elapse 300 "Tue Nov 03 2026"]
              MockTerminalService.initial in
  In (7, MockTerminalService.terminal_output 0 "user")
     (MockTerminalService.sent st) /\
  forall sock' text',
    In (sock', MockTerminalService.terminal_output 0 text')
       (MockTerminalService.sent st) -> sock' = 7.
Proof.
  cbv zeta.
  assert (I : In (7, MockTerminalService.terminal_output 0 "user")
                (MockTerminalService.sent
                   (MockTerminalService.run
                      [MockTerminalService.terminal_create 7 (Some "python");
                       MockTerminalService.terminal_create 8 None;
                       MockTerminalService.terminal_input 7 0 "whoami";
                       MockTerminalService.terminal_input 8 0 "whoami";
                       MockTerminalService.elapse 300 "Tue Nov 03 2026"]
                      MockTerminalService.initial))).
  { vm_compute. repeat (first [left; reflexivity | right]). }
  split; [exact I|].
  exact (proj2 (session_output_goes_to_its_creator _ 7 0 "user" I)).
Defined.
(** ** Timers and disconnections of the mock terminal *)

Section MockTerminalTimers.

Import MockTerminalService.

Lemma run_timers_timers clock (due : list (nat * Timer)) st :
  timers (fold_left (fun s (e : nat * Timer) => run_timer clock (snd e) s) due st) = timers st.
Proof.
  revert st. induction due as [|e due IH]; intros st; simpl; auto.
  rewrite IH. apply run_timer_timers.
Qed.

Lemma run_timers_now clock (due : list (nat * Timer)) st :
  now (fold_left (fun s (e : nat * Timer) => run_timer clock (snd e) s) due st) = now st.
Proof.
  revert st. induction due as [|e due IH]; intros st; simpl; auto.
  rewrite IH. apply run_timer_now.
Qed.




Lemma run_timer_gone clock t st id :
  get (activeSessions st) id = None ->
  get (activeSessions (run_timer clock t st)) id = None.
Proof.
  destruct t as [sock sid input lang|sid]; simpl; auto.
  intros G. rewrite get_delete, G. destruct (Nat.eqb sid id); reflexivity.
Qed.

Lemma run_timers_gone clock (due : list (nat * Timer)) st id :
  get (activeSessions st) id = None ->
  get (activeSessions (fold_left (fun s (e : nat * Timer) => run_timer clock (snd e) s) due st)) id = None.
Proof.
  revert st. induction due as [|e due IH]; intros st G; simpl; auto.
  apply IH. apply run_timer_gone. exact G.
Qed.

Lemma run_timers_evicts clock (due : list (nat * Timer)) st d id :
  In (d, Evict id) due ->
  get (activeSessions (fold_left (fun s (e : nat * Timer) => run_timer clock (snd e) s) due st)) id = None.
Proof.
  revert st. induction due as [|e due IH]; intros st H;
    [destruct H|destruct H as [E|H]]; simpl.
  - subst e. apply run_timers_gone. simpl.
    rewrite get_delete, Nat.eqb_refl. reflexivity.
  - apply IH. exact H.
Qed.

Lemma closeTerminalSession_now id st : now (closeTerminalSession id st) = now st.
Proof. unfold closeTerminalSession. destruct (get _ _); reflexivity. Qed.

Lemma closeTerminalSession_keeps_timers id st x :
  In x (timers st) -> In x (timers (closeTerminalSession id st)).
Proof.
  unfold closeTerminalSession. destruct (get _ _); auto. simpl.
  intros H. apply in_insert_timer. auto.
Qed.

Lemma closeTerminalSession_gone id' st id :
  get (activeSessions st) id = None ->
  get (activeSessions (closeTerminalSession id' st)) id = None.
Proof.
  unfold closeTerminalSession. intros G.
  destruct (get (activeSessions st) id') as [s|] eqn:G'; auto. simpl.
  destruct (Nat.eq_dec id' id) as [->|N]; [congruence|].
  rewrite get_set_other by exact N. exact G.
Qed.

Lemma closeTerminalSession_other id' st id :
  id' <> id ->
  get (activeSessions (closeTerminalSession id' st)) id
  = get (activeSessions st) id.
Proof.
  unfold closeTerminalSession. intros N.
  destruct (get (activeSessions st) id') as [s|] eqn:G'; auto. simpl.
  apply get_set_other. exact N.
Qed.

(** What [close_each] keeps, as what each [closeTerminalSession] keeps. *)
Lemma close_each_keeps (P : State -> Prop) n ids st :
  (forall id s, P s -> P (closeTerminalSession id s)) ->
  P st -> P (close_each n ids st).
Proof.
  intros K. revert st. induction ids as [|i ids IH]; intros st H; simpl; auto.
  apply IH. clear IH. induction n as [|n IHn]; simpl; [exact H|apply K; exact IHn].
Qed.

Lemma close_each_other n ids st id :
  ~ In id ids ->
  get (activeSessions (close_each n ids st)) id = get (activeSessions st) id.
Proof.
  revert st. induction ids as [|i ids IH]; intros st N; simpl; auto.
  rewrite IH by (intros H; apply N; right; exact H).
  assert (D : i <> id) by (intros E; apply N; left; exact E).
  clear IH N. induction n; simpl; auto.
  rewrite closeTerminalSession_other by exact D. exact IHn.
Qed.

Lemma close_each_sends n ids st : sent (close_each n ids st) = sent st.
Proof.
  apply (close_each_keeps (fun s => sent s = sent st)); auto.
  intros id s E. rewrite closeTerminalSession_sends. exact E.
Qed.

Lemma now_step e st :
  now (step e st) = now st + elapsed [e].
Proof.
  destruct e as [sock lang|sock message|sock id input|sock id message
                |sock id|sock|ms clock]; simpl;
    rewrite ?Nat.add_0_r.
  - reflexivity.
  - reflexivity.
  - destruct (listener sock id st); auto.
    destruct (get _ _) as [s|]; auto. destruct (active s); auto.
  - destruct (listener sock id st); auto.
  - destruct (listener sock id st); auto. unfold on_close. simpl.
    apply closeTerminalSession_now.
  - unfold on_disconnect.
    apply (close_each_keeps (fun s => now s = now st)); auto.
    intros id s E. rewrite closeTerminalSession_now. exact E.
  - unfold on_elapse. rewrite run_timers_now. reflexivity.
Qed.

Lemma now_run events st : now (run events st) = now st + elapsed events.
Proof.
  revert st. induction events as [|e events IH]; intros st; simpl.
  - lia.
  - rewrite IH, now_step. destruct e; simpl; lia.
Qed.

Lemma uuid_step e st : uuid st <= uuid (step e st).
Proof.
  destruct e as [sock lang|sock message|sock id input|sock id message
                |sock id|sock|ms clock]; simpl.
  - lia.
  - lia.
  - destruct (listener sock id st); auto.
    destruct (get _ _) as [s|]; auto. destruct (active s); auto.
  - destruct (listener sock id st); auto.
  - destruct (listener sock id st); auto. unfold on_close. simpl.
    rewrite closeTerminalSession_uuid. lia.
  - unfold on_disconnect. rewrite close_each_uuid. lia.
  - unfold on_elapse. rewrite run_timers_uuid. simpl. lia.
Qed.


(** A timer that is set stays set until the clock moves. *)
Lemma timers_kept e st x :
  (forall ms clock, e <> elapse ms clock) ->
  In x (timers st) -> In x (timers (step e st)).
Proof.
  intros N H.
  destruct e as [sock lang|sock message|sock id input|sock id message
                |sock id|sock|ms clock]; simpl; auto.
  - destruct (listener sock id st); auto.
    destruct (get _ _) as [s|]; auto. destruct (active s); auto.
    simpl. apply in_insert_timer. auto.
  - destruct (listener sock id st); auto.
  - destruct (listener sock id st); auto. unfold on_close. simpl.
    apply closeTerminalSession_keeps_timers. exact H.
  - unfold on_disconnect.
    apply (close_each_keeps (fun s => In x (timers s))); auto.
    intros id s. apply closeTerminalSession_keeps_timers.
  - destruct (N ms clock eq_refl).
Qed.

Lemma gone_step e st id :
  id < uuid st -> get (activeSessions st) id = None ->
  get (activeSessions (step e st)) id = None.
Proof.
  intros L G.
  destruct e as [sock lang|sock message|sock sid input|sock sid message
                |sock sid|sock|ms clock]; simpl.
  - rewrite get_set_other by lia. exact G.
  - exact G.
  - destruct (listener sock sid st); auto.
    destruct (get (activeSessions st) sid) as [s|] eqn:G'; auto.
    destruct (active s); auto. simpl.
    destruct (Nat.eq_dec sid id) as [->|N]; [congruence|].
    rewrite get_set_other by exact N. exact G.
  - destruct (listener sock sid st); auto.
  - destruct (listener sock sid st); auto. unfold on_close. simpl.
    apply closeTerminalSession_gone. exact G.
  - unfold on_disconnect.
    apply (close_each_keeps (fun s => get (activeSessions s) id = None)); auto.
    intros i s. apply closeTerminalSession_gone.
  - unfold on_elapse. apply run_timers_gone. exact G.
Qed.

Lemma evicted_step deadline id e st :
  id < uuid st -> evicted_by deadline id st ->
  evicted_by deadline id (step e st).
Proof.
  intros L [G|(due & D & T)].
  - left. apply gone_step; assumption.
  - destruct e as [sock lang|sock message|sock sid input|sock sid message
                  |sock sid|sock|ms clock];
      try (right; exists due; split; [exact D|];
           apply timers_kept; [intros ? ?; discriminate|exact T]).
    simpl. unfold on_elapse.
    destruct (Nat.leb due (now st + ms)) eqn:Due.
    + left. apply (run_timers_evicts clock _ _ due).
      unfold due_now. simpl. apply filter_In. split; [exact T|exact Due].
    + right. exists due. split; [exact D|].
      rewrite run_timers_timers. simpl. unfold not_due. simpl.
      apply filter_In. split; [exact T|]. simpl. rewrite Due. reflexivity.
Qed.

Lemma evicted_run deadline id events st :
  id < uuid st -> evicted_by deadline id st ->
  evicted_by deadline id (run events st).
Proof.
  revert st. induction events as [|e events IH]; intros st L E; simpl; auto.
  apply IH.
  - pose proof (uuid_step e st). lia.
  - apply evicted_step; assumption.
Qed.



Lemma one_session_per_key (m : list (nat * Session)) k s s' :
  NoDup (map fst m) -> In (k, s) m -> In (k, s') m -> s = s'.
Proof.
  induction m as [|[k0 s0] m IH]; simpl; intros N H H'; [destruct H|].
  inversion N as [|? ? N1 N2]; subst.
  destruct H as [E|H], H' as [E'|H'].
  - congruence.
  - injection E as -> ->. destruct N1. apply in_map_iff. exists (k, s'). auto.
  - injection E' as -> ->. destruct N1. apply in_map_iff. exists (k, s). auto.
  - auto.
Qed.

(** X11: a session that is closed is gone from the map once 1000 ms have
    passed, whatever else happens meanwhile. *)
Theorem closed_session_is_evicted (before between : list Event)
  (sock id : nat) (lang : option string) :
  let st := run before initial in
  listener sock id st = Some lang ->
  1000 <= elapsed between ->
  get (activeSessions (run (terminal_close sock id :: between) st)) id = None.
Proof.
  cbv zeta. intros L E.
  pose proof (wired_run before initial wired_initial) as W.
  set (st := run before initial) in *.
  assert (W' : wired (run (terminal_close sock id :: between) st))
    by (apply wired_run; exact W).
  assert (Ev : evicted_by (now st + 1000) id
                 (run (terminal_close sock id :: between) st)).
  { simpl. rewrite L. apply evicted_run.
    - unfold on_close. simpl. rewrite closeTerminalSession_uuid.
      apply (listeners_drawn st W sock id lang). apply listener_in. exact L.
    - unfold on_close, closeTerminalSession.
      destruct (get (activeSessions st) id) as [s|] eqn:G.
      + right. exists (now st + 1000). split; [lia|]. simpl.
        apply in_insert_timer. auto.
      + left. simpl. exact G. }
  destruct Ev as [G|(due & D & T)]; [exact G|].
  apply (timers_ahead _ W') in T.
  rewrite now_run in T. simpl in T. lia.
Qed.


(** X13: the loss of a socket leaves the sessions of the other sockets
    as they are, and sends nothing. *)
Theorem disconnect_spares_other_sockets (before : list Event)
  (sock id : nat) (session : Session) :
  let st := run before initial in
  get (activeSessions st) id = Some session ->
  socket session <> sock ->
  get (activeSessions (step (disconnect sock) st)) id = Some session /\
  sent (step (disconnect sock) st) = sent st.
Proof.
  cbv zeta. intros G N.
  pose proof (wired_run before initial wired_initial) as W.
  set (st := run before initial) in *.
  simpl. unfold on_disconnect. split; [|apply close_each_sends].
  rewrite close_each_other; [exact G|].
  intros I. apply in_map_iff in I. destruct I as ([k s] & E & I).
  simpl in E. subst k. apply filter_In in I. destruct I as [I S].
  simpl in S. apply Nat.eqb_eq in S.
  apply get_in in G.
  pose proof (one_session_per_key _ _ _ _ (keys_once st W) I G). congruence.
Qed.

End MockTerminalTimers.

Lemma closed_session_evicted_witness :
  let before := [MockTerminalService.terminal_create 7 (Some "python")] in
  let between := [MockTerminalService.terminal_input 7 0 "ls";
                  MockTerminalService.elapse 400 "Tue Nov 03 2026";
                  MockTerminalService.terminal_create 7 None;
                  MockTerminalService.elapse 600 "Tue Nov 03 2026"] in
  MockTerminalService.get
    (MockTerminalService.activeSessions
       (MockTerminalService.run
          (MockTerminalService.terminal_close 7 0 :: between)
          (MockTerminalService.run before MockTerminalService.initial))) 0
  = None.
Proof.
  cbv zeta.
  apply (closed_session_is_evicted
           [MockTerminalService.terminal_create 7 (Some "python")]
           [MockTerminalService.terminal_input 7 0 "ls";
            MockTerminalService.elapse 400 "Tue Nov 03 2026";
            MockTerminalService.terminal_create 7 None;
            MockTerminalService.elapse 600 "Tue Nov 03 2026"]
           7 0 (Some "python")).
  - reflexivity.
  - simpl. lia.
Defined.


Lemma disconnect_spares_witness :
  let st := MockTerminalService.run
              [MockTerminalService.terminal_create 7 (Some "python");
               MockTerminalService.terminal_create 8 (Some "java")]
              MockTerminalService.initial in
  MockTerminalService.get
    (MockTerminalService.activeSessions
       (MockTerminalService.step (MockTerminalService.disconnect 7) st)) 1
  = Some {| MockTerminalService.language := Some "java";
            MockTerminalService.socket := 8;
            MockTerminalService.history := [];
            MockTerminalService.active := true |} /\
  MockTerminalService.sent
    (MockTerminalService.step (MockTerminalService.disconnect 7) st)
  = MockTerminalService.sent st.
Proof.
  cbv zeta.
  apply (disconnect_spares_other_sockets
           [MockTerminalService.terminal_create 7 (Some "python");
            MockTerminalService.terminal_create 8 (Some "java")]
           7 1).
  - reflexivity.
  - simpl. discriminate.
Defined.
(** ** The commands of the mock terminal *)

Lemma trimEnd_idem (s : string) : Js.trimEnd (Js.trimEnd s) = Js.trimEnd s.
Proof.
  induction s as [|c t IH]; simpl; [reflexivity|].
  destruct (Js.trimEnd t) as [|a u] eqn:E.
  - destruct (Js.isSpace c) eqn:S; simpl; [reflexivity|]. rewrite S. reflexivity.
  - change (Js.trimEnd (String c (String a u)))
      with (match Js.trimEnd (String a u) with
            | EmptyString =>
                if Js.isSpace c then EmptyString else String c EmptyString
            | t' => String c t'
            end).
    rewrite IH. reflexivity.
Qed.

Lemma trimStart_head (s : string) : unspaced_head (Js.trimStart s).
Proof.
  induction s as [|c t IH]; simpl; [exact I|].
  destruct (Js.isSpace c) eqn:S; [exact IH|]. simpl. exact S.
Qed.

Lemma trimEnd_head (s : string) :
  unspaced_head s -> unspaced_head (Js.trimEnd s).
Proof.
  destruct s as [|c t]; simpl; [auto|]. intros S.
  destruct (Js.trimEnd t); [rewrite S|]; simpl; exact S.
Qed.

Lemma trimStart_fixed (s : string) : unspaced_head s -> Js.trimStart s = s.
Proof. destruct s as [|c t]; simpl; [auto|]. intros ->. reflexivity. Qed.

Lemma trim_idem (s : string) : Js.trim (Js.trim s) = Js.trim s.
Proof.
  unfold Js.trim.
  rewrite (trimStart_fixed (Js.trimEnd (Js.trimStart s))).
  - apply trimEnd_idem.
  - apply trimEnd_head. apply trimStart_head.
Qed.

Lemma trimEnd_app (s t : string) :
  Js.trimEnd t <> EmptyString ->
  Js.trimEnd (s ++ t) = (s ++ Js.trimEnd t)%string.
Proof.
  intros N. induction s as [|c s IH]; simpl; [reflexivity|].
  rewrite IH. destruct (s ++ Js.trimEnd t)%string eqn:E; [|reflexivity].
  destruct s; simpl in E; [contradiction|discriminate].
Qed.

(** X14: the answer to a command depends on the command without the
    white space around it, and on nothing else of the session: not on
    its language. *)
Theorem processCommand_sees_the_trimmed_command (clock command : string)
  (language language' : option string) :
  MockTerminalService.processCommand clock (Js.trim command) language'
  = MockTerminalService.processCommand clock command language.
Proof.
  unfold MockTerminalService.processCommand. rewrite trim_idem. reflexivity.
Qed.

(** X15: echo gives back what follows its first space, less the white
    space at the end; with nothing but white space to give back, the
    command is not found. *)
Theorem echo_gives_back_its_argument (clock text : string)
  (language : option string) :
  MockTerminalService.processCommand clock ("echo " ++ text) language
  = if String.eqb (Js.trimEnd text) ""
    then "Command not found: echo" ++ Js.LF ++
         "This is a simulated terminal environment with limited functionality."
    else Js.trimEnd text.
Proof.
  unfold MockTerminalService.processCommand.
  assert (T : Js.trim ("echo " ++ text) = Js.trimEnd ("echo " ++ text))
    by reflexivity.
  rewrite T. clear T.
  destruct (String.eqb_spec (Js.trimEnd text) "") as [E|N].
  - assert (C : Js.trimEnd ("echo " ++ text) = "echo").
    { simpl. rewrite E. reflexivity. }
    rewrite C. reflexivity.
  - rewrite trimEnd_app by exact N. reflexivity.
Qed.
(** ** The mock executor on Java sources *)

Section MockJava.

Import MockDockerService.

Lemma append_assoc (a b c : string) : ((a ++ b) ++ c = a ++ (b ++ c))%string.
Proof. induction a as [|x a IH]; simpl; [|rewrite IH]; reflexivity. Qed.

Lemma until_paren_app (content rest : string) :
  all_units (fun c => negb (Nat.eqb (Js.code_unit c) 41)) content = true ->
  until_paren (content ++ String ")" rest) = Some content.
Proof.
  induction content as [|c t IH]; simpl; intros F; [reflexivity|].
  apply andb_true_iff in F. destruct F as [F1 F2].
  apply negb_true_iff in F1. rewrite F1, (IH F2). reflexivity.
Qed.

Lemma println_contents_skip (u v : string) :
  println_contents (String.length u) (u ++ v) = println_contents 0 v.
Proof.
  induction u as [|c u IH]; simpl; [destruct v; reflexivity|exact IH].
Qed.

Lemma println_contents_statement (content rest : string) :
  all_units (fun c => negb (Nat.eqb (Js.code_unit c) 41)) content = true ->
  println_contents 0 ("System.out.println(" ++ content ++ String ")" rest)
  = content :: println_contents 0 rest.
Proof.
  intros F.
  change ("System.out.println(" ++ content ++ String ")" rest)%string
    with (String "S" ("ystem.out.println(" ++ content ++ String ")" rest)).
  cbn [println_contents].
  change (Js.strip_prefix "System.out.println("
            (String "S" ("ystem.out.println(" ++ content ++ String ")" rest)))
    with (Some (content ++ String ")" rest)%string).
  cbv beta iota. rewrite (until_paren_app content rest F). f_equal.
  rewrite <- (println_contents_skip
                ("ystem.out.println(" ++ content ++ ")") rest).
  f_equal.
  - rewrite !length_append. simpl. lia.
  - rewrite !append_assoc. reflexivity.
Qed.

Lemma println_contents_program (q : ascii) (texts : list string) :
  Forall (fun text =>
            all_units (fun c => negb (Nat.eqb (Js.code_unit c) 41))
              (String q (text ++ String q "")) = true) texts ->
  println_contents 0 (java_prints q texts)
  = map (fun text => String q (text ++ String q "")) texts.
Proof.
  induction 1 as [|text texts F _ IH]; [reflexivity|].
  cbn [java_prints map].
  replace ("System.out.println(" ++ String q (text ++ String q ");")
             ++ java_prints q texts)%string
    with ("System.out.println(" ++ String q (text ++ String q "")
            ++ String ")" (String ";" (java_prints q texts)))%string.
  - rewrite (println_contents_statement _ _ F). f_equal.
    cbn [println_contents]. rewrite <- IH.
    destruct (java_prints q texts); reflexivity.
  - simpl. do 19 f_equal. f_equal. rewrite !append_assoc. reflexivity.
Qed.

Lemma take_app (s t : string) : Js.take (String.length s) (s ++ t) = s.
Proof. induction s as [|c s IH]; simpl; [destruct t|rewrite IH]; reflexivity. Qed.

Lemma inner_quoted (q : ascii) (text : string) :
  Js.inner (String q (text ++ String q "")) = text.
Proof.
  unfold Js.inner, Js.substring.
  set (len := Z.of_nat (String.length (String q (text ++ String q "")))).
  assert (L : len = (Z.of_nat (String.length text) + 2)%Z).
  { subst len. simpl String.length. rewrite length_append. simpl. lia. }
  replace (Z.min (Z.max 0 (Z.min 1 len)) (Z.max 0 (Z.min (len - 1) len)))
    with 1%Z by lia.
  replace (Z.max (Z.max 0 (Z.min 1 len)) (Z.max 0 (Z.min (len - 1) len)))
    with (len - 1)%Z by lia.
  replace (Z.to_nat (len - 1 - 1)) with (String.length text) by lia.
  change (Z.to_nat 1) with 1. simpl Js.drop. apply take_app.
Qed.

(** X16: a Java source made of println statements of string literals is
    answered with the literals, without their quotes, in order, joined by
    a backslash and an n (not by line feeds); a source without any is
    answered with the advice to add one. *)
Theorem println_of_literals_prints_them (q : ascii) (texts : list string) :
  q = Js.double_quote \/ q = Js.single_quote ->
  Forall (fun text =>
            all_units (fun c => negb (Nat.eqb (Js.code_unit c) 41)) text = true)
         texts ->
  mockJavaExecution (java_prints q texts)
  = match texts with
    | [] => "No System.out.println statements found in the code.\nAdd System.out.println() to see output."
    | _ => join "\n" texts
    end.
Proof.
  intros Q F. unfold mockJavaExecution.
  rewrite println_contents_program.
  - destruct texts as [|text texts]; [reflexivity|].
    assert (E : forall l,
               map (fun content =>
                      if Js.startsWith_unit content Js.double_quote
                         || Js.startsWith_unit content Js.single_quote
                      then Js.inner content
                      else ("[Simulated output]: " ++ content)%string)
                   (map (fun text => String q (text ++ String q "")) l)
               = l).
    { induction l as [|a l IH]; [reflexivity|]. cbn [map]. rewrite IH.
      f_equal. rewrite inner_quoted.
      destruct Q as [-> | ->]; reflexivity. }
    specialize (E (text :: texts)). cbn [map] in E |- *. rewrite E.
    reflexivity.
  - eapply Forall_impl; [|exact F]. intros text U. cbn [all_units].
    assert (A : forall s t, all_units (fun c => negb (Nat.eqb (Js.code_unit c) 41)) s = true ->
                            all_units (fun c => negb (Nat.eqb (Js.code_unit c) 41)) t = true ->
                            all_units (fun c => negb (Nat.eqb (Js.code_unit c) 41)) (s ++ t) = true).
    { intros s t. induction s as [|c s IH]; simpl; auto.
      intros H1 H2. apply andb_true_iff in H1. destruct H1 as [-> H1]. auto. }
    rewrite A; [|exact U|destruct Q as [-> | ->]; reflexivity].
    destruct Q as [-> | ->]; reflexivity.
Qed.

End MockJava.

Lemma println_of_literals_witness :
  MockDockerService.mockJavaExecution
    (java_prints Js.double_quote ["Hello"; "World"])
  = "Hello\nWorld".
Proof.
  apply (println_of_literals_prints_them Js.double_quote ["Hello"; "World"]).
  - left. reflexivity.
  - repeat constructor.
Defined.
(** ** The mock executor on C sources *)

Section MockC.

Import MockDockerService.

Lemma until_semicolon_app (a rest : string) :
  free_of 59 a = true ->
  until_semicolon (a ++ String ";" rest) = a.
Proof.
  unfold free_of. induction a as [|c t IH]; simpl; intros F; [reflexivity|].
  apply andb_true_iff in F. destruct F as [F1 F2].
  apply negb_true_iff in F1. rewrite F1, (IH F2). reflexivity.
Qed.

Lemma free_of_app (c : nat) (s t : string) :
  free_of c s = true -> free_of c t = true -> free_of c (s ++ t) = true.
Proof.
  unfold free_of. induction s as [|x s IH]; simpl; auto.
  intros H1 H2. apply andb_true_iff in H1. destruct H1 as [-> H1]. auto.
Qed.

Lemma through_last_paren_end (a : string) :
  through_last_paren (a ++ ")") = Some (String.length a + 1).
Proof.
  induction a as [|c t IH]; simpl; [reflexivity|]. rewrite IH. reflexivity.
Qed.

Lemma count_printf_skip (u v : string) :
  count_printf (String.length u) (u ++ v) = count_printf 0 v.
Proof.
  induction u as [|c u IH]; simpl; [destruct v; reflexivity|exact IH].
Qed.

Lemma count_printf_statement (a rest : string) :
  free_of 59 a = true ->
  count_printf 0 ("printf(" ++ a ++ ");" ++ rest) = S (count_printf 0 rest).
Proof.
  intros F.
  change ("printf(" ++ a ++ ");" ++ rest)%string
    with (String "p" ("rintf(" ++ a ++ ");" ++ rest)).
  cbn [count_printf].
  change (Js.strip_prefix "printf(" (String "p" ("rintf(" ++ a ++ ");" ++ rest)))
    with (Some (a ++ ");" ++ rest)%string).
  cbv beta iota.
  replace (a ++ ");" ++ rest)%string with ((a ++ ")") ++ String ";" rest)%string
    by (rewrite append_assoc; reflexivity).
  rewrite until_semicolon_app
    by (apply free_of_app; [exact F|reflexivity]).
  rewrite through_last_paren_end. f_equal.
  replace ("rintf(" ++ (a ++ ")") ++ String ";" rest)%string
    with (("rintf(" ++ a ++ ")") ++ String ";" rest)%string
    by (rewrite !append_assoc; reflexivity).
  replace (6 + (String.length a + 1))
    with (String.length ("rintf(" ++ a ++ ")"))
    by (rewrite !length_append; simpl; lia).
  rewrite count_printf_skip. reflexivity.
Qed.

Lemma count_printf_program (args : list string) :
  Forall (fun a => free_of 59 a = true) args ->
  count_printf 0 (c_prints args) = List.length args.
Proof.
  induction 1 as [|a args F _ IH]; [reflexivity|].
  cbn [c_prints List.length]. rewrite (count_printf_statement _ _ F), IH.
  reflexivity.
Qed.

(** X17: a C source made of printf statements is answered with one
    placeholder line for each statement, whatever the statement prints;
    a source without any statement is told that none was found. *)
Theorem printf_is_answered_with_placeholders (args : list string) :
  Forall (fun a => free_of 59 a = true) args ->
  mockCExecution (c_prints args)
  = match args with
    | [] => "No printf/cout statements found in the code."
    | _ => "Simulated C output:\n"
           ++ times (List.length args) "[printf output simulation]\n"
    end.
Proof.
  intros F. unfold mockCExecution. rewrite (count_printf_program args F).
  destruct args as [|a args]; reflexivity.
Qed.

End MockC.

Lemma printf_placeholders_witness :
  MockDockerService.mockCExecution
    (c_prints ["'%d', 1 + 1"; "'bye'"])
  = "Simulated C output:\n[printf output simulation]\n[printf output simulation]\n".
Proof.
  apply (printf_is_answered_with_placeholders ["'%d', 1 + 1"; "'bye'"]).
  repeat constructor.
Defined.
(** ** The route of the executions *)

(** X18: as wired to the mock executor, the route answers every request
    and touches nothing: 400 when code or language is missing or empty,
    and otherwise 200 with the result of the mock, whatever the language
    is and however the run went; it never answers 500. *)
Theorem route_as_wired
  (match_varInput : string -> option (string * string))
  (print_matches : string -> list string)
  (patched_line : string -> string -> string -> string)
  (mockJavaScriptExecution mockPythonExecution : string -> string -> string + string)
  (drawn executionId : string) (body : ExecuteRoute.Body) (h : Machine) :
  let mock code language input :=
    MockDockerService.executeCode match_varInput print_matches patched_line
      mockJavaScriptExecution mockPythonExecution drawn code language input in
  let handled :=
    ExecuteRoute.execute (fun code language input => ret (mock code language input))
      executionId body h in
  snd handled = h /\
  if ExecuteRoute.given (ExecuteRoute.code body)
     && ExecuteRoute.given (ExecuteRoute.language body)
  then
    let result := mock (ExecuteRoute.or_empty (ExecuteRoute.code body))
                    (ExecuteRoute.or_empty (ExecuteRoute.language body))
                    (ExecuteRoute.or_empty (ExecuteRoute.input body)) in
    ExecuteRoute.response (fst handled)
    = Some (200, ExecuteRoute.Completed executionId "Code execution completed"
                   result) /\
    ExecuteRoute.emitted (fst handled) = Some (executionId, result)
  else
    ExecuteRoute.response (fst handled)
    = Some (400, ExecuteRoute.Rejected "Code and language are required") /\
    ExecuteRoute.emitted (fst handled) = None.
Proof.
  cbv zeta. unfold ExecuteRoute.execute.
  destruct (ExecuteRoute.given (ExecuteRoute.code body));
    destruct (ExecuteRoute.given (ExecuteRoute.language body)); simpl; auto.
Qed.

(** ** Commands run in a container *)

Lemma append_empty (s : string) : (s ++ "")%string = s.
Proof. induction s as [|c s IH]; simpl; [|rewrite IH]; reflexivity. Qed.

Lemma concat_cons (x : string) (l : list string) :
  String.concat "" (x :: l) = (x ++ String.concat "" l)%string.
Proof. destruct l; simpl; [rewrite append_empty|]; reflexivity. Qed.

Lemma listen_chunks (output : string) (chunks : list string)
  (rest : list ContainerExec.StreamEvent) :
  ContainerExec.listen output (map ContainerExec.data chunks ++ rest)
  = ContainerExec.listen (output ++ String.concat "" chunks) rest.
Proof.
  revert output. induction chunks as [|c chunks IH]; intros output.
  - simpl. rewrite append_empty. reflexivity.
  - rewrite concat_cons. cbn [map app ContainerExec.listen].
    rewrite IH, append_assoc. reflexivity.
Qed.

(** X20: the output of a command is what its stream gave before it
    ended, in order, and nothing of what comes later; an error of the
    stream before its end rejects, while a failure to set the command up
    resolves, with an object that has an error in the place of the
    output; and as long as the stream neither ends nor fails, the caller
    waits. *)
Theorem command_output_is_what_came_before_the_end (chunks : list string)
  (rest : list ContainerExec.StreamEvent) (message : string)
  (exec_fails start_fails : option string) :
  ContainerExec.runCommandInContainer None None
    (map ContainerExec.data chunks ++ ContainerExec.end_of_stream :: rest)
  = Resolved (ContainerExec.with_output (String.concat "" chunks)) /\
  ContainerExec.runCommandInContainer None None
    (map ContainerExec.data chunks ++ ContainerExec.error message :: rest)
  = Thrown message /\
  ContainerExec.runCommandInContainer None None
    (map ContainerExec.data chunks)
  = Pending /\
  ContainerExec.runCommandInContainer (Some message) start_fails rest
  = Resolved (ContainerExec.with_error message) /\
  ContainerExec.runCommandInContainer None (Some message) rest
  = Resolved (ContainerExec.with_error message).
Proof.
  unfold ContainerExec.runCommandInContainer. repeat split.
  - rewrite listen_chunks. reflexivity.
  - rewrite listen_chunks. reflexivity.
  - rewrite <- (app_nil_r (map ContainerExec.data chunks)).
    rewrite listen_chunks. reflexivity.
Qed.
(** ** The sessions of the Docker-backed terminal *)

Section TerminalSessionsProperties.

Import TerminalSessions.

Lemma session_get_set_same m id s : get (set m id s) id = Some s.
Proof.
  induction m as [|[k s0] m IH]; simpl.
  - rewrite Nat.eqb_refl. reflexivity.
  - destruct (Nat.eqb_spec k id); simpl.
    + subst. rewrite Nat.eqb_refl. reflexivity.
    + destruct (Nat.eqb_spec k id); [contradiction|]. exact IH.
Qed.

Lemma session_get_set_other m id id' s :
  id <> id' -> get (set m id s) id' = get m id'.
Proof.
  intros N. induction m as [|[k s0] m IH]; simpl.
  - destruct (Nat.eqb_spec id id'); [contradiction|reflexivity].
  - destruct (Nat.eqb_spec k id); simpl.
    + subst. destruct (Nat.eqb_spec id id'); [contradiction|reflexivity].
    + destruct (Nat.eqb_spec k id'); auto.
Qed.

Lemma session_get_delete m id id' :
  get (delete m id) id' = if Nat.eqb id id' then None else get m id'.
Proof.
  induction m as [|[k s0] m IH]; simpl.
  - destruct (Nat.eqb id id'); reflexivity.
  - destruct (Nat.eqb_spec k id); simpl.
    + subst. rewrite IH. destruct (Nat.eqb_spec id id'); reflexivity.
    + rewrite IH. destruct (Nat.eqb_spec k id'); auto.
      subst. destruct (Nat.eqb_spec id id'); [congruence|reflexivity].
Qed.

(** No session is the socket's, as the loop of the handler reads it. *)
Lemma no_session_of_socket (sock : nat) (m : list (nat * Session)) :
  filter (fun e => same_socket (session_socket (snd e)) sock) m = [].
Proof. induction m as [|e m IH]; simpl; auto. Qed.

Lemma on_disconnect_idle sock stop_fails st :
  on_disconnect sock stop_fails st = st.
Proof. unfold on_disconnect. rewrite no_session_of_socket. reflexivity. Qed.

Lemma on_create_sessions sock lang cf sf af st id :
  id <> uuid st ->
  get (activeSessions (on_create sock lang cf sf af st)) id
  = get (activeSessions st) id.
Proof.
  intros N. unfold on_create, creation_failed.
  destruct cf; [reflexivity|]. destruct sf; [reflexivity|].
  destruct af; [reflexivity|]. simpl.
  apply session_get_set_other. auto.
Qed.

(** X21: the loss of a socket closes no session: the handler of the
    disconnection looks for the sessions whose record names the socket,
    and no record does.  Whatever the state, the sessions created over
    the socket stay in the map, no container is stopped and nothing is
    sent. *)
Theorem disconnect_stops_nothing (sock : nat)
  (stop_fails : nat -> option string) (st : State) :
  step (disconnect sock stop_fails) st = st.
Proof. simpl. apply on_disconnect_idle. Qed.

(** X22: a session leaves the map in one way only: by the close event
    of its own listeners, and only when the stop of its container did not
    fail; that event calls the stop of that container and nothing else. *)
Theorem session_ends_only_by_its_close (e : Event) (st : State) (id : nat)
  (session : Session) :
  get (activeSessions st) id = Some session ->
  get (activeSessions (step e st)) id = None ->
  exists sock,
    e = terminal_close sock id None /\
    listening sock id st = true /\
    calls (step e st) = (calls st ++ [stop (container session)])%list.
Proof.
  intros G E.
  destruct e as [sock lang cf sf af|sock sid input|sock sid cols rows
                |sock sid fails|sock fails|sid chunk]; simpl in E.
  - destruct (Nat.eq_dec id (uuid st)) as [->|N].
    + unfold on_create, creation_failed in E.
      destruct cf; [simpl in E; congruence|].
      destruct sf; [simpl in E; congruence|].
      destruct af; [simpl in E; congruence|].
      simpl in E. rewrite session_get_set_same in E. discriminate.
    + rewrite on_create_sessions in E by exact N. congruence.
  - destruct (listening sock sid st); [|congruence].
    unfold on_input in E. destruct (get (activeSessions st) sid);
      simpl in E; congruence.
  - destruct (listening sock sid st); [|congruence].
    unfold on_resize in E. destruct (get (activeSessions st) sid);
      simpl in E; congruence.
  - simpl. destruct (listening sock sid st) eqn:L; [|congruence].
    unfold closeTerminalSession in *.
    destruct (get (activeSessions st) sid) as [s|] eqn:G'; [|congruence].
    destruct fails as [f|]; [simpl in E; congruence|].
    simpl in E. rewrite session_get_delete in E.
    destruct (Nat.eqb_spec sid id) as [->|N]; [|congruence].
    exists sock. rewrite L. replace s with session by congruence. auto.
  - rewrite on_disconnect_idle in E. congruence.
  - unfold on_output in E. destruct (find _ _); simpl in E; congruence.
Qed.

End TerminalSessionsProperties.

Lemma session_ends_witness :
  let st := TerminalSessions.run
              [TerminalSessions.terminal_create 7 (Some "python") None None None]
              TerminalSessions.initial in
  exists sock,
    TerminalSessions.terminal_close 7 0 None
    = TerminalSessions.terminal_close sock 0 None /\
    TerminalSessions.listening sock 0 st = true /\
    TerminalSessions.calls
      (TerminalSessions.step (TerminalSessions.terminal_close 7 0 None) st)
    = (TerminalSessions.calls st ++ [TerminalSessions.stop 0])%list.
Proof.
  cbv zeta.
  apply (session_ends_only_by_its_close
           (TerminalSessions.terminal_close 7 0 None)
           (TerminalSessions.run
              [TerminalSessions.terminal_create 7 (Some "python") None None None]
              TerminalSessions.initial)
           0
           {| TerminalSessions.container := 0; TerminalSessions.stream := 0;
              TerminalSessions.language := Some "python" |}).
  - reflexivity.
  - reflexivity.
Defined.
(** ** The mock executor that writes a workspace *)

Section FileMock.

Variable python_special : string -> string -> option string.
Variables python_prints javascript_logs : string -> string.
Variable invalid_path : string.

Ltac crack_matches :=
  repeat first
    [ match goal with
      | |- context [Js.get ?o ?k] => destruct (Js.get o k)
      | |- context [mkdir_fails ?w] => destruct (mkdir_fails w)
      | |- context [MockDockerServiceFiles.sourceFilename ?a ?b ?c ?d] =>
          destruct (MockDockerServiceFiles.sourceFilename a b c d)
      | |- context [writeSource_fails ?w] => destruct (writeSource_fails w)
      | |- context [Js.truthy ?i] => destruct (Js.truthy i)
      | |- context [writeInput_fails ?w] => destruct (writeInput_fails w)
      | |- context [if ?c then python_special ?x ?y else None] =>
          destruct (if c then python_special x y else None)
      end
    | progress simpl ].

Lemma file_mock_calls (w : World) (code language input : string) :
  calls_only (fun a => forall d, a <> Rm d)
    (MockDockerServiceFiles.executeCode python_special python_prints
     javascript_logs invalid_path w code language input).
Proof.
  unfold MockDockerServiceFiles.executeCode.
  apply calls_only_try_catch; [|intros ?; apply calls_only_ret].
  destruct (Js.get _ _);
    [| |apply calls_only_throw];
    (apply calls_only_bind; [apply calls_only_mkdir; discriminate|intros _];
     destruct (MockDockerServiceFiles.sourceFilename _ _ _ _);
     [|apply calls_only_throw];
     apply calls_only_bind; [apply calls_only_writeFile; discriminate|intros _];
     apply calls_only_bind;
     [apply calls_only_when; apply calls_only_writeFile; discriminate|intros _];
     destruct (if String.eqb _ _ then _ else _); apply calls_only_ret).
Qed.

(** X23: this mock never rejects and never stays pending: a language it
    does not know and a failure of the file system alike end in a result;
    and it never removes what it wrote: no run removes a directory, so
    the workspace of every run whose directory was created is still there
    when the run has ended. *)
Theorem file_mock_keeps_every_workspace (w : World)
  (code language input : string) (h : Machine) :
  let run :=
    MockDockerServiceFiles.executeCode python_special python_prints
      javascript_logs invalid_path w code language input h in
  (exists result, fst run = Resolved result) /\
  (forall d, ~ In (Rm d) (performed h (snd run))) /\
  (Js.get MockDockerServiceFiles.languageConfigs (Js.toLowerCase language)
   <> Js.Undefined ->
   mkdir_fails w = None ->
   dir_exists (DockerService.tempDir w) (snd run) = true).
Proof.
  cbv zeta. split; [|split].
  - unfold MockDockerServiceFiles.executeCode, try_catch, bind,
      fs.mkdir, fs.writeFile, DockerService.when, attempt, ret, throw.
    crack_matches; eauto.
  - intros d I.
    destruct (file_mock_calls w code language input h) as (acts & E & F).
    rewrite (performed_extension _ _ _ E) in I.
    rewrite Forall_forall in F. exact (F _ I d eq_refl).
  - intros G M.
    unfold MockDockerServiceFiles.executeCode, try_catch, bind,
      fs.mkdir, fs.writeFile, DockerService.when, attempt, ret, throw.
    rewrite M.
    destruct (Js.get _ _); [| |congruence];
      crack_matches; unfold dir_exists; simpl;
      rewrite String.eqb_refl; reflexivity.
Qed.

(** X24: for a language of the registry other than python and
    javascript, a run that wrote its files resolves with success, exit
    code 0 and one line that names the language, whatever the code and
    the input are. *)
Theorem file_mock_answers_with_a_placeholder (w : World)
  (code language input : string) (h : Machine)
  (profile : MockDockerServiceFiles.LanguageConfig) :
  Js.get MockDockerServiceFiles.languageConfigs (Js.toLowerCase language)
  = Js.Own profile ->
  Js.toLowerCase language <> "python" ->
  Js.toLowerCase language <> "javascript" ->
  mkdir_fails w = None -> writeSource_fails w = None ->
  writeInput_fails w = None ->
  fst (MockDockerServiceFiles.executeCode python_special python_prints
         javascript_logs invalid_path w code language input h)
  = Resolved {| executionId := uuidv4 w; status := "success";
                output := "Mock output for " ++ language ++ " code" ++ Js.LF;
                exitCode := 0 |}.
Proof.
  intros G P J M S I.
  unfold MockDockerServiceFiles.executeCode, try_catch, bind,
    fs.mkdir, fs.writeFile, DockerService.when, attempt, ret, throw.
  rewrite G, M, S, I.
  apply String.eqb_neq in P, J.
  unfold MockDockerServiceFiles.sourceFilename,
    MockDockerServiceFiles.plain_output. rewrite P, J.
  destruct (String.eqb (Js.toLowerCase language) "java");
    destruct (Js.truthy input); reflexivity.
Qed.

End FileMock.

Lemma file_mock_placeholder_witness :
  fst (MockDockerServiceFiles.executeCode (fun _ _ => None) (fun _ => "")
         (fun _ => "") "" calm "int main() { return 0; }" "C" "42"
         empty_machine)
  = Resolved {| executionId := uuidv4 calm; status := "success";
                output := "Mock output for C code" ++ Js.LF;
                exitCode := 0 |}.
Proof.
  apply (file_mock_answers_with_a_placeholder (fun _ _ => None) (fun _ => "")
           (fun _ => "") "" calm "int main() { return 0; }" "C" "42"
           empty_machine
           {| MockDockerServiceFiles.extension := "c";
              MockDockerServiceFiles.filename := "program.c";
              MockDockerServiceFiles.inputHandler := Some "handleCInput" |});
    try reflexivity; discriminate.
Defined.
